(** * The image augmenter: augmentation engine, image processor and batch
      generator, embedded from the Python sources

    The development follows the layout of the repository:

    - [Py]: the fragment of Python the sources rely on (exceptions, the
      values stored in parameter dictionaries, integer and binary64
      arithmetic, truthiness and comparisons);
    - [Pil]: raster images as Pillow presents them, with the primitives whose
      behaviour is fixed by the library (transpose, nearest resize);
    - [Runtime]: the numerical kernels, random sources and file system, kept
      abstract;
    - the object store and the monad in which the methods run;
    - [Helpers] (src/utils/helpers.py), [AugmentationEngine]
      (src/core/augmentations.py), [Settings] (src/config/settings.py),
      [ImageProcessor] (src/core/image_processor.py) and [BatchGenerator]
      (src/core/batch_generator.py);
    - a small runtime on which the model can be evaluated;
    - the vocabulary of the properties, then the properties themselves. *)

From Stdlib Require Import ZArith String Ascii Floats.
From stdpp Require Import base option gmap strings list pretty.

#[local] Set Warnings "-inexact-float".
#[local] Open Scope Z_scope.

(** ** Python values and arithmetic *)

Module Py.

(** Exception classes that the modelled code and its libraries raise.  All
    of them derive from [Exception], so an [except Exception] clause
    catches every one. *)
Inductive exn_class :=
| ZeroDivisionError
| ValueError
| TypeError
| KeyError
| IndexError
| OverflowError
| OSError
| ReferenceError
| Cv2Error.

(** An exception instance: its class and the text [str(e)] yields. *)
Record exn := Exn { exn_cls : exn_class; exn_str : string }.

Inductive result (A : Type) :=
| Ok (a : A)
| Raise (e : exn).
Arguments Ok {A} a.
Arguments Raise {A} e.

Definition is_ok {A} (r : result A) : bool :=
  match r with Ok _ => true | Raise _ => false end.

Definition raised_class {A} (r : result A) : option exn_class :=
  match r with Ok _ => None | Raise e => Some (exn_cls e) end.

Definition rbind {A B} (r : result A) (k : A → result B) : result B :=
  match r with Ok a => k a | Raise e => Raise e end.

(** The values found in parameter dictionaries: [int], [bool], [float]
    (IEEE binary64, as CPython's) and [str]. *)
Inductive pyval :=
| VInt (n : Z)
| VBool (b : bool)
| VFloat (f : float)
| VStr (s : string).

(** *** binary64 helpers *)

(** [float(n)] for an [int]: correctly rounded, [OverflowError] beyond the
    binary64 range. *)
Definition float_of_Z (n : Z) : float :=
  SF2Prim (binary_normalize prec emax n 0 false).

Definition int_to_double (n : Z) : result float :=
  let f := float_of_Z n in
  match Prim2SF f with
  | S754_infinity _ =>
      Raise (Exn OverflowError "int too large to convert to float")
  | _ => Ok f
  end.

(** [int(x)] for a [float]: truncation towards zero. *)
Definition int_of_float (x : float) : result Z :=
  match Prim2SF x with
  | S754_zero _ => Ok 0
  | S754_finite s m e =>
      let v := if 0 <=? e then Z.pos m * 2 ^ e else Z.pos m / 2 ^ (- e) in
      Ok (if s then - v else v)
  | S754_infinity _ =>
      Raise (Exn OverflowError "cannot convert float infinity to integer")
  | S754_nan => Raise (Exn ValueError "cannot convert float NaN to integer")
  end.

(** Exact comparison of an [int] with a [float], as CPython performs it;
    [None] when the float is a NaN. *)
Definition Z_compare_float (n : Z) (f : float) : option comparison :=
  match Prim2SF f with
  | S754_nan => None
  | S754_infinity s => Some (if s then Gt else Lt)
  | S754_zero _ => Some (n ?= 0)
  | S754_finite s m e =>
      let v := if s then Z.neg m else Z.pos m in
      Some (if 0 <=? e then n ?= v * 2 ^ e else n * 2 ^ (- e) ?= v)
  end.

(** *** Operations on values *)

Definition Z_of_bool (b : bool) : Z := if b then 1 else 0.

(** [bool(v)] *)
Definition truthy (v : pyval) : bool :=
  match v with
  | VInt n => negb (n =? 0)
  | VBool b => b
  | VFloat f => negb (PrimFloat.eqb f 0%float)
  | VStr s => negb (String.eqb s EmptyString)
  end.

(** Truthiness of the result of [d.get(k)], which is [None] when the key
    is missing. *)
Definition truthy_opt (v : option pyval) : bool :=
  match v with Some x => truthy x | None => false end.

(** A numeric operand: [bool] is a subclass of [int]. *)
Inductive num := NInt (n : Z) | NFloat (f : float).

Definition as_num (v : pyval) : option num :=
  match v with
  | VInt n => Some (NInt n)
  | VBool b => Some (NInt (Z_of_bool b))
  | VFloat f => Some (NFloat f)
  | VStr _ => None
  end.

Definition num_eqb (a b : num) : bool :=
  match a, b with
  | NInt m, NInt n => m =? n
  | NFloat x, NFloat y => PrimFloat.eqb x y
  | NInt m, NFloat y =>
      match Z_compare_float m y with Some Eq => true | _ => false end
  | NFloat x, NInt n =>
      match Z_compare_float n x with Some Eq => true | _ => false end
  end.

Definition num_ltb (a b : num) : bool :=
  match a, b with
  | NInt m, NInt n => m <? n
  | NFloat x, NFloat y => PrimFloat.ltb x y
  | NInt m, NFloat y =>
      match Z_compare_float m y with Some Lt => true | _ => false end
  | NFloat x, NInt n =>
      match Z_compare_float n x with Some Gt => true | _ => false end
  end.

(** [a == b] *)
Definition py_eqb (a b : pyval) : bool :=
  match as_num a, as_num b with
  | Some x, Some y => num_eqb x y
  | None, None =>
      match a, b with VStr s, VStr t => String.eqb s t | _, _ => false end
  | _, _ => false
  end.

(** [a != b] *)
Definition py_neb (a b : pyval) : bool := negb (py_eqb a b).

Definition type_error (msg : string) : exn := Exn TypeError msg.

(** [a < b] *)
Definition py_lt (a b : pyval) : result bool :=
  match as_num a, as_num b with
  | Some x, Some y => Ok (num_ltb x y)
  | None, None =>
      match a, b with
      | VStr s, VStr t => Ok (String.ltb s t)
      | _, _ => Raise (type_error "'<' not supported")
      end
  | _, _ => Raise (type_error "'<' not supported between instances")
  end.

(** [a > b] *)
Definition py_gt (a b : pyval) : result bool := py_lt b a.

(** [min(a, b)] and [max(a, b)] of the builtins: the first argument is
    kept unless the second is strictly smaller (larger). *)
Definition py_min (a b : pyval) : result pyval :=
  rbind (py_lt b a) (λ c, Ok (if c then b else a)).

Definition py_max (a b : pyval) : result pyval :=
  rbind (py_gt b a) (λ c, Ok (if c then b else a)).

(** The float an operand is converted to in mixed arithmetic. *)
Definition num_to_double (a : num) : result float :=
  match a with NInt n => int_to_double n | NFloat f => Ok f end.

Definition num_val (a : num) : pyval :=
  match a with NInt n => VInt n | NFloat f => VFloat f end.

Definition num_arith (fz : Z → Z → Z) (ff : float → float → float)
    (a b : num) : result pyval :=
  match a, b with
  | NInt m, NInt n => Ok (VInt (fz m n))
  | _, _ =>
      rbind (num_to_double a) (λ x,
      rbind (num_to_double b) (λ y, Ok (VFloat (ff x y))))
  end.

Fixpoint str_repeat (n : nat) (s : string) : string :=
  match n with O => EmptyString | S k => (s ++ str_repeat k s)%string end.

(** [a + b] *)
Definition py_add (a b : pyval) : result pyval :=
  match as_num a, as_num b with
  | Some x, Some y => num_arith Z.add PrimFloat.add x y
  | None, None =>
      match a, b with
      | VStr s, VStr t => Ok (VStr (s ++ t))
      | _, _ => Raise (type_error "unsupported operand type(s) for +")
      end
  | _, _ => Raise (type_error "unsupported operand type(s) for +")
  end.

(** [a * b] *)
Definition py_mul (a b : pyval) : result pyval :=
  match as_num a, as_num b with
  | Some x, Some y => num_arith Z.mul PrimFloat.mul x y
  | None, Some (NInt n) =>
      match a with
      | VStr s => Ok (VStr (str_repeat (Z.to_nat n) s))
      | _ => Raise (type_error "unsupported operand type(s) for *")
      end
  | Some (NInt n), None =>
      match b with
      | VStr s => Ok (VStr (str_repeat (Z.to_nat n) s))
      | _ => Raise (type_error "unsupported operand type(s) for *")
      end
  | _, _ => Raise (type_error "can't multiply sequence by non-int")
  end.

(** The C [double] a library call receives for a numeric argument. *)
Definition as_double (v : pyval) : result float :=
  match as_num v with
  | Some x => num_to_double x
  | None => Raise (type_error "must be real number, not str")
  end.

(** [a // b] on [int]s: floor division, which is what [Z.div] computes. *)
Definition floordiv (a b : Z) : result Z :=
  if b =? 0 then
    Raise (Exn ZeroDivisionError "integer division or modulo by zero")
  else Ok (a / b).

(** [a / b] on [int]s (true division).  The operands of the modelled calls
    are image dimensions and configured limits, far below 2^53, where the
    quotient of the converted operands is the correctly rounded result. *)
Definition truediv (a b : Z) : result float :=
  if b =? 0 then Raise (Exn ZeroDivisionError "division by zero")
  else Ok (PrimFloat.div (float_of_Z a) (float_of_Z b)).

(** [range(n)] *)
Definition range (n : Z) : list Z := Z.of_nat <$> seq 0 (Z.to_nat n).

(** [str.lower()] on ASCII text. *)
Definition lower_ascii (c : ascii) : ascii :=
  let n := nat_of_ascii c in
  if (Nat.leb 65 n && Nat.leb n 90)%bool then ascii_of_nat (n + 32) else c.

Fixpoint lower (s : string) : string :=
  match s with
  | EmptyString => EmptyString
  | String c r => String (lower_ascii c) (lower r)
  end.

(** The format specification [:04d] on a non-negative [int]. *)
Definition format_04d (n : Z) : string :=
  let digits := pretty (Z.to_N n) in
  (str_repeat (4 - String.length digits)%nat "0" ++ digits)%string.

End Py.

(** ** Raster images *)

Module Pil.

(** An RGB pixel: three bytes. *)
Definition pixel : Type := Z * Z * Z.

(** The contents of an [Image] object in mode RGB: its size and its rows
    of pixels, top to bottom.  Images in other modes (palette, greyscale,
    with an alpha channel) are outside the model. *)
Record Image := mkImage {
  width : nat;
  height : nat;
  rows : list (list pixel)
}.

(** [image.size] *)
Definition size (im : Image) : Z * Z :=
  (Z.of_nat (width im), Z.of_nat (height im)).

Definition well_formed (im : Image) : Prop :=
  length (rows im) = height im ∧
  Forall (λ r, length r = width im) (rows im).

Definition nonempty (im : Image) : Prop :=
  (0 < width im)%nat ∧ (0 < height im)%nat.

(** [Image.transpose(method)] for the two mirror methods. *)
Inductive transpose_method := FLIP_LEFT_RIGHT | FLIP_TOP_BOTTOM.

Definition transpose (im : Image) (method : transpose_method) : Image :=
  match method with
  | FLIP_LEFT_RIGHT => mkImage (width im) (height im) (reverse <$> rows im)
  | FLIP_TOP_BOTTOM => mkImage (width im) (height im) (reverse (rows im))
  end.

Definition size_eqb (a b : Z * Z) : bool :=
  (a.1 =? b.1) && (a.2 =? b.2).

(** Nearest-neighbour sampling: output row [y] copies source row
    [pick h h' y], output column [x] copies source column [pick w w' x].
    [pick] is the coordinate rounding of the library. *)
Definition sample_nearest (pick : nat → nat → nat → nat)
    (im : Image) (w' h' : nat) : Image :=
  mkImage w' h'
    ((λ y, (λ x, (rows im !!! pick (height im) h' y) !!! pick (width im) w' x)
             <$> seq 0 w')
       <$> seq 0 h').

(** [Image.resize(size, Image.NEAREST)]: a request for the current size
    returns a copy; a size with a dimension below 1 is refused. *)
Definition resize_nearest (pick : nat → nat → nat → nat)
    (im : Image) (sz : Z * Z) : Py.result Image :=
  if size_eqb (size im) sz then Py.Ok im
  else if (sz.1 <? 1) || (sz.2 <? 1) then
    Py.Raise (Py.Exn Py.ValueError "height and width must be > 0")
  else Py.Ok (sample_nearest pick im (Z.to_nat sz.1) (Z.to_nat sz.2)).

(** The enhancers of [ImageEnhance]. *)
Inductive enhancer := Brightness | Contrast | Color | Sharpness.

(** Every pixel of the image, row by row. *)
Definition pixels (im : Image) : list pixel := mjoin (rows im).

End Pil.

(** A numpy array of shape (rows, cols, 3) and type uint8, as [np.array]
    yields for an RGB image. *)
Abbreviation ndarray := (list (list Pil.pixel)).

(** ** The libraries and the operating system

    The numerical kernels of Pillow, OpenCV and numpy, the two random
    sources and the file system are parameters of the development.  The
    laws record what their documentation promises and the proofs use. *)

Class Runtime := {
  (** Pillow: coordinate rounding of nearest-neighbour resampling; source
      index sampled by output index [i] when [s] pixels are resized to [d]. *)
  nearest_src : ∀ (s d i : nat), nat;
  nearest_src_lt : ∀ s d i, (i < d)%nat → (0 < s)%nat → (nearest_src s d i < s)%nat;
  (** Pillow: the degenerate image an enhancer is built with, and
      [Image.blend(degenerate, image, alpha)]. *)
  pil_degenerate : Pil.enhancer → Pil.Image → Py.result Pil.Image;
  pil_blend : Pil.Image → Pil.Image → float → Py.result Pil.Image;
  (** Pillow: [image.filter(ImageFilter.GaussianBlur(radius))] *)
  pil_gaussian_blur : Pil.Image → Z → Py.result Pil.Image;
  (** Pillow: the rows of [image.resize((w, h), LANCZOS)] for [w, h >= 1] *)
  pil_lanczos_rows : Pil.Image → nat → nat → list (list Pil.pixel);
  (** Pillow: [Image.open] on the contents of a file *)
  pil_open : list Z → Py.result Pil.Image;
  (** OpenCV *)
  cv2_matrix : Type;
  cv2_getRotationMatrix2D : Z * Z → float → float → cv2_matrix;
  cv2_warpAffine : ndarray → cv2_matrix → Z * Z → Py.result ndarray;
  cv2_filter2D : ndarray → list (list float) → Py.result ndarray;
  (** numpy: the global random state and [np.random.normal(loc, scale, n)] *)
  np_state : Type;
  np_random_normal : float → float → nat → np_state → np_state * Py.result (list float);
  (** module [random]: the global state, [seed], [random()] and the
      integer draw below a bound that [randint] and [choice] use *)
  rng_state : Type;
  rng_seed : Z → rng_state;
  rng_random : rng_state → float * rng_state;
  rng_randbelow : Z → rng_state → Z * rng_state;
  (** builtin [round(x, ndigits)] on floats *)
  py_round : float → Z → float;
  (** [os.path.splitext] *)
  os_path_splitext : string → string * string;
  (** file system: [Path(p).mkdir(parents=True, exist_ok=True)], the path
      operator [/] and [image.save(path, format="PNG")] *)
  fs_state : Type;
  fs_mkdir : string → fs_state → fs_state * Py.result unit;
  path_join : string → string → string;
  fs_save_png : string → Pil.Image → fs_state → fs_state * Py.result unit
}.

(** ** The object store and the monad of methods

    [Image] and [dict] objects are mutable and passed by reference: they live
    in a store and are named by locations.  Numbers, booleans and strings are
    immutable and passed as values. *)

Definition loc : Type := positive.

(** The contents of a parameter dictionary. *)
Abbreviation dict := (gmap string Py.pyval).

Module Store.
Section store.
Context `{RT : Runtime}.

Record World := mkWorld {
  images : gmap loc Pil.Image;     (** the [Image] objects *)
  dicts : gmap loc dict;           (** the [dict] objects *)
  py_random : rng_state;           (** state of module [random] *)
  np_random : np_state;            (** state of [np.random] *)
  filesystem : fs_state;
  stdout : list string             (** lines printed so far *)
}.

(** A computation: it transforms the world and returns or raises. *)
Definition M (A : Type) : Type := World → World * Py.result A.

#[global] Instance M_ret : MRet M := λ A a w, (w, Py.Ok a).

#[global] Instance M_bind : MBind M := λ A B k m w,
  match m w with
  | (w', Py.Ok a) => k a w'
  | (w', Py.Raise e) => (w', Py.Raise e)
  end.

Definition raise {A} (e : Py.exn) : M A := λ w, (w, Py.Raise e).

(** A pure library call that returns or raises. *)
Definition lift {A} (r : Py.result A) : M A := λ w, (w, r).

(** [try: body except Exception as e: handler(e)] *)
Definition try_except {A} (body : M A) (handler : Py.exn → M A) : M A :=
  λ w, match body w with
       | (w', Py.Ok a) => (w', Py.Ok a)
       | (w', Py.Raise e) => handler e w'
       end.

(** [for x in xs: acc = body(acc, x)] *)
Fixpoint for_each {A B} (body : B → A → M B) (xs : list A) (acc : B) : M B :=
  match xs with
  | [] => mret acc
  | x :: rest => acc' ← body acc x; for_each body rest acc'
  end.

(** [if c: body], with no [else] branch *)
Definition when (c : bool) (body : M unit) : M unit :=
  if c then body else mret tt.

(** An update of the world that cannot fail. *)
Definition modify (f : World → World) : M unit := λ w, (f w, Py.Ok tt).

(** A location that names no object.  A Python reference keeps its object
    alive, so this cannot occur in a run of the program; the model raises
    on it rather than inventing contents. *)
Definition dangling : Py.exn :=
  Py.Exn Py.ReferenceError "object no longer exists".

(** *** Image objects *)

Definition load_image (l : loc) : M Pil.Image := λ w,
  match images w !! l with
  | Some im => (w, Py.Ok im)
  | None => (w, Py.Raise dangling)
  end.

Definition set_images (f : gmap loc Pil.Image → gmap loc Pil.Image)
    (w : World) : World :=
  mkWorld (f (images w)) (dicts w) (py_random w) (np_random w)
          (filesystem w) (stdout w).

(** A library call that returns a new [Image] object. *)
Definition new_image (im : Pil.Image) : M loc := λ w,
  let l := fresh (dom (images w)) in
  (set_images <[l := im]> w, Py.Ok l).

(** *** Dictionary objects *)

Definition load_dict (l : loc) : M dict := λ w,
  match dicts w !! l with
  | Some d => (w, Py.Ok d)
  | None => (w, Py.Raise dangling)
  end.

Definition set_dicts (f : gmap loc dict → gmap loc dict) (w : World) : World :=
  mkWorld (images w) (f (dicts w)) (py_random w) (np_random w)
          (filesystem w) (stdout w).

(** A dictionary display [{...}] or [d.copy()]: a new object. *)
Definition new_dict (d : dict) : M loc := λ w,
  let l := fresh (dom (dicts w)) in
  (set_dicts <[l := d]> w, Py.Ok l).

(** [d.copy()] *)
Definition dict_copy (l : loc) : M loc := d ← load_dict l; new_dict d.

(** [d.get(k)]: [None] for a missing key *)
Definition dict_get (l : loc) (k : string) : M (option Py.pyval) :=
  d ← load_dict l; mret (d !! k).

(** [d.get(k, dflt)] *)
Definition dict_get_default (l : loc) (k : string) (dflt : Py.pyval) : M Py.pyval :=
  d ← load_dict l; mret (default dflt (d !! k)).

(** [d[k]] *)
Definition dict_getitem (l : loc) (k : string) : M Py.pyval :=
  d ← load_dict l;
  match d !! k with
  | Some v => mret v
  | None => raise (Py.Exn Py.KeyError k)
  end.

(** [k in d] *)
Definition dict_contains (l : loc) (k : string) : M bool :=
  d ← load_dict l; mret (bool_decide (is_Some (d !! k))).

(** [d[k] = v] *)
Definition dict_setitem (l : loc) (k : string) (v : Py.pyval) : M unit :=
  d ← load_dict l; modify (set_dicts <[l := <[k := v]> d]>).

(** [del d[k]] *)
Definition dict_delitem (l : loc) (k : string) : M unit :=
  d ← load_dict l;
  match d !! k with
  | Some _ => modify (set_dicts <[l := delete k d]>)
  | None => raise (Py.Exn Py.KeyError k)
  end.

(** *** Random sources, console and files *)

Definition set_py_random (s : rng_state) (w : World) : World :=
  mkWorld (images w) (dicts w) s (np_random w) (filesystem w) (stdout w).

Definition set_np_random (s : np_state) (w : World) : World :=
  mkWorld (images w) (dicts w) (py_random w) s (filesystem w) (stdout w).

Definition set_filesystem (s : fs_state) (w : World) : World :=
  mkWorld (images w) (dicts w) (py_random w) (np_random w) s (stdout w).

(** [random.seed(n)] *)
Definition random_seed (n : Z) : M unit :=
  modify (set_py_random (rng_seed n)).

(** [random.random()] *)
Definition random_random : M float := λ w,
  let '(x, s) := rng_random (py_random w) in (set_py_random s w, Py.Ok x).

Definition random_randbelow (n : Z) : M Z := λ w,
  let '(x, s) := rng_randbelow n (py_random w) in (set_py_random s w, Py.Ok x).

(** [random.randint(a, b)]: [a] plus a draw below [b - a + 1] *)
Definition random_randint (a b : Z) : M Z :=
  k ← random_randbelow (b - a + 1); mret (a + k).

(** [random.uniform(a, b)]: [a + (b - a) * random()] *)
Definition random_uniform (a b : float) : M float :=
  u ← random_random; mret (a + (b - a) * u)%float.

(** [random.choice([True, False])] *)
Definition random_choice_bool : M bool :=
  k ← random_randbelow 2; mret (bool_decide (k = 0)).

(** [np.random.normal(loc, scale, n)] *)
Definition np_normal (mean sigma : float) (n : nat) : M (list float) := λ w,
  let '(s, r) := np_random_normal mean sigma n (np_random w) in
  (set_np_random s w, r).

(** [print(line)] *)
Definition print (line : string) : M unit :=
  modify (λ w, mkWorld (images w) (dicts w) (py_random w) (np_random w)
                       (filesystem w) (stdout w ++ [line])).

(** [Path(folder).mkdir(parents=True, exist_ok=True)] *)
Definition mkdir (folder : string) : M unit := λ w,
  let '(s, r) := fs_mkdir folder (filesystem w) in (set_filesystem s w, r).

(** [image.save(path, format="PNG")] *)
Definition save_png (path : string) (im : Pil.Image) : M unit := λ w,
  let '(s, r) := fs_save_png path im (filesystem w) in (set_filesystem s w, r).

Definition image_save (image : loc) (path : string) : M unit :=
  im ← load_image image; save_png path im.

(** *** Methods of [Image] objects *)

(** [image.copy()] *)
Definition image_copy (image : loc) : M loc :=
  im ← load_image image; new_image im.

(** [image.transpose(method)] *)
Definition image_transpose (image : loc) (method : Pil.transpose_method) : M loc :=
  im ← load_image image; new_image (Pil.transpose im method).

(** [image.resize(size, Image.NEAREST)] *)
Definition image_resize_nearest (image : loc) (sz : Z * Z) : M loc :=
  im ← load_image image;
  out ← lift (Pil.resize_nearest nearest_src im sz);
  new_image out.

(** [image.size] *)
Definition image_size (image : loc) : M (Z * Z) :=
  im ← load_image image; mret (Pil.size im).

End store.
End Store.

Import Store.

(** ** src/utils/helpers.py *)

Module Helpers.
Section helpers.
Context `{RT : Runtime}.

Definition swap_rb (p : Pil.pixel) : Pil.pixel :=
  let '(a, b, c) := p in (c, b, a).

(** [array.shape[:2]] *)
Definition shape2 (a : ndarray) : Z * Z :=
  (Z.of_nat (length a), Z.of_nat (length (default [] (head a)))).

(** [cv2.cvtColor(a, cv2.COLOR_RGB2BGR)] and [cv2.COLOR_BGR2RGB]: both
    swap the first and third channel; an array without elements is
    refused. *)
Definition cv2_cvtColor_swap (a : ndarray) : Py.result ndarray :=
  if ((shape2 a).1 =? 0) || ((shape2 a).2 =? 0) then
    Py.Raise (Py.Exn Py.Cv2Error "(-215:Assertion failed) !_src.empty() in function 'cvtColor'")
  else Py.Ok (map (map swap_rb) a).

(** [Image.fromarray(a)] *)
(** A [double] argument of an OpenCV function: the bindings refuse a
    [bool] and whatever is not a number. *)
Definition cv2_double (v : Py.pyval) : Py.result float :=
  match v with
  | Py.VInt n => Py.int_to_double n
  | Py.VFloat f => Py.Ok f
  | Py.VBool _ =>
      Py.Raise (Py.type_error "Argument 'angle' must be double, not bool")
  | Py.VStr _ =>
      Py.Raise (Py.type_error "Argument 'angle' can not be treated as a double")
  end.

Definition fromarray (a : ndarray) : Pil.Image :=
  Pil.mkImage (Z.to_nat (shape2 a).2) (Z.to_nat (shape2 a).1) a.

Definition pil_to_cv2 (pil_image : loc) : M ndarray :=
  im ← load_image pil_image;
  lift (cv2_cvtColor_swap (Pil.rows im)).

Definition cv2_to_pil (cv2_image : ndarray) : M loc :=
  rgb ← lift (cv2_cvtColor_swap cv2_image);
  new_image (fromarray rgb).

(** [s[1:]] *)
Definition drop_first (s : string) : string :=
  match s with EmptyString => EmptyString | String _ r => r end.

Definition validate_file_format (filename : string)
    (supported_formats : list string) : bool :=
  if String.eqb filename EmptyString then false
  else
    let extension := drop_first (os_path_splitext (Py.lower filename)).2 in
    bool_decide (extension ∈ supported_formats).

(** [min(a, b)] on two floats *)
Definition float_min (a b : float) : float :=
  if PrimFloat.ltb b a then b else a.

(** [image.resize((w, h), Image.Resampling.LANCZOS)] *)
Definition resize_lanczos (im : Pil.Image) (sz : Z * Z) : Py.result Pil.Image :=
  if Pil.size_eqb (Pil.size im) sz then Py.Ok im
  else if (sz.1 <? 1) || (sz.2 <? 1) then
    Py.Raise (Py.Exn Py.ValueError "height and width must be > 0")
  else
    Py.Ok (Pil.mkImage (Z.to_nat sz.1) (Z.to_nat sz.2)
             (pil_lanczos_rows im (Z.to_nat sz.1) (Z.to_nat sz.2))).

(** The size [resize_if_needed] asks for once a dimension exceeds
    [max_size]. *)
Definition scaled_size (width height max_size : Z) : Py.result (Z * Z) :=
  Py.rbind (Py.truediv max_size width) (λ rw,
  Py.rbind (Py.truediv max_size height) (λ rh,
  let ratio := float_min rw rh in
  Py.rbind (Py.int_of_float (Py.float_of_Z width * ratio)%float) (λ new_width,
  Py.rbind (Py.int_of_float (Py.float_of_Z height * ratio)%float) (λ new_height,
  Py.Ok (new_width, new_height))))).

Definition resize_if_needed (image : loc) (max_size : Z) : M loc :=
  '(width, height) ← image_size image;
  if (max_size <? width) || (max_size <? height) then
    sz ← lift (scaled_size width height max_size);
    im ← load_image image;
    out ← lift (resize_lanczos im sz);
    new_image out
  else mret image.

(** An uploaded file: its name and its bytes. *)
Record file_obj := mkFile { file_name : string; file_bytes : list Z }.

Definition validate_file_size (f : file_obj) (max_size : Z) : bool :=
  Z.of_nat (length (file_bytes f)) <=? max_size.

End helpers.
End Helpers.

(** ** src/core/augmentations.py *)

Module AugmentationEngine.
Section engine.
Context `{RT : Runtime}.
Import Helpers.

Definition rotate (image : loc) (angle : Py.pyval) : M loc :=
  if Py.py_eqb angle (Py.VInt 0) then mret image
  else
    image_cv ← pil_to_cv2 image;
    let '(h, w) := shape2 image_cv in
    let center := (w / 2, h / 2) in
    a ← lift (cv2_double angle);
    let matrix := cv2_getRotationMatrix2D center a 1%float in
    rotated ← lift (cv2_warpAffine image_cv matrix (w, h));
    cv2_to_pil rotated.

Definition flip_horizontal (image : loc) : M loc :=
  image_transpose image Pil.FLIP_LEFT_RIGHT.

Definition flip_vertical (image : loc) : M loc :=
  image_transpose image Pil.FLIP_TOP_BOTTOM.

(** [ImageEnhance.<kind>(image).enhance(factor)] *)
Definition enhance (kind : Pil.enhancer) (image : loc) (factor : Py.pyval) : M loc :=
  im ← load_image image;
  degenerate ← lift (pil_degenerate kind im);
  alpha ← lift (Py.as_double factor);
  out ← lift (pil_blend degenerate im alpha);
  new_image out.

Definition adjust_brightness (image : loc) (factor : Py.pyval) : M loc :=
  enhance Pil.Brightness image factor.

Definition adjust_contrast (image : loc) (factor : Py.pyval) : M loc :=
  enhance Pil.Contrast image factor.

Definition adjust_saturation (image : loc) (factor : Py.pyval) : M loc :=
  enhance Pil.Color image factor.

Definition adjust_sharpness (image : loc) (factor : Py.pyval) : M loc :=
  enhance Pil.Sharpness image factor.

(** [np.clip(x, 0, 255).astype(np.uint8)] on one element *)
Definition clip_uint8 (x : float) : Z :=
  if PrimFloat.ltb x 0%float then 0
  else if PrimFloat.ltb 255%float x then 255
  else match Py.int_of_float x with Py.Ok n => n | Py.Raise _ => 0 end.

(** [image_cv + gauss], clipped and converted, where [gauss] holds the
    samples of the (row, col, ch) array in C order *)
Definition add_noise (image_cv : ndarray) (col : nat) (gauss : list float) : ndarray :=
  imap (λ r line,
    imap (λ c (p : Pil.pixel),
      let noisy k (v : Z) : Z :=
        clip_uint8 (PrimFloat.add (Py.float_of_Z v)
                      (default 0%float (gauss !! ((r * col + c) * 3 + k)%nat))) in
      (noisy 0%nat p.1.1, noisy 1%nat p.1.2, noisy 2%nat p.2))
      line)
    image_cv.

Definition add_gaussian_noise (image : loc) (sigma : float) : M loc :=
  image_cv ← pil_to_cv2 image;
  let '(row, col) := shape2 image_cv in
  let mean := 0%float in
  gauss ← np_normal mean sigma (Z.to_nat (row * col * 3));
  let noisy := add_noise image_cv (Z.to_nat col) gauss in
  cv2_to_pil noisy.

Definition gaussian_blur (image : loc) (kernel_size : Z) : M loc :=
  im ← load_image image;
  out ← lift (pil_gaussian_blur im (kernel_size / 2));
  new_image out.

(** [np.zeros((n, n))] *)
Definition np_zeros2 (n : Z) : Py.result (list (list float)) :=
  if n <? 0 then Py.Raise (Py.Exn Py.ValueError "negative dimensions are not allowed")
  else Py.Ok (replicate (Z.to_nat n) (replicate (Z.to_nat n) 0%float)).

(** [k[i, :] = np.ones(n)] on an n by n array *)
Definition set_row_ones (k : list (list float)) (i n : Z) : Py.result (list (list float)) :=
  let i' := if i <? 0 then i + n else i in
  if (0 <=? i') && (i' <? n) then
    Py.Ok (<[Z.to_nat i' := replicate (Z.to_nat n) 1%float]> k)
  else Py.Raise (Py.Exn Py.IndexError
         ("index " ++ pretty i ++ " is out of bounds for axis 0 with size "
            ++ pretty n)%string).

Definition motion_blur (image : loc) (size : Z) : M loc :=
  image_cv ← pil_to_cv2 image;
  kernel_motion_blur ← lift (np_zeros2 size);
  mid ← lift (Py.rbind (Py.truediv (size - 1) 2) Py.int_of_float);
  kernel_motion_blur ← lift (set_row_ones kernel_motion_blur mid size);
  let kernel_motion_blur :=
    map (map (λ x, x / Py.float_of_Z size)%float) kernel_motion_blur in
  blurred ← lift (cv2_filter2D image_cv kernel_motion_blur);
  cv2_to_pil blurred.

Definition pixelate (image : loc) (pixel_size : Z) : M loc :=
  '(width, height) ← image_size image;
  w' ← lift (Py.floordiv width pixel_size);
  h' ← lift (Py.floordiv height pixel_size);
  small ← image_resize_nearest image (w', h');
  sz ← image_size image;
  image_resize_nearest small sz.

(** The default arguments of the effects. *)
Definition default_sigma : float := 15%float.
Definition default_kernel_size : Z := 5.
Definition default_motion_size : Z := 15.
Definition default_pixel_size : Z := 5.

End engine.
End AugmentationEngine.

(** ** src/config/settings.py *)

Module Settings.

Definition SUPPORTED_FORMATS : list string :=
  ["jpg"; "jpeg"; "png"; "bmp"; "tiff"]%string.

Definition MAX_IMAGE_SIZE : Z := 2000.
Definition MAX_FILE_SIZE : Z := 10 * 1024 * 1024.

Definition DEFAULT_VALUES : dict :=
  list_to_map [
    ("rotation", Py.VInt 0);
    ("brightness", Py.VFloat 1.0);
    ("contrast", Py.VFloat 1.0);
    ("saturation", Py.VFloat 1.0);
    ("sharpness", Py.VFloat 1.0)
  ]%string.

Definition ml_training : dict :=
  list_to_map [
    ("name", Py.VStr "ML Training");
    ("rotation", Py.VInt 15);
    ("flip_horizontal", Py.VBool true);
    ("brightness", Py.VFloat 1.2);
    ("contrast", Py.VFloat 1.1);
    ("gaussian_noise", Py.VBool true)
  ]%string.

Definition creative : dict :=
  list_to_map [
    ("name", Py.VStr "Creative");
    ("saturation", Py.VFloat 1.5);
    ("sharpness", Py.VFloat 1.3);
    ("pixelate", Py.VBool true)
  ]%string.

Definition enhancement : dict :=
  list_to_map [
    ("name", Py.VStr "Enhancement");
    ("brightness", Py.VFloat 1.1);
    ("contrast", Py.VFloat 1.2);
    ("sharpness", Py.VFloat 1.2)
  ]%string.

(** [PRESETS] maps each key to a dictionary object.  The three objects are
    created when the module is imported; [preset_objects] is the part of
    the store they occupy at that point. *)
Definition PRESETS : gmap string loc :=
  list_to_map [
    ("ml_training", 1); ("creative", 2); ("enhancement", 3)
  ]%string%positive.

Definition preset_objects : gmap loc dict :=
  list_to_map [(1, ml_training); (2, creative); (3, enhancement)]%positive.

End Settings.

(** ** src/core/image_processor.py *)

Module ImageProcessor.
Section processor.
Context `{RT : Runtime}.
Import Helpers.

Definition load_and_validate_image (f : file_obj) : M loc :=
  if negb (validate_file_format (file_name f) Settings.SUPPORTED_FORMATS) then
    raise (Py.Exn Py.ValueError
      "Unsupported file format. Supported: ['jpg', 'jpeg', 'png', 'bmp', 'tiff']")
  else if negb (validate_file_size f Settings.MAX_FILE_SIZE) then
    raise (Py.Exn Py.ValueError
      ("File too large. Maximum size: "
         ++ pretty (Settings.MAX_FILE_SIZE / 1024 / 1024) ++ "MB"))
  else
    try_except
      (im ← lift (pil_open (file_bytes f));
       image ← new_image im;
       resize_if_needed image Settings.MAX_IMAGE_SIZE)
      (λ e, raise (Py.Exn Py.ValueError ("Invalid image file: " ++ Py.exn_str e))).

Definition apply_transformations (image params : loc) : M loc :=
  result ← image_copy image;
  (* Geometric transformations *)
  v ← dict_get_default params "rotation" (Py.VInt 0);
  result ← (if Py.py_neb v (Py.VInt 0) then
              angle ← dict_getitem params "rotation";
              AugmentationEngine.rotate result angle
            else mret result);
  v ← dict_get params "flip_horizontal";
  result ← (if Py.truthy_opt v then AugmentationEngine.flip_horizontal result
            else mret result);
  v ← dict_get params "flip_vertical";
  result ← (if Py.truthy_opt v then AugmentationEngine.flip_vertical result
            else mret result);
  (* Color adjustments *)
  v ← dict_get_default params "brightness" (Py.VFloat 1);
  result ← (if Py.py_neb v (Py.VFloat 1) then
              factor ← dict_getitem params "brightness";
              AugmentationEngine.adjust_brightness result factor
            else mret result);
  v ← dict_get_default params "contrast" (Py.VFloat 1);
  result ← (if Py.py_neb v (Py.VFloat 1) then
              factor ← dict_getitem params "contrast";
              AugmentationEngine.adjust_contrast result factor
            else mret result);
  v ← dict_get_default params "saturation" (Py.VFloat 1);
  result ← (if Py.py_neb v (Py.VFloat 1) then
              factor ← dict_getitem params "saturation";
              AugmentationEngine.adjust_saturation result factor
            else mret result);
  v ← dict_get_default params "sharpness" (Py.VFloat 1);
  result ← (if Py.py_neb v (Py.VFloat 1) then
              factor ← dict_getitem params "sharpness";
              AugmentationEngine.adjust_sharpness result factor
            else mret result);
  (* Effects *)
  v ← dict_get params "gaussian_noise";
  result ← (if Py.truthy_opt v then
              AugmentationEngine.add_gaussian_noise result
                AugmentationEngine.default_sigma
            else mret result);
  v ← dict_get params "gaussian_blur";
  result ← (if Py.truthy_opt v then
              AugmentationEngine.gaussian_blur result
                AugmentationEngine.default_kernel_size
            else mret result);
  v ← dict_get params "motion_blur";
  result ← (if Py.truthy_opt v then
              AugmentationEngine.motion_blur result
                AugmentationEngine.default_motion_size
            else mret result);
  v ← dict_get params "pixelate";
  result ← (if Py.truthy_opt v then
              AugmentationEngine.pixelate result
                AugmentationEngine.default_pixel_size
            else mret result);
  mret result.

(** [preset.copy() if preset else {}]: an empty dictionary is falsy. *)
Definition get_preset_params (preset_name : string) : M loc :=
  match Settings.PRESETS !! Py.lower preset_name with
  | Some preset =>
      d ← load_dict preset;
      if bool_decide (d = ∅) then new_dict ∅ else dict_copy preset
  | None => new_dict ∅
  end.

End processor.
End ImageProcessor.

(** ** src/core/batch_generator.py *)

Module BatchGenerator.
Section generator.
Context `{RT : Runtime}.

(** The dictionary [generate_batch] returns. *)
Record GenerationResult := mkResult {
  requested : Z;
  generated : Z;
  failed : Z;
  failed_files : list (string * string)
}.

(** The three running variables of the loop. *)
Record counters := mkCounters {
  generated_count : Z;
  failed_count : Z;
  failed_list : list (string * string)
}.

(** [f"{base_name}_{i+1:04d}.png"] *)
Definition item_filename (base_name : string) (i : Z) : string :=
  (base_name ++ "_" ++ Py.format_04d (i + 1) ++ ".png")%string.

(** [progress_callback] is [None] or a callable. *)
Definition callback : Type := option (Z → Z → string → M unit).

Definition call_progress (cb : callback) (current total : Z) (filename : string) : M unit :=
  match cb with
  | Some f => f current total filename
  | None => mret tt
  end.

Definition random_below (p : float) : M bool :=
  x ← random_random; mret (PrimFloat.ltb x p).

Definition _generate_random_params : M loc :=
  (* Geometric transformations *)
  rotation ← random_randint (-30) 30;
  flip_horizontal ← random_choice_bool;
  flip_vertical ← random_choice_bool;
  (* Color adjustments *)
  brightness ← (x ← random_uniform 0.7 1.3; mret (py_round x 2));
  contrast ← (x ← random_uniform 0.8 1.2; mret (py_round x 2));
  saturation ← (x ← random_uniform 0.7 1.3; mret (py_round x 2));
  sharpness ← (x ← random_uniform 0.8 1.2; mret (py_round x 2));
  (* Effects *)
  gaussian_noise ← random_below 0.3;
  gaussian_blur ← random_below 0.2;
  motion_blur ← random_below 0.1;
  pixelate ← random_below 0.15;
  new_dict (list_to_map [
    ("rotation", Py.VInt rotation);
    ("flip_horizontal", Py.VBool flip_horizontal);
    ("flip_vertical", Py.VBool flip_vertical);
    ("brightness", Py.VFloat brightness);
    ("contrast", Py.VFloat contrast);
    ("saturation", Py.VFloat saturation);
    ("sharpness", Py.VFloat sharpness);
    ("gaussian_noise", Py.VBool gaussian_noise);
    ("gaussian_blur", Py.VBool gaussian_blur);
    ("motion_blur", Py.VBool motion_blur);
    ("pixelate", Py.VBool pixelate)
  ]%string).

(** The handler of the loop's [except Exception as e] clause. *)
Definition record_failure (base_name : string) (i : Z) (st : counters)
    (e : Py.exn) : M counters :=
  let st' := mkCounters (generated_count st) (failed_count st + 1)
               (failed_list st ++ [(item_filename base_name i, Py.exn_str e)]) in
  print ("Failed to generate " ++ item_filename base_name i ++ ": "
           ++ Py.exn_str e);;
  mret st'.

(** The body of the [try] block of [generate_batch] for index [i]. *)
Definition generate_item (original_image : loc) (count : Z)
    (output_folder base_name : string) (progress_callback : callback)
    (i : Z) : M unit :=
  call_progress progress_callback (i + 1) count (item_filename base_name i);;
  augmentation_params ← _generate_random_params;
  augmented_image ←
    ImageProcessor.apply_transformations original_image augmentation_params;
  let filename := item_filename base_name i in
  let output_path := path_join output_folder filename in
  image_save augmented_image output_path.

Definition generate_batch (original_image : loc) (count : Z)
    (output_folder base_name : string) (progress_callback : callback)
    : M GenerationResult :=
  mkdir output_folder;;
  st ← for_each
         (λ st i,
            try_except
              (generate_item original_image count output_folder base_name
                 progress_callback i;;
               mret (mkCounters (generated_count st + 1) (failed_count st)
                       (failed_list st)))
              (record_failure base_name i st))
         (Py.range count)
         (mkCounters 0 0 []);
  mret (mkResult count (generated_count st) (failed_count st) (failed_list st)).

(** [d[k] += random.randint(lo, hi)], then the clamp
    [d[k] = max(lo', min(hi', d[k]))] *)
Definition vary_rotation (varied_params : loc) : M unit :=
  old ← dict_getitem varied_params "rotation";
  k ← random_randint (-10) 10;
  v ← lift (Py.py_add old (Py.VInt k));
  dict_setitem varied_params "rotation" v;;
  v ← dict_getitem varied_params "rotation";
  v ← lift (Py.rbind (Py.py_min (Py.VInt 180) v) (Py.py_max (Py.VInt (-180))));
  dict_setitem varied_params "rotation" v.

(** [d[k] *= random.uniform(lo, hi)], then the clamp
    [d[k] = max(0.1, min(3.0, d[k]))]; the source repeats this block for
    brightness, contrast, saturation and sharpness. *)
Definition vary_factor (varied_params : loc) (key : string) (lo hi : float) : M unit :=
  old ← dict_getitem varied_params key;
  u ← random_uniform lo hi;
  v ← lift (Py.py_mul old (Py.VFloat u));
  dict_setitem varied_params key v;;
  v ← dict_getitem varied_params key;
  v ← lift (Py.rbind (Py.py_min (Py.VFloat 3.0) v) (Py.py_max (Py.VFloat 0.1)));
  dict_setitem varied_params key v.

Definition _vary_preset_params (preset_params : loc) (seed : Z) : M loc :=
  random_seed seed;;
  varied_params ← dict_copy preset_params;
  c ← dict_contains varied_params "rotation";
  when c (vary_rotation varied_params);;
  c ← dict_contains varied_params "brightness";
  when c (vary_factor varied_params "brightness" 0.9 1.1);;
  c ← dict_contains varied_params "contrast";
  when c (vary_factor varied_params "contrast" 0.95 1.05);;
  c ← dict_contains varied_params "saturation";
  when c (vary_factor varied_params "saturation" 0.9 1.1);;
  c ← dict_contains varied_params "sharpness";
  when c (vary_factor varied_params "sharpness" 0.95 1.05);;
  mret varied_params.

Definition generate_with_preset (original_image : loc) (count : Z)
    (output_folder preset_type base_name : string)
    (progress_callback : callback) : M GenerationResult :=
  mkdir output_folder;;
  preset_params ← ImageProcessor.get_preset_params preset_type;
  st ← for_each
         (λ st i,
            try_except
              (call_progress progress_callback (i + 1) count
                 (item_filename base_name i);;
               augmentation_params ← _vary_preset_params preset_params i;
               augmented_image ←
                 ImageProcessor.apply_transformations original_image
                   augmentation_params;
               let filename := item_filename base_name i in
               let output_path := path_join output_folder filename in
               image_save augmented_image output_path;;
               mret (mkCounters (generated_count st + 1) (failed_count st)
                       (failed_list st)))
              (record_failure base_name i st))
         (Py.range count)
         (mkCounters 0 0 []);
  mret (mkResult count (generated_count st) (failed_count st) (failed_list st)).

End generator.
End BatchGenerator.


(** ** A runtime to run the model

    Reference kernels (centre sampling, a linear blend, a linear congruential
    generator, files kept in a map) that instantiate [Runtime], so that the
    methods can be evaluated on concrete worlds. *)

Module Example.

(** Sampling at pixel centres: index [i] of [d] reads position
    [(i + 1/2) * s / d] of [s].  Pillow computes this position in 16.16
    fixed point, which can give the neighbouring pixel when the position
    falls on the border of two source pixels. *)
Definition centre_sample (s d i : nat) : nat := ((2 * i + 1) * s / (2 * d))%nat.

Definition black (im : Pil.Image) : Pil.Image :=
  Pil.mkImage (Pil.width im) (Pil.height im) (map (map (λ _, (0, 0, 0))) (Pil.rows im)).

Definition grey (im : Pil.Image) : Pil.Image :=
  Pil.mkImage (Pil.width im) (Pil.height im)
    (map (map (λ p : Pil.pixel, let g := (p.1.1 + p.1.2 + p.2) / 3 in (g, g, g))) (Pil.rows im)).

Definition degenerate (k : Pil.enhancer) (im : Pil.Image) : Py.result Pil.Image :=
  Py.Ok (match k with Pil.Brightness => black im | _ => grey im end).

Definition blend_channel (alpha : float) (a b : Z) : Z :=
  AugmentationEngine.clip_uint8
    (Py.float_of_Z a + alpha * (Py.float_of_Z b - Py.float_of_Z a))%float.

Definition blend (d im : Pil.Image) (alpha : float) : Py.result Pil.Image :=
  Py.Ok (Pil.mkImage (Pil.width im) (Pil.height im)
    (zip_with (zip_with (λ p q : Pil.pixel,
       (blend_channel alpha p.1.1 q.1.1, blend_channel alpha p.1.2 q.1.2,
        blend_channel alpha p.2 q.2))) (Pil.rows d) (Pil.rows im))).

(** A toy file format: width, height and one grey level. *)
Definition decode (bytes : list Z) : Py.result Pil.Image :=
  match bytes with
  | w :: h :: c :: _ =>
      Py.Ok (Pil.mkImage (Z.to_nat w) (Z.to_nat h)
               (replicate (Z.to_nat h) (replicate (Z.to_nat w) (c, c, c))))
  | _ => Py.Raise (Py.Exn Py.OSError "cannot identify image file")
  end.

Definition lcg (s : Z) : Z := (s * 1103515245 + 12345) mod 2147483648.

(** [str.rfind(c)]: the position of the last occurrence, counting from
    [pos]. *)
Fixpoint rfind (c : ascii) (s : string) (pos : nat) : option nat :=
  match s with
  | EmptyString => None
  | String d r =>
      match rfind c r (S pos) with
      | Some k => Some k
      | None => if Ascii.eqb d c then Some pos else None
      end
  end.

Fixpoint all_dots (s : string) : bool :=
  match s with
  | EmptyString => true
  | String c r => Ascii.eqb c "." && all_dots r
  end.

(** [posixpath.splitext]: the extension starts at the last dot of the
    last component, unless that component has nothing but dots before
    it. *)
Definition splitext (p : string) : string * string :=
  let sep_index := match rfind "/" p 0 with Some k => Z.of_nat k | None => -1 end in
  match rfind "." p 0 with
  | Some dot_index =>
      let filename_index := Z.to_nat (sep_index + 1) in
      if (sep_index <? Z.of_nat dot_index)
         && negb (all_dots (String.substring filename_index
                              (dot_index - filename_index) p))
      then (String.substring 0 dot_index p,
            String.substring dot_index (String.length p - dot_index) p)
      else (p, EmptyString)
  | None => (p, EmptyString)
  end.

Definition runtime : Runtime := {|
  nearest_src := centre_sample;
  nearest_src_lt := ltac:(
    intros s d i Hi Hs; unfold centre_sample;
    apply Nat.Div0.div_lt_upper_bound; nia);
  pil_degenerate := degenerate;
  pil_blend := blend;
  pil_gaussian_blur := λ im _, Py.Ok im;
  pil_lanczos_rows := λ im w h, Pil.rows (Pil.sample_nearest centre_sample im w h);
  pil_open := decode;
  cv2_matrix := unit;
  cv2_getRotationMatrix2D := λ _ _ _, tt;
  cv2_warpAffine := λ a _ _, Py.Ok a;
  cv2_filter2D := λ a _, Py.Ok a;
  np_state := Z;
  np_random_normal := λ mean _ n s, (lcg s, Py.Ok (replicate n mean));
  rng_state := Z;
  rng_seed := λ n, n;
  rng_random := λ s, ((Py.float_of_Z (lcg s) / 2147483648)%float, lcg s);
  rng_randbelow := λ n s, (lcg s mod n, lcg s);
  py_round := λ x _, x;
  os_path_splitext := splitext;
  fs_state := gmap string Pil.Image;
  fs_mkdir := λ _ fs, (fs, Py.Ok tt);
  path_join := λ a b, (a ++ "/" ++ b)%string;
  fs_save_png := λ path im fs, (<[path := im]> fs, Py.Ok tt)
|}.

#[local] Existing Instance runtime.

(** A test image whose pixels are pairwise distinct. *)
Definition gradient (w h : nat) : Pil.Image :=
  Pil.mkImage w h
    ((λ y, (λ x, (Z.of_nat (10 * y + x), Z.of_nat y, Z.of_nat x)) <$> seq 0 w) <$> seq 0 h).

(** The world of the examples: the test image at location 1, the presets
    of the settings, seeded generators, no file and nothing printed. *)
Definition world0 : World :=
  mkWorld (<[1%positive := gradient 6 4]> ∅) Settings.preset_objects 7 11 ∅ [].

(** The progress callback of the examples: it fails on the second item. *)
Definition failing_callback : BatchGenerator.callback :=
  Some (λ current total filename,
          if current =? 2 then raise (Py.Exn Py.OSError "disk full")
          else print filename).

End Example.

(** * Vocabulary of the properties *)

(** ** Frames: what a computation leaves untouched *)

Module Frame.
Section frame_definitions.
Context `{RT : Runtime}.

(** [m] leaves every existing [Image] object and every dictionary as it
    found them; it may create [Image] objects. *)
Definition preserves {A} (m : M A) : Prop :=
  ∀ w, images w ⊆ images (m w).1 ∧ dicts (m w).1 = dicts w.

(** [m] preserves the store and returns either [src] itself or an object
    that did not exist before; the result exists whenever [src] did. *)
Definition yields (src : loc) (m : M loc) : Prop :=
  preserves m ∧
  ∀ w l, (m w).2 = Py.Ok l →
    (l = src ∨ images w !! l = None)
    ∧ (is_Some (images w !! src) → is_Some (images (m w).1 !! l)).

End frame_definitions.
End Frame.

(** ** The steps of [apply_transformations] *)

Module Pipeline.
Section pipeline_definitions.
Context `{RT : Runtime}.

(** The eleven operations of the pipeline. *)
Inductive step :=
| Rotation | FlipHorizontal | FlipVertical
| Brightness | Contrast | Saturation | Sharpness
| GaussianNoise | GaussianBlur | MotionBlur | Pixelate.

(** The fixed order of the specification. *)
Definition pipeline_order : list step :=
  [Rotation; FlipHorizontal; FlipVertical;
   Brightness; Contrast; Saturation; Sharpness;
   GaussianNoise; GaussianBlur; MotionBlur; Pixelate].

(** The key that holds the parameter of a step. *)
Definition step_key (s : step) : string :=
  match s with
  | Rotation => "rotation"
  | FlipHorizontal => "flip_horizontal"
  | FlipVertical => "flip_vertical"
  | Brightness => "brightness"
  | Contrast => "contrast"
  | Saturation => "saturation"
  | Sharpness => "sharpness"
  | GaussianNoise => "gaussian_noise"
  | GaussianBlur => "gaussian_blur"
  | MotionBlur => "motion_blur"
  | Pixelate => "pixelate"
  end.

Definition is_flag (s : step) : bool :=
  match s with
  | Rotation | Brightness | Contrast | Saturation | Sharpness => false
  | _ => true
  end.

(** The identity value of a parameter: 0 for the rotation, 1.0 for the
    four factors, false for the flags. *)
Definition identity_value (s : step) : Py.pyval :=
  match s with
  | Rotation => Py.VInt 0
  | Brightness | Contrast | Saturation | Sharpness => Py.VFloat 1
  | _ => Py.VBool false
  end.

(** The parameter of a step: the stored value, the identity value when
    the key is missing. *)
Definition param (d : dict) (s : step) : Py.pyval :=
  default (identity_value s) (d !! step_key s).

Definition differs_from_identity (d : dict) (s : step) : bool :=
  Py.py_neb (param d s) (identity_value s).

(** The operation of a step, applied to the current result. *)
Definition run_step (d : dict) (result : loc) (s : step) : M loc :=
  match s with
  | Rotation => AugmentationEngine.rotate result (param d s)
  | FlipHorizontal => AugmentationEngine.flip_horizontal result
  | FlipVertical => AugmentationEngine.flip_vertical result
  | Brightness => AugmentationEngine.adjust_brightness result (param d s)
  | Contrast => AugmentationEngine.adjust_contrast result (param d s)
  | Saturation => AugmentationEngine.adjust_saturation result (param d s)
  | Sharpness => AugmentationEngine.adjust_sharpness result (param d s)
  | GaussianNoise =>
      AugmentationEngine.add_gaussian_noise result AugmentationEngine.default_sigma
  | GaussianBlur =>
      AugmentationEngine.gaussian_blur result AugmentationEngine.default_kernel_size
  | MotionBlur =>
      AugmentationEngine.motion_blur result AugmentationEngine.default_motion_size
  | Pixelate =>
      AugmentationEngine.pixelate result AugmentationEngine.default_pixel_size
  end.

(** The specification of [apply_transformations]: copy the image, then
    run the steps whose parameter differs from its identity value, in the
    fixed order, each on the result of the previous one. *)
Definition apply_in_fixed_order (image : loc) (d : dict) : M loc :=
  result ← image_copy image;
  for_each (run_step d) (List.filter (differs_from_identity d) pipeline_order) result.

(** The test the source performs for a step: [params.get(k, identity) !=
    identity] for the rotation and the factors, the truth value of
    [params.get(k)] for the flags. *)
Definition step_enabled (d : dict) (s : step) : bool :=
  if is_flag s then Py.truthy_opt (d !! step_key s)
  else Py.py_neb (param d s) (identity_value s).

(** Every flag that is present holds a boolean. *)
Definition flags_are_booleans (d : dict) : Prop :=
  ∀ s v, is_flag s = true → d !! step_key s = Some v → ∃ b, v = Py.VBool b.

End pipeline_definitions.
End Pipeline.

(** ** What [pixelate] computes *)

Module Pixelate.
Section pixelate_definitions.
Context `{RT : Runtime}.

(** What [pixelate] computes once its receiver is known. *)
Definition pixelate_outcome (im : Pil.Image) (pixel_size : Z) (w : World)
    : World * Py.result loc :=
  match Pil.resize_nearest nearest_src im
          ((Pil.size im).1 / pixel_size, (Pil.size im).2 / pixel_size) with
  | Py.Raise e => (w, Py.Raise e)
  | Py.Ok small =>
      let l1 := fresh (dom (images w)) in
      let w1 := set_images <[l1 := small]> w in
      match Pil.resize_nearest nearest_src small (Pil.size im) with
      | Py.Raise e => (w1, Py.Raise e)
      | Py.Ok out =>
          let l2 := fresh (dom (images w1)) in
          (set_images <[l2 := out]> w1, Py.Ok l2)
      end
  end.

End pixelate_definitions.
End Pixelate.

(** ** The stored presets *)

Module Presets.
Section presets_definitions.
Context `{RT : Runtime}.

(** The preset objects of [Settings.PRESETS] exist in the store. *)
Definition presets_stored (w : World) : Prop :=
  map_Forall (λ _ p, is_Some (dicts w !! p)) Settings.PRESETS.

(** The contents stored under the lower-cased name, if any. *)
Definition stored_preset (w : World) (name : string) : option dict :=
  Settings.PRESETS !! Py.lower name ≫= λ p, dicts w !! p.

End presets_definitions.
End Presets.

(** ** The jitter as a function of contents and generator state *)

Module Jitter.
Section jitter_definitions.
Context `{RT : Runtime}.

(** [max(-180, min(180, v))] and [max(0.1, min(3.0, v))] *)
Definition clamp_rotation (v : Py.pyval) : Py.result Py.pyval :=
  Py.rbind (Py.py_min (Py.VInt 180) v) (Py.py_max (Py.VInt (-180))).

Definition clamp_factor (v : Py.pyval) : Py.result Py.pyval :=
  Py.rbind (Py.py_min (Py.VFloat 3.0) v) (Py.py_max (Py.VFloat 0.1)).

(** The draws of the two kinds of block, as functions of the generator
    state. *)
Definition draw_rotation (s : rng_state) : Py.pyval * rng_state :=
  let '(k, s') := rng_randbelow (10 - -10 + 1) s in (Py.VInt (-10 + k), s').

Definition draw_factor (lo hi : float) (s : rng_state) : Py.pyval * rng_state :=
  let '(x, s') := rng_random s in (Py.VFloat (lo + (hi - lo) * x)%float, s').

(** One block of [_vary_preset_params] as a function of the contents of
    the copy and of the generator state: nothing happens when the key is
    missing; otherwise a value is drawn, combined with the stored one,
    clamped and stored. *)
Definition block (key : string) (draw : rng_state → Py.pyval * rng_state)
    (combine : Py.pyval → Py.pyval → Py.result Py.pyval)
    (clamp : Py.pyval → Py.result Py.pyval)
    (d : dict) (s : rng_state) : rng_state * Py.result dict :=
  match d !! key with
  | None => (s, Py.Ok d)
  | Some old =>
      let '(x, s') := draw s in
      (s', Py.rbind (combine old x) (λ v,
           Py.rbind (clamp v) (λ v', Py.Ok (<[key := v']> d))))
  end.

(** Sequencing of blocks: the next one runs unless this one raised. *)
Definition and_then (b rest : dict → rng_state → rng_state * Py.result dict)
    (d : dict) (s : rng_state) : rng_state * Py.result dict :=
  match b d s with
  | (s', Py.Ok d') => rest d' s'
  | (s', Py.Raise e) => (s', Py.Raise e)
  end.

Definition finish (d : dict) (s : rng_state) : rng_state * Py.result dict :=
  (s, Py.Ok d).

(** The five blocks in the order of the source, from the seeded state. *)
Definition jitter (d : dict) (seed : Z) : rng_state * Py.result dict :=
  and_then (block "rotation" draw_rotation Py.py_add clamp_rotation)
    (and_then (block "brightness" (draw_factor 0.9 1.1) Py.py_mul clamp_factor)
    (and_then (block "contrast" (draw_factor 0.95 1.05) Py.py_mul clamp_factor)
    (and_then (block "saturation" (draw_factor 0.9 1.1) Py.py_mul clamp_factor)
    (and_then (block "sharpness" (draw_factor 0.95 1.05) Py.py_mul clamp_factor)
       finish))))
    d (rng_seed seed).

(** What a call leaves in the dictionary it returns. *)
Definition outcome (r : World * Py.result loc) : Py.result dict :=
  match r.2 with
  | Py.Ok l =>
      match dicts r.1 !! l with
      | Some d => Py.Ok d
      | None => Py.Raise dangling
      end
  | Py.Raise e => Py.Raise e
  end.

(** The world in which the copy at [l] holds [d] and the generator is in
    state [s]. *)
Definition at_ (w : World) (l : loc) (d : dict) (s : rng_state) : World :=
  set_py_random s (set_dicts <[l := d]> w).

(** Running a block of the source on the copy at [l] follows [block]: the
    world stays of the form [at_ w l _ _], and the result is the one of
    [block]. *)
Definition follows (m : M unit) (b : dict → rng_state → rng_state * Py.result dict)
    (l : loc) : Prop :=
  ∀ w d s, ∃ dx,
    (m (at_ w l d s)).1 = at_ w l dx (b d s).1
    ∧ match (b d s).2 with
      | Py.Ok d' => (m (at_ w l d s)).2 = Py.Ok tt ∧ dx = d'
      | Py.Raise e => (m (at_ w l d s)).2 = Py.Raise e
      end.

(** The rest of the method, from some block on, realises a function of
    the contents and the generator state. *)
Definition realises (m : M loc)
    (p : dict → rng_state → rng_state * Py.result dict) (l : loc) : Prop :=
  ∀ w d s, ∃ dx,
    (m (at_ w l d s)).1 = at_ w l dx (p d s).1
    ∧ match (p d s).2 with
      | Py.Ok d' => (m (at_ w l d s)).2 = Py.Ok l ∧ dx = d'
      | Py.Raise e => (m (at_ w l d s)).2 = Py.Raise e
      end.

(** [d'] is [d] after a block on [key]: unchanged when the key is missing,
    otherwise with the key rebound to a clamped combination. *)
Definition rebinds (key : string) (draw : rng_state → Py.pyval * rng_state)
    (combine : Py.pyval → Py.pyval → Py.result Py.pyval)
    (clamp : Py.pyval → Py.result Py.pyval) (d d' : dict) : Prop :=
  (d !! key = None ∧ d' = d)
  ∨ ∃ old s v v',
      d !! key = Some old ∧ combine old (draw s).1 = Py.Ok v
      ∧ clamp v = Py.Ok v' ∧ d' = <[key := v']> d.

(** [-180 <= v <= 180] for the values a rotation can hold after the sum:
    an [int] within the bounds, or a [float] strictly between them. *)
Definition within_rotation (v : Py.pyval) : Prop :=
  match v with
  | Py.VInt n => -180 ≤ n ≤ 180
  | Py.VFloat f =>
      Py.Z_compare_float (-180) f = Some Lt ∧ Py.Z_compare_float 180 f = Some Gt
  | _ => False
  end.

(** [0.1 <= f <= 3.0] *)
Definition within_factor (f : float) : Prop :=
  PrimFloat.leb 0.1 f = true ∧ PrimFloat.leb f 3.0 = true.

(** The keys the jitter may rebind, and the four factors among them. *)
Definition factor_keys : list string :=
  ["brightness"; "contrast"; "saturation"; "sharpness"]%string.

Definition jittered_keys : list string := "rotation"%string :: factor_keys.

(** The typing of the data model: an integer rotation, float factors. *)
Definition typed (d : dict) : Prop :=
  (∀ v, d !! "rotation" = Some v → ∃ n, v = Py.VInt n)
  ∧ (∀ key v, key ∈ factor_keys → d !! key = Some v → ∃ f, v = Py.VFloat f).

End jitter_definitions.
End Jitter.

(** ** Attempting every item *)

Module Batch.
Section batch_definitions.
Context `{RT : Runtime}.

(** What the handler of the loop prints for a failed item. *)
Definition report (base_name : string) (i : Z) (e : Py.exn) : M unit :=
  print ("Failed to generate " ++ BatchGenerator.item_filename base_name i ++ ": "
           ++ Py.exn_str e).

(** Every index of the list is attempted, in order, whatever the outcome
    of the earlier ones: the item runs in the world the previous items left,
    and a failure is reported before the next item starts.  The result pairs
    each index with the outcome of its item. *)
Fixpoint attempt_all (item : Z → M unit) (on_failure : Z → Py.exn → M unit)
    (indices : list Z) (w : World) : World * list (Z * Py.result unit) :=
  match indices with
  | [] => (w, [])
  | i :: rest =>
      let '(w1, r) := item i w in
      let w2 := match r with
                | Py.Ok _ => w1
                | Py.Raise e => (on_failure i e w1).1
                end in
      let '(w', outs) := attempt_all item on_failure rest w2 in
      (w', (i, r) :: outs)
  end.

(** The entries of [failed_files] for a list of outcomes: one pair for
    each failed item, in item order. *)
Definition failures (base_name : string) (outs : list (Z * Py.result unit))
    : list (string * string) :=
  omap (λ o, match o.2 with
             | Py.Raise e => Some (BatchGenerator.item_filename base_name o.1, Py.exn_str e)
             | Py.Ok _ => None
             end) outs.

Definition succeeded (outs : list (Z * Py.result unit)) : list (Z * Py.result unit) :=
  List.filter (λ o, Py.is_ok o.2) outs.

(** One turn of the loop, for any item body. *)
Definition turn (item : Z → M unit) (base_name : string)
    (st : BatchGenerator.counters) (i : Z) : M BatchGenerator.counters :=
  try_except
    (item i;;
     mret (BatchGenerator.mkCounters (BatchGenerator.generated_count st + 1)
             (BatchGenerator.failed_count st) (BatchGenerator.failed_list st)))
    (BatchGenerator.record_failure base_name i st).

End batch_definitions.
End Batch.

(** ** Pixels *)

Module Pixels.

(** A pixel whose three channels are bytes. *)
Definition byte_pixel (p : Pil.pixel) : Prop :=
  (0 ≤ p.1.1 ≤ 255) ∧ (0 ≤ p.1.2 ≤ 255) ∧ (0 ≤ p.2 ≤ 255).

End Pixels.

(** ** The footprint of a computation *)

Module Footprint.
Section footprint_definitions.
Context `{RT : Runtime}.

(** [m] leaves the part of the world that [view] selects as it found
    it. *)
Definition keeps {A B} (view : World → B) (m : M A) : Prop :=
  ∀ w, view (m w).1 = view w.

(** Everything but the image objects. *)
Definition beside_images (w : World) :=
  (dicts w, py_random w, np_random w, filesystem w, stdout w).

(** Everything but the image objects and the state of [np.random]. *)
Definition beside_images_and_numpy (w : World) :=
  (dicts w, py_random w, filesystem w, stdout w).

End footprint_definitions.
End Footprint.

(** ** The keys of a parameter dictionary *)

Module Keys.
Section keys_definitions.
Context `{RT : Runtime}.

(** The keys [apply_transformations] reads. *)
Definition recognized_keys : gset string :=
  list_to_set (Pipeline.step_key <$> Pipeline.pipeline_order).

(** What the documentation of [randbelow] promises: a draw below a
    positive bound lies in [0, bound). *)
Definition randbelow_in_range : Prop :=
  ∀ n s, 0 < n → 0 ≤ (rng_randbelow n s).1 < n.

End keys_definitions.
End Keys.

(** ** File names *)

Module Filenames.

(** A string whose first character is not the digit zero. *)
Definition leads (s : string) : Prop :=
  ∃ c t, s = String c t ∧ c ≠ "0"%char.

End Filenames.

(** ** Batches from a preset *)

Module PresetBatch.
Section preset_batch_definitions.
Context `{RT : Runtime}.

(** The body of the [try] block of [generate_with_preset] for index
    [i]. *)
Definition preset_item (original_image : loc) (count : Z)
    (output_folder base_name : string) (progress_callback : BatchGenerator.callback)
    (preset_params : loc) (i : Z) : M unit :=
  BatchGenerator.call_progress progress_callback (i + 1) count
    (BatchGenerator.item_filename base_name i);;
  augmentation_params ← BatchGenerator._vary_preset_params preset_params i;
  augmented_image ←
    ImageProcessor.apply_transformations original_image augmentation_params;
  image_save augmented_image
    (path_join output_folder (BatchGenerator.item_filename base_name i)).

(** Saving the same image once for every index, each under the file name
    of its item; the result pairs each index with the outcome of its
    save. *)
Fixpoint save_copies (im : Pil.Image) (output_folder base_name : string)
    (indices : list Z) (fs : fs_state) : fs_state * list (Z * Py.result unit) :=
  match indices with
  | [] => (fs, [])
  | i :: rest =>
      let '(fs1, r) :=
        fs_save_png (path_join output_folder (BatchGenerator.item_filename base_name i))
          im fs in
      let '(fs', outs) := save_copies im output_folder base_name rest fs1 in
      (fs', (i, r) :: outs)
  end.

(** The state an item of the batch relies on: the original image and the
    empty parameter dictionary are where they were. *)
Definition ready (original_image : loc) (im : Pil.Image) (preset_params : loc)
    (w : World) : Prop :=
  images w !! original_image = Some im ∧ dicts w !! preset_params = Some ∅.

End preset_batch_definitions.
End PresetBatch.

(** ** What a batch leaves behind *)

Module BatchFootprint.
Section batch_footprint_definitions.
Context `{RT : Runtime}.

(** The files after saving the images of [saves] in order, each under the
    file name of the item it is paired with. *)
Fixpoint save_items (output_folder base_name : string)
    (saves : list (Z * Pil.Image)) (fs : fs_state) : fs_state :=
  match saves with
  | [] => fs
  | (i, im) :: rest =>
      save_items output_folder base_name rest
        (fs_save_png (path_join output_folder (BatchGenerator.item_filename base_name i))
           im fs).1
  end.

(** The line printed for an entry of [failed_files]. *)
Definition failure_line (entry : string * string) : string :=
  ("Failed to generate " ++ entry.1 ++ ": " ++ entry.2)%string.

End batch_footprint_definitions.
End BatchFootprint.

(** ** The kernel of the motion blur *)

Module MotionKernel.

(** A [size] by [size] array whose row [(size - 1) // 2] holds [1 / size]
    and whose other rows hold zeros. *)
Definition line_kernel (size : Z) : list (list float) :=
  <[Z.to_nat ((size - 1) / 2) :=
      replicate (Z.to_nat size) (1 / Py.float_of_Z size)%float]>
    (replicate (Z.to_nat size)
       (replicate (Z.to_nat size) 0%float)).

(** [int((size - 1) / 2)], through the float quotient as the source
    computes it. *)
Definition middle_row (size : Z) : Py.result Z :=
  Py.rbind (Py.truediv (size - 1) 2) Py.int_of_float.

Definition middle_row_is_half (size : Z) : bool :=
  match middle_row size with
  | Py.Ok m => m =? (size - 1) / 2
  | Py.Raise _ => false
  end.

(** [0 / size] is the float zero. *)
Definition zero_quotient_is_zero (size : Z) : bool :=
  match Prim2SF (0 / Py.float_of_Z size) with
  | S754_zero false => true
  | _ => false
  end.

End MotionKernel.

(** ** Operations that hand the image to a library *)

Module Delegation.
Section delegation_definitions.
Context `{RT : Runtime}.

(** What an operation leaves when it wraps the result of a library call
    and does nothing else: a new object for the image the library returned,
    or the library's exception and an unchanged store. *)
Definition returned (r : Py.result Pil.Image) (w : World) : World * Py.result loc :=
  match r with
  | Py.Ok out =>
      (set_images <[fresh (dom (images w)) := out]> w,
       Py.Ok (fresh (dom (images w))))
  | Py.Raise e => (w, Py.Raise e)
  end.

(** [ImageEnhance.<kind>(image).enhance(factor)] as Pillow computes it:
    the blend of the degenerate image with the image. *)
Definition enhanced (kind : Pil.enhancer) (im : Pil.Image) (factor : float)
    : Py.result Pil.Image :=
  Py.rbind (pil_degenerate kind im) (λ degenerate, pil_blend degenerate im factor).

(** The array [pil_to_cv2] returns for an image: its rows in BGR order. *)
Definition bgr (im : Pil.Image) : ndarray :=
  map (map Helpers.swap_rb) (Pil.rows im).

(** The OpenCV call of [rotate] on an image, then the conversion back. *)
Definition warped (im : Pil.Image) (angle : float) : M loc :=
  rotated ← lift (cv2_warpAffine (bgr im)
                    (cv2_getRotationMatrix2D
                       (Z.of_nat (Pil.width im) / 2, Z.of_nat (Pil.height im) / 2)
                       angle 1%float)
                    (Z.of_nat (Pil.width im), Z.of_nat (Pil.height im)));
  Helpers.cv2_to_pil rotated.

(** The OpenCV call of [motion_blur] on an image with a given kernel, then
    the conversion back. *)
Definition filtered (im : Pil.Image) (kernel : list (list float)) : M loc :=
  blurred ← lift (cv2_filter2D (bgr im) kernel);
  Helpers.cv2_to_pil blurred.

(** An array with at least one row and one column. *)
Definition has_pixels (a : ndarray) : Prop :=
  (Helpers.shape2 a).1 ≠ 0 ∧ (Helpers.shape2 a).2 ≠ 0.

(** What the documentation of the libraries promises on arguments in
    their domain: OpenCV warps an array with pixels to an array of the
    requested size (here the size of the input, as [rotate] asks) for an
    angle within [-180, 180], and filters it with a line kernel to an array
    of the same shape; Pillow blurs with every radius of at least 0 and
    enhances an image in mode RGB with every factor; numpy draws normal
    samples for every scale of at least 0. *)
Definition libraries_accept : Prop :=
  (∀ kind im factor,
     Pil.well_formed im → Pil.nonempty im →
     Py.is_ok (enhanced kind im factor) = true)
  ∧ (∀ a centre n,
       has_pixels a → -180 ≤ n ≤ 180 →
       ∃ r, cv2_warpAffine a
              (cv2_getRotationMatrix2D centre (Py.float_of_Z n) 1%float)
              ((Helpers.shape2 a).2, (Helpers.shape2 a).1) = Py.Ok r
            ∧ Helpers.shape2 r = Helpers.shape2 a)
  ∧ (∀ a size,
       has_pixels a → 1 ≤ size →
       ∃ r, cv2_filter2D a (MotionKernel.line_kernel size) = Py.Ok r
            ∧ Helpers.shape2 r = Helpers.shape2 a)
  ∧ (∀ im radius,
       Pil.well_formed im → Pil.nonempty im → 0 ≤ radius →
       Py.is_ok (pil_gaussian_blur im radius) = true)
  ∧ (∀ sigma n s,
       PrimFloat.leb 0 sigma = true →
       Py.is_ok (np_random_normal 0 sigma n s).2 = true).

(** [float(n)] does not overflow. *)
Definition converts (n : Z) : bool :=
  match Py.int_to_double n with Py.Ok f => true | Py.Raise _ => false end.

End delegation_definitions.
End Delegation.

(** * Properties *)

(** ** Running computations *)

Module Run.
Section run.
Context `{RT : Runtime}.

Lemma bind_run {A B} (m : M A) (k : A → M B) w :
  (m ≫= k) w =
  match m w with
  | (w', Py.Ok a) => k a w'
  | (w', Py.Raise e) => (w', Py.Raise e)
  end.
Proof. reflexivity. Qed.

Lemma bind_ok {A B} (m : M A) (k : A → M B) w w' a :
  m w = (w', Py.Ok a) → (m ≫= k) w = k a w'.
Proof. intros E. rewrite bind_run, E. reflexivity. Qed.

Lemma bind_raise {A B} (m : M A) (k : A → M B) w w' e :
  m w = (w', Py.Raise e) → (m ≫= k) w = (w', Py.Raise e).
Proof. intros E. rewrite bind_run, E. reflexivity. Qed.

Lemma ret_bind {A B} (a : A) (k : A → M B) w : (mret a ≫= k) w = k a w.
Proof. reflexivity. Qed.

Lemma lift_bind {A B} (r : Py.result A) (k : A → M B) w :
  (lift r ≫= k) w
  = match r with Py.Ok a => k a w | Py.Raise e => (w, Py.Raise e) end.
Proof. destruct r; reflexivity. Qed.

Lemma bind_assoc {A B C} (m : M A) (f : A → M B) (g : B → M C) w :
  ((m ≫= f) ≫= g) w = (m ≫= λ a, f a ≫= g) w.
Proof. rewrite !bind_run. destruct (m w) as [w1 [a|e]]; reflexivity. Qed.

Lemma load_image_ok l im w :
  images w !! l = Some im → load_image l w = (w, Py.Ok im).
Proof. intros E. unfold load_image. rewrite E. reflexivity. Qed.

Lemma load_dict_ok l d w :
  dicts w !! l = Some d → load_dict l w = (w, Py.Ok d).
Proof. intros E. unfold load_dict. rewrite E. reflexivity. Qed.

Lemma new_image_fresh w : images w !! fresh (dom (images w)) = None.
Proof. apply not_elem_of_dom, is_fresh. Qed.

Lemma new_dict_fresh w : dicts w !! fresh (dom (dicts w)) = None.
Proof. apply not_elem_of_dom, is_fresh. Qed.

(** A method of an [Image] object that builds its result from the
    contents: the receiver keeps its contents and the result is a new
    object. *)
Lemma image_transpose_ok image method im w :
  images w !! image = Some im →
  ∃ l, images w !! l = None ∧
       image_transpose image method w
       = (set_images <[l := Pil.transpose im method]> w, Py.Ok l).
Proof.
  intros E. exists (fresh (dom (images w))). split.
  - apply new_image_fresh.
  - unfold image_transpose. rewrite (bind_ok _ _ _ _ _ (load_image_ok _ _ _ E)).
    reflexivity.
Qed.

End run.
End Run.

(** ** Mirroring *)

Module Flip.
Section flip.
Context `{RT : Runtime}.

Lemma reverse_rows_involutive (rs : list (list Pil.pixel)) :
  reverse <$> (reverse <$> rs) = rs.
Proof.
  induction rs as [|r rs IH]; [reflexivity|].
  cbn [fmap list_fmap]. rewrite reverse_involutive. f_equal. exact IH.
Qed.

Lemma transpose_involutive im method :
  Pil.transpose (Pil.transpose im method) method = im.
Proof.
  destruct im as [w h rs]. destruct method; unfold Pil.transpose; cbn.
  - f_equal. apply reverse_rows_involutive.
  - f_equal. apply reverse_involutive.
Qed.

Lemma transpose_twice image method im w :
  images w !! image = Some im →
  ∃ w' twice,
    (image_transpose image method ≫= λ once, image_transpose once method) w
    = (w', Py.Ok twice)
    ∧ images w' !! twice = Some im
    ∧ images w' !! image = Some im.
Proof.
  intros E.
  destruct (Run.image_transpose_ok image method im w E) as (l1 & F1 & R1).
  set (w1 := set_images <[l1 := Pil.transpose im method]> w) in *.
  assert (E1 : images w1 !! l1 = Some (Pil.transpose im method))
    by apply lookup_insert_eq.
  destruct (Run.image_transpose_ok l1 method _ w1 E1) as (l2 & F2 & R2).
  assert (N1 : l1 ≠ image) by (intros ->; congruence).
  assert (N2 : l2 ≠ image).
  { intros ->. cbn in F2. rewrite lookup_insert_ne in F2 by exact N1. congruence. }
  eexists _, l2. split; [|split].
  - rewrite (Run.bind_ok _ _ _ _ _ R1). exact R2.
  - cbn. rewrite lookup_insert_eq, transpose_involutive. reflexivity.
  - cbn. rewrite !lookup_insert_ne by assumption. exact E.
Qed.

(** C9: flipping an image horizontally twice, or vertically twice, yields
    an image equal to the original; the original object is untouched. *)
Theorem C9_flips_are_involutions image im w :
  images w !! image = Some im →
  (∃ w' twice,
     (AugmentationEngine.flip_horizontal image
        ≫= AugmentationEngine.flip_horizontal) w = (w', Py.Ok twice)
     ∧ images w' !! twice = Some im ∧ images w' !! image = Some im)
  ∧
  (∃ w' twice,
     (AugmentationEngine.flip_vertical image
        ≫= AugmentationEngine.flip_vertical) w = (w', Py.Ok twice)
     ∧ images w' !! twice = Some im ∧ images w' !! image = Some im).
Proof.
  intros E. split.
  - apply (transpose_twice image Pil.FLIP_LEFT_RIGHT im w E).
  - apply (transpose_twice image Pil.FLIP_TOP_BOTTOM im w E).
Qed.

End flip.
End Flip.

(** C9 at a 6 by 4 image in the example world. *)
Lemma C9_flips_witness :
  images Example.world0 !! 1%positive = Some (Example.gradient 6 4)
  ∧ (∃ w' twice,
       (AugmentationEngine.flip_horizontal (RT := Example.runtime) 1%positive
          ≫= AugmentationEngine.flip_horizontal) Example.world0
       = (w', Py.Ok twice)
       ∧ images w' !! twice = Some (Example.gradient 6 4)
       ∧ images w' !! 1%positive = Some (Example.gradient 6 4)).
Proof.
  split; [reflexivity|].
  exact (proj1 (Flip.C9_flips_are_involutions (RT := Example.runtime) 1%positive
                  (Example.gradient 6 4) Example.world0 eq_refl)).
Defined.

(** ** Pixelation *)

Module PixelateFacts.
Section pixelate.
Context `{RT : Runtime}.
Import Pixelate.

Lemma sample_well_formed pick im w' h' :
  Pil.well_formed (Pil.sample_nearest pick im w' h').
Proof.
  split; cbn.
  - rewrite length_fmap, length_seq. reflexivity.
  - apply Forall_fmap, Forall_forall. intros y _. cbn.
    rewrite length_fmap, length_seq. reflexivity.
Qed.

Lemma pixel_at_elem im y x :
  Pil.well_formed im →
  (y < Pil.height im)%nat → (x < Pil.width im)%nat →
  (Pil.rows im !!! y) !!! x ∈ Pil.pixels im.
Proof.
  intros [Hlen Hrows] Hy Hx.
  assert (Hr : Pil.rows im !! y = Some (Pil.rows im !!! y)).
  { apply list_lookup_lookup_total_lt. lia. }
  assert (Hin : Pil.rows im !!! y ∈ Pil.rows im)
    by (eapply list_elem_of_lookup_2; exact Hr).
  rewrite Forall_forall in Hrows. specialize (Hrows _ Hin).
  unfold Pil.pixels. apply list_elem_of_join. exists (Pil.rows im !!! y).
  split; [|exact Hin].
  eapply list_elem_of_lookup_2. apply list_lookup_lookup_total_lt. lia.
Qed.

Lemma sample_pixels im w' h' p :
  p ∈ Pil.pixels (Pil.sample_nearest nearest_src im w' h') →
  ∃ y x, (y < h')%nat ∧ (x < w')%nat ∧
    p = (Pil.rows im !!! nearest_src (Pil.height im) h' y)
          !!! nearest_src (Pil.width im) w' x.
Proof.
  unfold Pil.pixels, Pil.sample_nearest. cbn.
  intros H. apply list_elem_of_join in H as (row & Hp & Hrow).
  apply list_elem_of_fmap in Hrow as (y & -> & Hy).
  apply list_elem_of_fmap in Hp as (x & -> & Hx).
  apply elem_of_seq in Hy, Hx. exists y, x. repeat split; lia.
Qed.

Lemma resize_nearest_spec im sz out :
  Pil.well_formed im →
  Pil.resize_nearest nearest_src im sz = Py.Ok out →
  Pil.well_formed out ∧ Pil.size out = sz ∧
  (Pil.nonempty im → ∀ p, p ∈ Pil.pixels out → p ∈ Pil.pixels im).
Proof.
  intros Hwf. unfold Pil.resize_nearest.
  destruct (Pil.size_eqb (Pil.size im) sz) eqn:Esz.
  - intros [= <-]. split; [exact Hwf|]. split; [|auto].
    unfold Pil.size_eqb in Esz. apply andb_true_iff in Esz as [E1 E2].
    apply Z.eqb_eq in E1, E2. destruct sz as [a b]. unfold Pil.size in *.
    cbn in *. congruence.
  - destruct ((sz.1 <? 1) || (sz.2 <? 1)) eqn:Elt; [discriminate|].
    apply orb_false_iff in Elt as [L1 L2]. apply Z.ltb_ge in L1, L2.
    intros [= <-]. split; [apply sample_well_formed|]. split.
    + destruct sz as [a b]. unfold Pil.size. cbn in *. f_equal; lia.
    + intros [Hw Hh] p Hp. apply sample_pixels in Hp as (y & x & Hy & Hx & ->).
      apply pixel_at_elem; [exact Hwf| |]; apply nearest_src_lt; lia.
Qed.

Lemma resize_nearest_ok im sz :
  1 ≤ sz.1 → 1 ≤ sz.2 → ∃ out, Pil.resize_nearest nearest_src im sz = Py.Ok out.
Proof.
  intros H1 H2. unfold Pil.resize_nearest.
  destruct (Pil.size_eqb _ _); [eauto|].
  apply Z.ltb_ge in H1, H2. rewrite H1, H2. cbn. eauto.
Qed.

Lemma resize_nearest_refused im sz :
  Pil.nonempty im → sz.1 < 1 ∨ sz.2 < 1 →
  Pil.resize_nearest nearest_src im sz
  = Py.Raise (Py.Exn Py.ValueError "height and width must be > 0").
Proof.
  intros [Hw Hh] Hsz. unfold Pil.resize_nearest.
  destruct (Pil.size_eqb (Pil.size im) sz) eqn:Esz.
  - unfold Pil.size_eqb, Pil.size in Esz. cbn in Esz.
    apply andb_true_iff in Esz as [E1 E2]. apply Z.eqb_eq in E1, E2. lia.
  - destruct Hsz as [H|H]; apply Z.ltb_lt in H; rewrite H;
      [|rewrite orb_true_r]; reflexivity.
Qed.

Lemma pixelate_run image im pixel_size w :
  images w !! image = Some im → pixel_size ≠ 0 →
  AugmentationEngine.pixelate image pixel_size w = pixelate_outcome im pixel_size w.
Proof.
  intros E Hb. apply Z.eqb_neq in Hb.
  assert (F : fresh (dom (images w)) ≠ image).
  { intros Hl. pose proof (Run.new_image_fresh w) as F. rewrite Hl in F. congruence. }
  unfold AugmentationEngine.pixelate, pixelate_outcome.
  unfold image_size, image_resize_nearest, Py.floordiv, lift, new_image, load_image.
  unfold mbind, M_bind, mret, M_ret.
  rewrite E, Hb. cbn beta iota delta [Pil.size fst snd]. rewrite E.
  destruct (Pil.resize_nearest _ im _) as [small|e]; [|reflexivity].
  cbn [images set_images]. rewrite lookup_insert_ne by exact F. rewrite E.
  cbn [images set_images]. rewrite lookup_insert_eq.
  destruct (Pil.resize_nearest _ small _) as [out|e]; reflexivity.
Qed.

Lemma pixelate_zero image im w :
  images w !! image = Some im →
  AugmentationEngine.pixelate image 0 w
  = (w, Py.Raise (Py.Exn Py.ZeroDivisionError "integer division or modulo by zero")).
Proof.
  intros E. unfold AugmentationEngine.pixelate, image_size.
  rewrite !Run.bind_run, (Run.load_image_ok _ _ _ E). reflexivity.
Qed.

Lemma single_pixel im :
  Pil.well_formed im → Pil.size im = (1, 1) →
  ∃ c, ∀ p, p ∈ Pil.pixels im → p = c.
Proof.
  intros [Hlen Hrows] Hsz. unfold Pil.size in Hsz.
  assert (Hw : Pil.width im = 1%nat) by (injection Hsz; lia).
  assert (Hh : Pil.height im = 1%nat) by (injection Hsz; lia).
  unfold Pil.pixels. rewrite Hh in Hlen. rewrite Hw in Hrows.
  destruct (Pil.rows im) as [|r [|? ?]]; try discriminate.
  apply Forall_inv in Hrows. destruct r as [|c [|? ?]]; try discriminate.
  exists c. intros p Hp. cbn in Hp. apply list_elem_of_singleton in Hp. exact Hp.
Qed.

Lemma pixelate_ok image im b w :
  images w !! image = Some im → Pil.well_formed im → 1 ≤ b →
  let W := Z.of_nat (Pil.width im) in
  let H := Z.of_nat (Pil.height im) in
  b ≤ W ∧ b ≤ H →
  ∃ small out w' l,
    AugmentationEngine.pixelate image b w = (w', Py.Ok l)
    ∧ images w' !! l = Some out ∧ images w' !! image = Some im
    ∧ Pil.resize_nearest nearest_src im (W / b, H / b) = Py.Ok small
    ∧ Pil.size small = (W / b, H / b)
    ∧ Pil.resize_nearest nearest_src small (W, H) = Py.Ok out
    ∧ Pil.size out = (W, H)
    ∧ (∀ p, p ∈ Pil.pixels out → p ∈ Pil.pixels im)
    ∧ (W / b = 1 → H / b = 1 → ∃ c, ∀ p, p ∈ Pil.pixels out → p = c).
Proof.
  intros E Hwf Hb W H [HbW HbH].
  assert (Hne : Pil.nonempty im) by (unfold Pil.nonempty; lia).
  assert (Hq1 : 1 ≤ W / b) by (apply Z.div_le_lower_bound; lia).
  assert (Hq2 : 1 ≤ H / b) by (apply Z.div_le_lower_bound; lia).
  destruct (resize_nearest_ok im (W / b, H / b) Hq1 Hq2) as [small Es].
  destruct (resize_nearest_spec im _ small Hwf Es) as (Hwfs & Hszs & Hps).
  assert (Hnes : Pil.nonempty small).
  { unfold Pil.size in Hszs. unfold Pil.nonempty. injection Hszs. lia. }
  destruct (resize_nearest_ok small (W, H)) as [out Eo]; [cbn; lia..|].
  destruct (resize_nearest_spec small _ out Hwfs Eo) as (Hwfo & Hszo & Hpo).
  rewrite (pixelate_run image im b w E) by lia.
  unfold pixelate_outcome. fold W H. cbn [Pil.size fst snd]. fold W H.
  rewrite Es. cbn zeta. change (Pil.size im) with (W, H). rewrite Eo.
  set (l1 := fresh (dom (images w))).
  set (w1 := set_images <[l1 := small]> w).
  set (l2 := fresh (dom (images w1))).
  assert (N1 : l1 ≠ image).
  { intros Hl. pose proof (Run.new_image_fresh w) as F. fold l1 in F.
    rewrite Hl in F. congruence. }
  assert (N2 : l2 ≠ image).
  { intros Hl. pose proof (Run.new_image_fresh w1) as F. fold l2 in F.
    rewrite Hl in F. cbn in F. rewrite lookup_insert_ne in F by exact N1.
    congruence. }
  exists small, out. eexists _, l2. split; [reflexivity|].
  split; [cbn; apply lookup_insert_eq|].
  split; [cbn; rewrite !lookup_insert_ne by assumption; exact E|].
  repeat split; try assumption.
  - intros p Hp. apply Hps; [exact Hne|]. apply Hpo; [exact Hnes|exact Hp].
  - intros Hw1 Hh1.
    destruct (single_pixel small Hwfs) as [c Hc]; [congruence|].
    exists c. intros p Hp. apply Hc, Hpo; [exact Hnes|exact Hp].
Qed.

(** A size that makes a quotient smaller than 1 is refused by the first
    resize, before any object is created. *)
Lemma pixelate_refused image im b w :
  images w !! image = Some im → Pil.nonempty im → b ≠ 0 →
  Z.of_nat (Pil.width im) / b < 1 ∨ Z.of_nat (Pil.height im) / b < 1 →
  AugmentationEngine.pixelate image b w
  = (w, Py.Raise (Py.Exn Py.ValueError "height and width must be > 0")).
Proof.
  intros E Hne Hb Hlt.
  rewrite (pixelate_run image im b w E) by exact Hb.
  unfold pixelate_outcome. cbn [Pil.size fst snd].
  rewrite resize_nearest_refused; [reflexivity|exact Hne|exact Hlt].
Qed.

(** C2: with a block size between 1 and both dimensions, [pixelate]
    resizes to floor(w/b) by floor(h/b) and back to w by h, both with
    nearest-neighbour sampling, so every pixel of the result is a pixel of
    the input, and the result is one block when both quotients are 1; with a
    block size above a dimension the first resize is refused. *)
Theorem C2_pixelate_blocks image im b w :
  images w !! image = Some im → Pil.well_formed im → 1 ≤ b →
  let W := Z.of_nat (Pil.width im) in
  let H := Z.of_nat (Pil.height im) in
  (b ≤ W ∧ b ≤ H →
     ∃ small out w' l,
       AugmentationEngine.pixelate image b w = (w', Py.Ok l)
       ∧ images w' !! l = Some out ∧ images w' !! image = Some im
       ∧ Pil.resize_nearest nearest_src im (W / b, H / b) = Py.Ok small
       ∧ Pil.size small = (W / b, H / b)
       ∧ Pil.resize_nearest nearest_src small (W, H) = Py.Ok out
       ∧ Pil.size out = (W, H)
       ∧ (∀ p, p ∈ Pil.pixels out → p ∈ Pil.pixels im)
       ∧ (W / b = 1 → H / b = 1 → ∃ c, ∀ p, p ∈ Pil.pixels out → p = c))
  ∧ (Pil.nonempty im → W < b ∨ H < b →
       AugmentationEngine.pixelate image b w
       = (w, Py.Raise (Py.Exn Py.ValueError "height and width must be > 0"))).
Proof.
  intros E Hwf Hb W H. split.
  - apply (pixelate_ok image im b w E Hwf Hb).
  - intros Hne Hlt. apply (pixelate_refused image im b w E Hne); [lia|].
    unfold Pil.nonempty in Hne. fold W H.
    destruct Hlt as [Hlt|Hlt]; [left|right]; rewrite Z.div_small; lia.
Qed.

End pixelate.
End PixelateFacts.

(** C2 read literally fails: a block size above the height makes the call
    raise instead of yielding one block. *)
Lemma C2_pixelate_counterexample :
  Pil.well_formed (Example.gradient 6 4)
  ∧ images Example.world0 !! 1%positive = Some (Example.gradient 6 4)
  ∧ (AugmentationEngine.pixelate (RT := Example.runtime) 1%positive 5
       Example.world0).2
    = Py.Raise (Py.Exn Py.ValueError "height and width must be > 0").
Proof.
  split; [|split]; [|reflexivity|vm_compute; reflexivity].
  split; [reflexivity|]. repeat constructor.
Qed.

(** C2 at block size 2 on the 6 by 4 example image. *)
Lemma C2_pixelate_witness :
  images Example.world0 !! 1%positive = Some (Example.gradient 6 4)
  ∧ Pil.well_formed (Example.gradient 6 4) ∧ 1 ≤ 2
  ∧ ∃ out w' l,
      AugmentationEngine.pixelate (RT := Example.runtime) 1%positive 2 Example.world0
      = (w', Py.Ok l)
      ∧ images w' !! l = Some out ∧ Pil.size out = (6, 4).
Proof.
  assert (Hwf : Pil.well_formed (Example.gradient 6 4)).
  { split; [reflexivity|]. repeat constructor. }
  split; [reflexivity|]. split; [exact Hwf|]. split; [lia|].
  destruct (proj1 (PixelateFacts.C2_pixelate_blocks (RT := Example.runtime) 1%positive
              (Example.gradient 6 4) 2 Example.world0 eq_refl Hwf ltac:(lia)))
    as (small & out & w' & l & Hrun & Hl & _ & _ & _ & _ & Hsz & _).
  { cbn. lia. }
  exists out, w', l. repeat split; assumption.
Defined.

(** ** Parameters outside their domain *)

Module EngineFailures.
Section failures.
Context `{RT : Runtime}.

Lemma pil_to_cv2_ok image im w :
  images w !! image = Some im → Pil.well_formed im → Pil.nonempty im →
  Helpers.pil_to_cv2 image w = (w, Py.Ok (map (map Helpers.swap_rb) (Pil.rows im))).
Proof.
  intros E [Hlen Hrows] [Hw Hh]. unfold Helpers.pil_to_cv2.
  rewrite (Run.bind_ok _ _ _ _ _ (Run.load_image_ok _ _ _ E)).
  unfold lift, Helpers.cv2_cvtColor_swap, Helpers.shape2. cbn [fst snd].
  destruct (Pil.rows im) as [|r rs] eqn:Er; [cbn in Hlen; lia|].
  apply Forall_inv in Hrows. cbn [head default length id].
  assert (E1 : (Z.of_nat (S (length rs)) =? 0) = false) by (apply Z.eqb_neq; lia).
  assert (E2 : (Z.of_nat (length r) =? 0) = false) by (apply Z.eqb_neq; lia).
  rewrite E1, E2. reflexivity.
Qed.

Lemma motion_blur_zero image im w :
  images w !! image = Some im → Pil.well_formed im → Pil.nonempty im →
  AugmentationEngine.motion_blur image 0 w
  = (w, Py.Raise (Py.Exn Py.IndexError
            "index 0 is out of bounds for axis 0 with size 0")).
Proof.
  intros E Hwf Hne. unfold AugmentationEngine.motion_blur.
  rewrite (Run.bind_ok _ _ _ _ _ (pil_to_cv2_ok _ _ _ E Hwf Hne)).
  reflexivity.
Qed.

Lemma motion_blur_negative image im size w :
  images w !! image = Some im → Pil.well_formed im → Pil.nonempty im →
  size < 0 →
  AugmentationEngine.motion_blur image size w
  = (w, Py.Raise (Py.Exn Py.ValueError "negative dimensions are not allowed")).
Proof.
  intros E Hwf Hne Hs. unfold AugmentationEngine.motion_blur.
  rewrite (Run.bind_ok _ _ _ _ _ (pil_to_cv2_ok _ _ _ E Hwf Hne)).
  unfold AugmentationEngine.np_zeros2, lift, mbind, M_bind.
  apply Z.ltb_lt in Hs. rewrite Hs. reflexivity.
Qed.

Lemma pixelate_negative image im b w :
  images w !! image = Some im → Pil.nonempty im → b < 0 →
  AugmentationEngine.pixelate image b w
  = (w, Py.Raise (Py.Exn Py.ValueError "height and width must be > 0")).
Proof.
  intros E Hne Hb. apply (PixelateFacts.pixelate_refused image im b w E Hne); [lia|].
  left. destruct Hne as [Hw _].
  pose proof (Z.div_mod (Z.of_nat (Pil.width im)) b ltac:(lia)) as Hdm.
  pose proof (Z.mod_neg_bound (Z.of_nat (Pil.width im)) b Hb) as Hm.
  nia.
Qed.

End failures.
End EngineFailures.

(** ** Loading and resizing *)

Module Resize.
Section resize.
Context `{RT : Runtime}.

Lemma image_size_ok image im w :
  images w !! image = Some im → image_size image w = (w, Py.Ok (Pil.size im)).
Proof.
  intros E. unfold image_size.
  rewrite (Run.bind_ok _ _ _ _ _ (Run.load_image_ok _ _ _ E)). reflexivity.
Qed.

(** An image within the limit is returned as it is: the same object, and
    nothing else changes. *)
Lemma resize_if_needed_within image im max_size w :
  images w !! image = Some im →
  Z.of_nat (Pil.width im) ≤ max_size → Z.of_nat (Pil.height im) ≤ max_size →
  Helpers.resize_if_needed image max_size w = (w, Py.Ok image).
Proof.
  intros E Hw Hh. unfold Helpers.resize_if_needed.
  rewrite (Run.bind_ok _ _ _ _ _ (image_size_ok _ _ _ E)).
  unfold Pil.size. apply Z.ltb_ge in Hw, Hh. rewrite Hw, Hh. reflexivity.
Qed.

(** An image beyond the limit is replaced by a new one of the size
    [scaled_size] computes, when both of its dimensions are at least 1. *)
Lemma resize_if_needed_beyond image im max_size sz w :
  images w !! image = Some im →
  (max_size <? (Pil.size im).1) || (max_size <? (Pil.size im).2) = true →
  Helpers.scaled_size (Pil.size im).1 (Pil.size im).2 max_size = Py.Ok sz →
  Pil.size im ≠ sz → 1 ≤ sz.1 → 1 ≤ sz.2 →
  ∃ out l,
    Helpers.resize_if_needed image max_size w = (set_images <[l := out]> w, Py.Ok l)
    ∧ images w !! l = None ∧ Pil.size out = sz.
Proof.
  intros E Hbig Hsz Hne H1 H2.
  exists (Pil.mkImage (Z.to_nat sz.1) (Z.to_nat sz.2)
            (pil_lanczos_rows im (Z.to_nat sz.1) (Z.to_nat sz.2))),
         (fresh (dom (images w))).
  split; [|split].
  - unfold Helpers.resize_if_needed.
    rewrite (Run.bind_ok _ _ _ _ _ (image_size_ok _ _ _ E)).
    destruct (Pil.size im) as [W H] eqn:ES. cbn [fst snd] in *. rewrite Hbig.
    unfold lift, mbind, M_bind, load_image, new_image. rewrite Hsz, E.
    unfold Helpers.resize_lanczos. rewrite ES.
    assert (Eq : Pil.size_eqb (W, H) sz = false).
    { unfold Pil.size_eqb. cbn [fst snd]. destruct sz as [a b].
      cbn [fst snd]. apply andb_false_iff.
      destruct (Z.eqb_spec W a) as [->|]; [|left; reflexivity].
      destruct (Z.eqb_spec H b) as [->|]; [|right; reflexivity].
      congruence. }
    rewrite Eq. apply Z.ltb_ge in H1, H2. rewrite H1, H2. reflexivity.
  - apply Run.new_image_fresh.
  - unfold Pil.size. cbn. destruct sz as [a b]. cbn in *. f_equal; lia.
Qed.

Lemma scaled_size_4000_3000 :
  Helpers.scaled_size 4000 3000 Settings.MAX_IMAGE_SIZE = Py.Ok (2000, 1500).
Proof. vm_compute. reflexivity. Qed.

Lemma scaled_size_2105_1500 :
  Helpers.scaled_size 2105 1500 Settings.MAX_IMAGE_SIZE = Py.Ok (1999, 1425).
Proof. vm_compute. reflexivity. Qed.

Lemma scaled_size_2001_1 :
  Helpers.scaled_size 2001 1 Settings.MAX_IMAGE_SIZE = Py.Ok (2000, 0).
Proof. vm_compute. reflexivity. Qed.

(** The run of [load_and_validate_image] on a file that passes the two
    checks and decodes. *)
Lemma load_and_validate_decoded f im w :
  Helpers.validate_file_format (Helpers.file_name f) Settings.SUPPORTED_FORMATS = true →
  Helpers.validate_file_size f Settings.MAX_FILE_SIZE = true →
  pil_open (Helpers.file_bytes f) = Py.Ok im →
  ImageProcessor.load_and_validate_image f w
  = try_except
      (Helpers.resize_if_needed (fresh (dom (images w))) Settings.MAX_IMAGE_SIZE)
      (λ e, raise (Py.Exn Py.ValueError ("Invalid image file: " ++ Py.exn_str e)))
      (set_images <[fresh (dom (images w)) := im]> w).
Proof.
  intros Hf Hs Ho. unfold ImageProcessor.load_and_validate_image.
  rewrite Hf, Hs. cbn [negb]. unfold try_except, lift, new_image, mbind, M_bind.
  rewrite Ho. reflexivity.
Qed.

(** C5: the unchanged case ([resize_if_needed_within]) and the example
    of the specification ([scaled_size_4000_3000]) hold, but the larger
    dimension does not always reach the maximum: a decoded image of 2105 by
    1500 pixels is resized to 1999 by 1425, because [int] truncates the
    product 2105 * (2000 / 2105), which binary64 rounds just below 2000. *)
Theorem C5_resize_misses_the_maximum f im w :
  Helpers.validate_file_format (Helpers.file_name f) Settings.SUPPORTED_FORMATS = true →
  Helpers.validate_file_size f Settings.MAX_FILE_SIZE = true →
  pil_open (Helpers.file_bytes f) = Py.Ok im →
  Pil.size im = (2105, 1500) →
  ∃ w' l out,
    ImageProcessor.load_and_validate_image f w = (w', Py.Ok l)
    ∧ images w' !! l = Some out
    ∧ Pil.size out = (1999, 1425).
Proof.
  intros Hf Hs Ho Hsz.
  rewrite (load_and_validate_decoded f im w Hf Hs Ho).
  set (l0 := fresh (dom (images w))).
  set (w0 := set_images <[l0 := im]> w).
  assert (E0 : images w0 !! l0 = Some im) by apply lookup_insert_eq.
  destruct (resize_if_needed_beyond l0 im Settings.MAX_IMAGE_SIZE (1999, 1425) w0 E0)
    as (out & l & Hrun & Hl & Hout).
  - rewrite Hsz. reflexivity.
  - rewrite Hsz. exact scaled_size_2105_1500.
  - rewrite Hsz. discriminate.
  - cbn. lia.
  - cbn. lia.
  - unfold try_except. rewrite Hrun. eexists _, l, out.
    split; [reflexivity|]. split; [apply lookup_insert_eq|exact Hout].
Qed.

End resize.
End Resize.

(** C5 on a file of the example runtime that decodes to 2105 by 1500
    pixels. *)
Lemma C5_resize_witness :
  let f := Helpers.mkFile "photo.png" [2105; 1500; 0] in
  let im := Pil.mkImage 2105 1500 (replicate 1500 (replicate 2105 (0, 0, 0))) in
  Helpers.validate_file_format (RT := Example.runtime) (Helpers.file_name f)
    Settings.SUPPORTED_FORMATS = true
  ∧ Helpers.validate_file_size f Settings.MAX_FILE_SIZE = true
  ∧ pil_open (Runtime := Example.runtime) (Helpers.file_bytes f) = Py.Ok im
  ∧ Pil.size im = (2105, 1500)
  ∧ ∃ w' l out,
      ImageProcessor.load_and_validate_image (RT := Example.runtime) f Example.world0
      = (w', Py.Ok l)
      ∧ images w' !! l = Some out
      ∧ Pil.size out = (1999, 1425).
Proof.
  intros f im.
  assert (Hf : Helpers.validate_file_format (RT := Example.runtime)
                 (Helpers.file_name f) Settings.SUPPORTED_FORMATS = true)
    by (vm_compute; reflexivity).
  assert (Hs : Helpers.validate_file_size f Settings.MAX_FILE_SIZE = true)
    by (vm_compute; reflexivity).
  assert (Ho : pil_open (Runtime := Example.runtime) (Helpers.file_bytes f) = Py.Ok im)
    by reflexivity.
  assert (Hsz : Pil.size im = (2105, 1500)) by reflexivity.
  repeat (split; [assumption|]).
  exact (Resize.C5_resize_misses_the_maximum (RT := Example.runtime) f im
           Example.world0 Hf Hs Ho Hsz).
Defined.

(** ** Presets *)

Module PresetFacts.
Section presets.
Context `{RT : Runtime}.
Import Presets.

Lemma get_preset_params_run name w :
  presets_stored w →
  ImageProcessor.get_preset_params name w
  = (set_dicts <[fresh (dom (dicts w)) := default ∅ (stored_preset w name)]> w,
     Py.Ok (fresh (dom (dicts w)))).
Proof.
  intros Hst. unfold ImageProcessor.get_preset_params, stored_preset.
  destruct (Settings.PRESETS !! Py.lower name) as [p|] eqn:Ep; cbn; [|reflexivity].
  destruct (Hst _ _ Ep) as [d Ed]. rewrite Ed. cbn.
  rewrite (Run.bind_ok _ _ _ _ _ (Run.load_dict_ok _ _ _ Ed)).
  case_bool_decide as Hd.
  - subst d. reflexivity.
  - unfold dict_copy. rewrite (Run.bind_ok _ _ _ _ _ (Run.load_dict_ok _ _ _ Ed)).
    reflexivity.
Qed.

(** Updating an object that is not a preset leaves every preset as it
    is. *)
Lemma stored_preset_frame w l (f : option dict → option dict) name :
  presets_stored w → dicts w !! l = None →
  stored_preset (set_dicts (partial_alter f l) w) name = stored_preset w name.
Proof.
  intros Hst Hl. unfold stored_preset.
  destruct (Settings.PRESETS !! Py.lower name) as [p|] eqn:Ep; cbn; [|reflexivity].
  destruct (Hst _ _ Ep) as [d Ed].
  apply lookup_partial_alter_ne. intros ->. congruence.
Qed.

Lemma presets_stored_insert w l d :
  presets_stored w → presets_stored (set_dicts <[l := d]> w).
Proof.
  intros Hst key p Ep. cbn. destruct (Hst _ _ Ep) as [d' Ed].
  destruct (decide (l = p)) as [->|Hne].
  - rewrite lookup_insert_eq. eauto.
  - rewrite lookup_insert_ne by exact Hne. eauto.
Qed.

Lemma dict_setitem_run l d k v w :
  dicts w !! l = Some d →
  dict_setitem l k v w = (set_dicts <[l := <[k := v]> d]> w, Py.Ok tt).
Proof.
  intros E. unfold dict_setitem.
  rewrite (Run.bind_ok _ _ _ _ _ (Run.load_dict_ok _ _ _ E)). reflexivity.
Qed.

Lemma dict_delitem_world l k w :
  (dict_delitem l k w).1 = w
  ∨ ∃ d, (dict_delitem l k w).1 = set_dicts <[l := d]> w.
Proof.
  unfold dict_delitem, load_dict, mbind, M_bind.
  destruct (dicts w !! l) as [d|]; [|left; reflexivity].
  destruct (d !! k); [right; eexists; reflexivity|left; reflexivity].
Qed.

(** C6: the lookup ignores case, returns a new dictionary holding the
    contents of the stored preset, so that writing to or deleting from the
    returned dictionary leaves every stored preset as it was, and returns a
    new empty dictionary for a name that matches no preset. *)
Theorem C6_preset_lookup w :
  presets_stored w →
  (∀ name, ∃ l,
     dicts w !! l = None
     ∧ ImageProcessor.get_preset_params name w
       = (set_dicts <[l := default ∅ (stored_preset w name)]> w, Py.Ok l)
     ∧ ∀ w', (ImageProcessor.get_preset_params name w).1 = w' →
         ∀ k v other,
           stored_preset (dict_setitem l k v w').1 other = stored_preset w other
           ∧ stored_preset (dict_delitem l k w').1 other = stored_preset w other)
  ∧ (∀ n1 n2, Py.lower n1 = Py.lower n2 →
       ∃ w1 l1 w2 l2 d,
         ImageProcessor.get_preset_params n1 w = (w1, Py.Ok l1)
         ∧ ImageProcessor.get_preset_params n2 w1 = (w2, Py.Ok l2)
         ∧ dicts w2 !! l1 = Some d ∧ dicts w2 !! l2 = Some d)
  ∧ (∀ name, Settings.PRESETS !! Py.lower name = None →
       ∃ l, ImageProcessor.get_preset_params name w
            = (set_dicts <[l := ∅]> w, Py.Ok l))
  ∧ Py.lower "ML_TRAINING" = Py.lower "ml_training".
Proof.
  intros Hst. split; [|split; [|split]].
  - intros name. exists (fresh (dom (dicts w))).
    pose proof (Run.new_dict_fresh w) as Hl.
    split; [exact Hl|]. split; [apply get_preset_params_run, Hst|].
    intros w' <-. rewrite (get_preset_params_run name w Hst). cbn [fst].
    set (l := fresh (dom (dicts w))) in *.
    set (d := default ∅ (stored_preset w name)).
    intros k v other.
    assert (Hframe : ∀ d', stored_preset (set_dicts <[l := d']> w) other
                           = stored_preset w other)
      by (intros d'; apply (stored_preset_frame w l (λ _, Some d')); assumption).
    assert (Hcollapse : ∀ d', set_dicts <[l := d']> (set_dicts <[l := d]> w)
                              = set_dicts <[l := d']> w).
    { intros d'. unfold set_dicts. cbn. rewrite insert_insert_eq. reflexivity. }
    split.
    + rewrite (dict_setitem_run l d k v) by apply lookup_insert_eq. cbn [fst].
      rewrite Hcollapse. apply Hframe.
    + destruct (dict_delitem_world l k (set_dicts <[l := d]> w)) as [->|[d' ->]].
      * apply Hframe.
      * rewrite Hcollapse. apply Hframe.
  - intros n1 n2 Hlow.
    set (l1 := fresh (dom (dicts w))).
    set (d := default ∅ (stored_preset w n1)).
    set (w1 := set_dicts <[l1 := d]> w).
    assert (Hst1 : presets_stored w1) by apply presets_stored_insert, Hst.
    exists w1, l1. eexists _, (fresh (dom (dicts w1))), d.
    split; [apply get_preset_params_run, Hst|].
    split; [apply get_preset_params_run, Hst1|].
    pose proof (Run.new_dict_fresh w1) as Hl2.
    split.
    + cbn. rewrite lookup_insert_ne; [apply lookup_insert_eq|].
      intros Heq. cbn in Hl2. rewrite Heq, lookup_insert_eq in Hl2. discriminate.
    + assert (Hf : stored_preset w1 n2 = stored_preset w n2).
      { apply (stored_preset_frame w l1 (λ _, Some d) n2 Hst), Run.new_dict_fresh. }
      cbn. rewrite lookup_insert_eq. f_equal. rewrite Hf. unfold d, stored_preset.
      rewrite Hlow. reflexivity.
  - intros name Hnone. exists (fresh (dom (dicts w))).
    rewrite (get_preset_params_run name w Hst). unfold stored_preset.
    rewrite Hnone. reflexivity.
  - reflexivity.
Qed.

End presets.
End PresetFacts.

(** C6 in the example world, whose store holds the three presets. *)
Lemma C6_preset_witness :
  Presets.presets_stored Example.world0
  ∧ ∃ l, ImageProcessor.get_preset_params (RT := Example.runtime) "nonexistent"
           Example.world0
         = (set_dicts <[l := ∅]> Example.world0, Py.Ok l).
Proof.
  assert (Hst : Presets.presets_stored Example.world0).
  { unfold Presets.presets_stored, Settings.PRESETS. cbn [list_to_map foldr].
    repeat (apply map_Forall_insert_2; [eexists; reflexivity|]).
    apply map_Forall_empty. }
  split; [exact Hst|].
  apply (proj1 (proj2 (proj2 (PresetFacts.C6_preset_lookup (RT := Example.runtime)
                                Example.world0 Hst)))).
  reflexivity.
Defined.

(** ** Every operation preserves the store *)

Module FrameFacts.
Section frame.
Context `{RT : Runtime}.
Import Frame.

Lemma preserves_ret {A} (a : A) : preserves (mret a).
Proof. intros w. split; reflexivity. Qed.

Lemma preserves_raise {A} e : preserves (raise (A := A) e).
Proof. intros w. split; reflexivity. Qed.

Lemma preserves_lift {A} (r : Py.result A) : preserves (lift r).
Proof. intros w. split; reflexivity. Qed.

Lemma preserves_bind {A B} (m : M A) (k : A → M B) :
  preserves m → (∀ a, preserves (k a)) → preserves (m ≫= k).
Proof.
  intros Hm Hk w. rewrite Run.bind_run.
  destruct (Hm w) as [Hi Hd]. destruct (m w) as [w1 [a|e]]; cbn in *.
  - destruct (Hk a w1) as [Hi' Hd']. split.
    + etrans; eassumption.
    + congruence.
  - split; assumption.
Qed.

Lemma preserves_load_image l : preserves (load_image l).
Proof. intros w. unfold load_image. destruct (images w !! l); split; reflexivity. Qed.

Lemma preserves_load_dict l : preserves (load_dict l).
Proof. intros w. unfold load_dict. destruct (dicts w !! l); split; reflexivity. Qed.

Lemma preserves_new_image im : preserves (new_image im).
Proof.
  intros w. split; [|reflexivity]. cbn.
  apply insert_subseteq, Run.new_image_fresh.
Qed.

Lemma preserves_np_normal mean sigma n : preserves (np_normal mean sigma n).
Proof.
  intros w. unfold np_normal.
  destruct (np_random_normal _ _ _ _) as [s r]. split; reflexivity.
Qed.

Lemma preserves_image_size l : preserves (image_size l).
Proof.
  apply preserves_bind; [apply preserves_load_image|intros; apply preserves_ret].
Qed.

Lemma preserves_dict_get l k : preserves (dict_get l k).
Proof.
  apply preserves_bind; [apply preserves_load_dict|intros; apply preserves_ret].
Qed.

Lemma preserves_dict_get_default l k v : preserves (dict_get_default l k v).
Proof.
  apply preserves_bind; [apply preserves_load_dict|intros; apply preserves_ret].
Qed.

Lemma preserves_dict_getitem l k : preserves (dict_getitem l k).
Proof.
  apply preserves_bind; [apply preserves_load_dict|].
  intros d. destruct (d !! k); [apply preserves_ret|apply preserves_raise].
Qed.

Lemma yields_preserves src m : yields src m → preserves m.
Proof. intros [H _]. exact H. Qed.

Lemma yields_ret src : yields src (mret src).
Proof.
  split; [apply preserves_ret|]. intros w l [= <-]. split; [left; reflexivity|auto].
Qed.

Lemma yields_new_image src im : yields src (new_image im).
Proof.
  split; [apply preserves_new_image|]. intros w l [= <-]. split.
  - right. apply Run.new_image_fresh.
  - intros _. cbn. rewrite lookup_insert_eq. eauto.
Qed.

(** A step that returns no object, followed by one that yields. *)
Lemma yields_after {A} src (m : M A) (k : A → M loc) :
  preserves m → (∀ a, yields src (k a)) → yields src (m ≫= k).
Proof.
  intros Hm Hk. split.
  - apply preserves_bind; [exact Hm|]. intros a. apply Hk.
  - intros w l. rewrite Run.bind_run. destruct (Hm w) as [Hi _].
    destruct (m w) as [w1 [a|e]]; cbn in *; [|discriminate].
    intros Hl. destruct (Hk a) as [_ Hy]. destruct (Hy w1 l Hl) as [Hf Hlive].
    split.
    + destruct Hf as [->|Hf]; [left; reflexivity|right].
      eapply lookup_weaken_None; eassumption.
    + intros [im Him]. apply Hlive. exists im.
      eapply lookup_weaken; eassumption.
Qed.

(** Two yielding steps in a row, the second working on the result of the
    first. *)
Lemma yields_then src (m : M loc) (k : loc → M loc) :
  yields src m → (∀ a, yields a (k a)) → yields src (m ≫= k).
Proof.
  intros [Hm Hym] Hk. split.
  - apply preserves_bind; [exact Hm|]. intros a. apply Hk.
  - intros w l. rewrite Run.bind_run. destruct (Hm w) as [Hi _].
    specialize (Hym w).
    destruct (m w) as [w1 [a|e]]; cbn in *; [|discriminate].
    intros Hl. destruct (Hym a eq_refl) as [Hfa Hla].
    destruct (Hk a) as [_ Hy]. destruct (Hy w1 l Hl) as [Hf Hlive].
    split.
    + destruct Hf as [->|Hf]; [exact Hfa|right].
      eapply lookup_weaken_None; eassumption.
    + intros Hsrc. apply Hlive, Hla, Hsrc.
Qed.

Lemma yields_if src (c : bool) (m1 m2 : M loc) :
  yields src m1 → yields src m2 → yields src (if c then m1 else m2).
Proof. destruct c; auto. Qed.

Create HintDb frame.

#[local] Hint Resolve preserves_ret preserves_raise preserves_lift
  preserves_load_image preserves_load_dict preserves_new_image
  preserves_np_normal preserves_image_size preserves_dict_get
  preserves_dict_get_default preserves_dict_getitem
  yields_ret yields_new_image yields_if : frame.

(** Solves [preserves] and [yields] goals over straight-line code. *)
Ltac frame_step :=
  first
    [ solve [auto with frame]
    | apply preserves_bind; [|intros ?]
    | apply yields_after; [|intros ?]
    | match goal with
      | |- context [let '(_, _) := ?p in _] => destruct p
      | |- context [match ?p with Py.Ok _ => _ | Py.Raise _ => _ end] => destruct p
      | |- context [if ?c then _ else _] => destruct c
      end ].

Ltac frame := repeat frame_step.

Lemma preserves_image_copy image : preserves (image_copy image).
Proof. unfold image_copy. frame. Qed.

(** [image.copy()] always returns an object that did not exist before. *)
Lemma image_copy_new image w l :
  (image_copy image w).2 = Py.Ok l →
  images w !! l = None ∧ is_Some (images (image_copy image w).1 !! l).
Proof.
  unfold image_copy, load_image, new_image, mbind, M_bind.
  destruct (images w !! image); [|discriminate]. intros [= <-]. split.
  - apply Run.new_image_fresh.
  - cbn. rewrite lookup_insert_eq. eauto.
Qed.

Lemma yields_image_transpose src method : yields src (image_transpose src method).
Proof. unfold image_transpose. frame. Qed.

Lemma yields_image_resize_nearest src sz : yields src (image_resize_nearest src sz).
Proof. unfold image_resize_nearest. frame. Qed.

Lemma preserves_pil_to_cv2 image : preserves (Helpers.pil_to_cv2 image).
Proof. unfold Helpers.pil_to_cv2. frame. Qed.

Lemma yields_cv2_to_pil src a : yields src (Helpers.cv2_to_pil a).
Proof. unfold Helpers.cv2_to_pil. frame. Qed.

#[local] Hint Resolve preserves_image_copy yields_image_transpose
  yields_image_resize_nearest preserves_pil_to_cv2 yields_cv2_to_pil : frame.

Lemma yields_rotate src angle : yields src (AugmentationEngine.rotate src angle).
Proof. unfold AugmentationEngine.rotate. frame. Qed.

Lemma yields_flip_horizontal src : yields src (AugmentationEngine.flip_horizontal src).
Proof. unfold AugmentationEngine.flip_horizontal. frame. Qed.

Lemma yields_flip_vertical src : yields src (AugmentationEngine.flip_vertical src).
Proof. unfold AugmentationEngine.flip_vertical. frame. Qed.

Lemma yields_enhance kind src factor :
  yields src (AugmentationEngine.enhance kind src factor).
Proof. unfold AugmentationEngine.enhance. frame. Qed.

Lemma yields_add_gaussian_noise src sigma :
  yields src (AugmentationEngine.add_gaussian_noise src sigma).
Proof. unfold AugmentationEngine.add_gaussian_noise. frame. Qed.

Lemma yields_gaussian_blur src kernel_size :
  yields src (AugmentationEngine.gaussian_blur src kernel_size).
Proof. unfold AugmentationEngine.gaussian_blur. frame. Qed.

Lemma yields_motion_blur src size :
  yields src (AugmentationEngine.motion_blur src size).
Proof. unfold AugmentationEngine.motion_blur. frame. Qed.

Lemma yields_pixelate src pixel_size :
  yields src (AugmentationEngine.pixelate src pixel_size).
Proof.
  unfold AugmentationEngine.pixelate.
  apply yields_after; [frame|]. intros [width height].
  apply yields_after; [frame|]. intros w'.
  apply yields_after; [frame|]. intros h'.
  apply yields_then; [frame|]. intros small. frame.
Qed.

End frame.
End FrameFacts.

(** ** The pipeline in its fixed order *)

Module PipelineFacts.
Section pipeline.
Context `{RT : Runtime}.
Import Pipeline.

Lemma for_each_filter_cons {A B} (f : B → A → M B) (p : A → bool) s l r w :
  for_each f (List.filter p (s :: l)) r w
  = ((if p s then f r s else mret r) ≫= for_each f (List.filter p l)) w.
Proof. cbn [List.filter]. destruct (p s); reflexivity. Qed.

Lemma bind_cong {A B} (m : M A) (k1 k2 : A → M B) w :
  Frame.preserves m →
  (∀ a w', dicts w' = dicts w → k1 a w' = k2 a w') →
  (m ≫= k1) w = (m ≫= k2) w.
Proof.
  intros Hm Hk. rewrite !Run.bind_run. destruct (Hm w) as [_ Hd].
  destruct (m w) as [w1 [a|e]]; [|reflexivity]. apply Hk. exact Hd.
Qed.

(** A statement that reads a valued parameter with a default and applies
    its operation when the value differs from the default. *)
Lemma sync_valued params d key dflt (op : loc → Py.pyval → M loc)
    (restL restR : loc → M loc) r w :
  dicts w !! params = Some d →
  Py.py_neb dflt dflt = false →
  (∀ v, Frame.preserves (op r v)) →
  (∀ r' w', dicts w' !! params = Some d → restL r' w' = restR r' w') →
  (v ← dict_get_default params key dflt;
   result ← (if Py.py_neb v dflt then
               x ← dict_getitem params key; op r x
             else mret r);
   restL result) w
  = ((if Py.py_neb (default dflt (d !! key)) dflt then
        op r (default dflt (d !! key))
      else mret r) ≫= restR) w.
Proof.
  intros Hd Hdflt Hop Hrest.
  unfold dict_get_default.
  rewrite Run.bind_assoc, (Run.bind_ok _ _ _ _ _ (Run.load_dict_ok _ _ _ Hd)).
  rewrite Run.ret_bind.
  destruct (Py.py_neb (default dflt (d !! key)) dflt) eqn:Hne.
  - destruct (d !! key) as [x|] eqn:Hx; cbn [default] in *; [|congruence].
    rewrite Run.bind_assoc. unfold dict_getitem.
    rewrite Run.bind_assoc, (Run.bind_ok _ _ _ _ _ (Run.load_dict_ok _ _ _ Hd)).
    rewrite Hx.
    rewrite Run.ret_bind.
    apply bind_cong; [apply Hop|]. intros r' w' Hw. apply Hrest. congruence.
  - rewrite Run.ret_bind. apply Hrest. exact Hd.
Qed.

(** A statement that applies an operation when a flag is true. *)
Lemma sync_flag params d key (op : loc → M loc)
    (restL restR : loc → M loc) r w :
  dicts w !! params = Some d →
  Frame.preserves (op r) →
  (∀ r' w', dicts w' !! params = Some d → restL r' w' = restR r' w') →
  (v ← dict_get params key;
   result ← (if Py.truthy_opt v then op r else mret r);
   restL result) w
  = ((if Py.truthy_opt (d !! key) then op r else mret r) ≫= restR) w.
Proof.
  intros Hd Hop Hrest.
  unfold dict_get.
  rewrite Run.bind_assoc, (Run.bind_ok _ _ _ _ _ (Run.load_dict_ok _ _ _ Hd)).
  rewrite Run.ret_bind.
  destruct (Py.truthy_opt (d !! key)).
  - apply bind_cong; [apply Hop|]. intros r' w' Hw. apply Hrest. congruence.
  - rewrite Run.ret_bind. apply Hrest. exact Hd.
Qed.

(** The source, statement by statement, runs the enabled steps in the
    fixed order. *)
Lemma apply_transformations_steps image params d w :
  dicts w !! params = Some d →
  ImageProcessor.apply_transformations image params w
  = (result ← image_copy image;
     for_each (run_step d) (List.filter (step_enabled d) pipeline_order) result) w.
Proof.
  intros Hd. unfold ImageProcessor.apply_transformations.
  apply bind_cong; [apply FrameFacts.preserves_image_copy|].
  intros r w1 Hw1. assert (Hd1 : dicts w1 !! params = Some d) by congruence.
  clear Hd Hw1 w. revert r w1 Hd1. unfold pipeline_order.
  intros r w Hd. rewrite for_each_filter_cons.
  apply (sync_valued params d "rotation" (Py.VInt 0) AugmentationEngine.rotate);
    [exact Hd|reflexivity|intros; eapply FrameFacts.yields_preserves, FrameFacts.yields_rotate|].
  clear r w Hd. intros r w Hd. rewrite for_each_filter_cons.
  apply (sync_flag params d "flip_horizontal" AugmentationEngine.flip_horizontal);
    [exact Hd|eapply FrameFacts.yields_preserves, FrameFacts.yields_flip_horizontal|].
  clear r w Hd. intros r w Hd. rewrite for_each_filter_cons.
  apply (sync_flag params d "flip_vertical" AugmentationEngine.flip_vertical);
    [exact Hd|eapply FrameFacts.yields_preserves, FrameFacts.yields_flip_vertical|].
  clear r w Hd. intros r w Hd. rewrite for_each_filter_cons.
  apply (sync_valued params d "brightness" (Py.VFloat 1) AugmentationEngine.adjust_brightness);
    [exact Hd|reflexivity|intros; eapply FrameFacts.yields_preserves, FrameFacts.yields_enhance|].
  clear r w Hd. intros r w Hd. rewrite for_each_filter_cons.
  apply (sync_valued params d "contrast" (Py.VFloat 1) AugmentationEngine.adjust_contrast);
    [exact Hd|reflexivity|intros; eapply FrameFacts.yields_preserves, FrameFacts.yields_enhance|].
  clear r w Hd. intros r w Hd. rewrite for_each_filter_cons.
  apply (sync_valued params d "saturation" (Py.VFloat 1) AugmentationEngine.adjust_saturation);
    [exact Hd|reflexivity|intros; eapply FrameFacts.yields_preserves, FrameFacts.yields_enhance|].
  clear r w Hd. intros r w Hd. rewrite for_each_filter_cons.
  apply (sync_valued params d "sharpness" (Py.VFloat 1) AugmentationEngine.adjust_sharpness);
    [exact Hd|reflexivity|intros; eapply FrameFacts.yields_preserves, FrameFacts.yields_enhance|].
  clear r w Hd. intros r w Hd. rewrite for_each_filter_cons.
  apply (sync_flag params d "gaussian_noise"
           (λ r, AugmentationEngine.add_gaussian_noise r AugmentationEngine.default_sigma));
    [exact Hd|eapply FrameFacts.yields_preserves, FrameFacts.yields_add_gaussian_noise|].
  clear r w Hd. intros r w Hd. rewrite for_each_filter_cons.
  apply (sync_flag params d "gaussian_blur"
           (λ r, AugmentationEngine.gaussian_blur r AugmentationEngine.default_kernel_size));
    [exact Hd|eapply FrameFacts.yields_preserves, FrameFacts.yields_gaussian_blur|].
  clear r w Hd. intros r w Hd. rewrite for_each_filter_cons.
  apply (sync_flag params d "motion_blur"
           (λ r, AugmentationEngine.motion_blur r AugmentationEngine.default_motion_size));
    [exact Hd|eapply FrameFacts.yields_preserves, FrameFacts.yields_motion_blur|].
  clear r w Hd. intros r w Hd. rewrite for_each_filter_cons.
  apply (sync_flag params d "pixelate"
           (λ r, AugmentationEngine.pixelate r AugmentationEngine.default_pixel_size));
    [exact Hd|eapply FrameFacts.yields_preserves, FrameFacts.yields_pixelate|].
  clear r w Hd. intros r w Hd. reflexivity.
Qed.

Lemma step_enabled_differs d s :
  flags_are_booleans d → step_enabled d s = differs_from_identity d s.
Proof.
  intros Hflags. unfold step_enabled, differs_from_identity, param.
  destruct (is_flag s) eqn:Hs; [|reflexivity].
  destruct (d !! step_key s) as [v|] eqn:Hv.
  - destruct (Hflags s v Hs Hv) as [b ->]. destruct s, b; try discriminate; reflexivity.
  - destruct s; try discriminate; reflexivity.
Qed.

(** C4: on a parameter dictionary whose flags are booleans,
    [apply_transformations] copies the image and then applies exactly the
    operations whose parameter differs from its identity value, in the
    order rotation, flip_horizontal, flip_vertical, brightness, contrast,
    saturation, sharpness, gaussian_noise, gaussian_blur, motion_blur,
    pixelate, each on the output of the previous one. *)
Theorem C4_fixed_order image params d w :
  dicts w !! params = Some d → flags_are_booleans d →
  ImageProcessor.apply_transformations image params w
  = apply_in_fixed_order image d w.
Proof.
  intros Hd Hflags. rewrite (apply_transformations_steps image params d w Hd).
  unfold apply_in_fixed_order.
  rewrite (List.filter_ext _ _ (λ s, step_enabled_differs d s Hflags)).
  reflexivity.
Qed.

Lemma step_enabled_agree d1 d2 s :
  d1 !! step_key s = d2 !! step_key s → step_enabled d1 s = step_enabled d2 s.
Proof. intros H. unfold step_enabled, param. rewrite H. reflexivity. Qed.

Lemma run_step_agree d1 d2 r s :
  d1 !! step_key s = d2 !! step_key s → run_step d1 r s = run_step d2 r s.
Proof.
  intros H. destruct s; unfold run_step, param; cbn [step_key] in *;
    try rewrite H; reflexivity.
Qed.

Lemma for_each_ext {A B} (f g : B → A → M B) xs :
  (∀ b a, f b a = g b a) → ∀ b w, for_each f xs b w = for_each g xs b w.
Proof.
  intros Hfg. induction xs as [|x xs IH]; intros b w; [reflexivity|].
  cbn [for_each]. rewrite !Run.bind_run, Hfg.
  destruct (g b x w) as [w1 [b'|e]]; [apply IH|reflexivity].
Qed.

Lemma apply_transformations_agree image p1 p2 d1 d2 w :
  dicts w !! p1 = Some d1 → dicts w !! p2 = Some d2 →
  (∀ s, d1 !! step_key s = d2 !! step_key s) →
  ImageProcessor.apply_transformations image p1 w
  = ImageProcessor.apply_transformations image p2 w.
Proof.
  intros H1 H2 Hagree.
  rewrite (apply_transformations_steps image p1 d1 w H1).
  rewrite (apply_transformations_steps image p2 d2 w H2).
  rewrite (List.filter_ext _ _ (λ s, step_enabled_agree d1 d2 s (Hagree s))).
  rewrite !Run.bind_run. destruct (image_copy image w) as [w1 [r|e]]; [|reflexivity].
  apply for_each_ext. intros b s. apply run_step_agree, Hagree.
Qed.

(** C10: two parameter dictionaries that agree on the eleven recognized
    keys give the same run of [apply_transformations] on the same image;
    in particular an entry under any other key, such as the name of a
    preset, changes nothing and is not rejected. *)
Theorem C10_only_recognized_keys image p1 p2 d1 d2 w :
  dicts w !! p1 = Some d1 → dicts w !! p2 = Some d2 →
  ((∀ s, d1 !! step_key s = d2 !! step_key s) →
   ImageProcessor.apply_transformations image p1 w
   = ImageProcessor.apply_transformations image p2 w)
  ∧ (∀ k v, (∀ s, step_key s ≠ k) → d2 = <[k := v]> d1 →
     ImageProcessor.apply_transformations image p1 w
     = ImageProcessor.apply_transformations image p2 w).
Proof.
  intros H1 H2. split.
  - apply (apply_transformations_agree image p1 p2 d1 d2 w H1 H2).
  - intros k v Hk ->. apply (apply_transformations_agree image p1 p2 _ _ w H1 H2).
    intros s. rewrite lookup_insert_ne; [reflexivity|].
    intros Heq. exact (Hk s (eq_sym Heq)).
Qed.

(** One statement of the source keeps the store and yields an image. *)
Lemma yields_valued params key dflt (op : loc → Py.pyval → M loc)
    (rest : loc → M loc) r :
  (∀ v, Frame.yields r (op r v)) → (∀ r', Frame.yields r' (rest r')) →
  Frame.yields r
    (v ← dict_get_default params key dflt;
     result ← (if Py.py_neb v dflt then x ← dict_getitem params key; op r x
               else mret r);
     rest result).
Proof.
  intros Hop Hrest.
  apply FrameFacts.yields_after; [apply FrameFacts.preserves_dict_get_default|]. intros v.
  apply FrameFacts.yields_then; [|exact Hrest].
  destruct (Py.py_neb v dflt); [|apply FrameFacts.yields_ret].
  apply FrameFacts.yields_after; [apply FrameFacts.preserves_dict_getitem|]. intros x. apply Hop.
Qed.

Lemma yields_flag params key (op : loc → M loc) (rest : loc → M loc) r :
  Frame.yields r (op r) → (∀ r', Frame.yields r' (rest r')) →
  Frame.yields r
    (v ← dict_get params key;
     result ← (if Py.truthy_opt v then op r else mret r);
     rest result).
Proof.
  intros Hop Hrest.
  apply FrameFacts.yields_after; [apply FrameFacts.preserves_dict_get|]. intros v.
  apply FrameFacts.yields_then; [|exact Hrest].
  destruct (Py.truthy_opt v); [exact Hop|apply FrameFacts.yields_ret].
Qed.

(** A copy followed by yielding steps returns an object that did not
    exist before, and keeps the store. *)
Lemma copy_then_yields image (k : loc → M loc) w :
  (∀ r, Frame.yields r (k r)) →
  images w ⊆ images ((image_copy image ≫= k) w).1
  ∧ dicts ((image_copy image ≫= k) w).1 = dicts w
  ∧ ∀ l, ((image_copy image ≫= k) w).2 = Py.Ok l →
      images w !! l = None ∧ is_Some (images ((image_copy image ≫= k) w).1 !! l).
Proof.
  intros Hk. rewrite Run.bind_run.
  destruct (FrameFacts.preserves_image_copy image w) as [Hi0 Hd0].
  pose proof (FrameFacts.image_copy_new image w) as Hnew.
  destruct (image_copy image w) as [w1 [r|e]]; cbn [fst snd] in *.
  - destruct (Hk r) as [Hp Hy]. destruct (Hp w1) as [Hi1 Hd1].
    destruct (Hnew r eq_refl) as [Hfresh Hlive].
    split; [etrans; eassumption|]. split; [congruence|].
    intros l Hl. destruct (Hy w1 l Hl) as [Hf Hl'].
    split; [|apply Hl', Hlive].
    destruct Hf as [->|Hf]; [exact Hfresh|].
    eapply lookup_weaken_None; eassumption.
  - split; [exact Hi0|]. split; [exact Hd0|]. intros l [=].
Qed.

Lemma apply_transformations_new image params w :
  images w ⊆ images (ImageProcessor.apply_transformations image params w).1
  ∧ dicts (ImageProcessor.apply_transformations image params w).1 = dicts w
  ∧ ∀ l, (ImageProcessor.apply_transformations image params w).2 = Py.Ok l →
      images w !! l = None
      ∧ is_Some (images (ImageProcessor.apply_transformations image params w).1 !! l).
Proof.
  unfold ImageProcessor.apply_transformations. apply copy_then_yields.
  intros r.
  apply yields_valued; [intros; apply FrameFacts.yields_rotate|]. intros ?.
  apply yields_flag; [apply FrameFacts.yields_flip_horizontal|]. intros ?.
  apply yields_flag; [apply FrameFacts.yields_flip_vertical|]. intros ?.
  apply yields_valued; [intros; apply FrameFacts.yields_enhance|]. intros ?.
  apply yields_valued; [intros; apply FrameFacts.yields_enhance|]. intros ?.
  apply yields_valued; [intros; apply FrameFacts.yields_enhance|]. intros ?.
  apply yields_valued; [intros; apply FrameFacts.yields_enhance|]. intros ?.
  apply (yields_flag params "gaussian_noise"
           (λ r, AugmentationEngine.add_gaussian_noise r AugmentationEngine.default_sigma));
    [apply FrameFacts.yields_add_gaussian_noise|]. intros ?.
  apply (yields_flag params "gaussian_blur"
           (λ r, AugmentationEngine.gaussian_blur r AugmentationEngine.default_kernel_size));
    [apply FrameFacts.yields_gaussian_blur|]. intros ?.
  apply (yields_flag params "motion_blur"
           (λ r, AugmentationEngine.motion_blur r AugmentationEngine.default_motion_size));
    [apply FrameFacts.yields_motion_blur|]. intros ?.
  apply (yields_flag params "pixelate"
           (λ r, AugmentationEngine.pixelate r AugmentationEngine.default_pixel_size));
    [apply FrameFacts.yields_pixelate|]. intros ?.
  apply FrameFacts.yields_ret.
Qed.

(** C8: [apply_transformations] leaves every existing image object, the
    one passed in included, with the contents it had, and what it returns
    is an object that did not exist before the call; each operation of the
    engine likewise leaves the existing image objects as they were. *)
Theorem C8_input_not_mutated image params w :
  (images w ⊆ images (ImageProcessor.apply_transformations image params w).1
   ∧ ∀ l, (ImageProcessor.apply_transformations image params w).2 = Py.Ok l →
       images w !! l = None
       ∧ is_Some (images (ImageProcessor.apply_transformations image params w).1 !! l))
  ∧ (∀ angle, images w ⊆ images (AugmentationEngine.rotate image angle w).1)
  ∧ images w ⊆ images (AugmentationEngine.flip_horizontal image w).1
  ∧ images w ⊆ images (AugmentationEngine.flip_vertical image w).1
  ∧ (∀ factor,
       images w ⊆ images (AugmentationEngine.adjust_brightness image factor w).1
       ∧ images w ⊆ images (AugmentationEngine.adjust_contrast image factor w).1
       ∧ images w ⊆ images (AugmentationEngine.adjust_saturation image factor w).1
       ∧ images w ⊆ images (AugmentationEngine.adjust_sharpness image factor w).1)
  ∧ (∀ sigma, images w ⊆ images (AugmentationEngine.add_gaussian_noise image sigma w).1)
  ∧ (∀ size,
       images w ⊆ images (AugmentationEngine.gaussian_blur image size w).1
       ∧ images w ⊆ images (AugmentationEngine.motion_blur image size w).1
       ∧ images w ⊆ images (AugmentationEngine.pixelate image size w).1).
Proof.
  split.
  { destruct (apply_transformations_new image params w) as (H1 & _ & H2).
    split; assumption. }
  assert (Hy : ∀ (m : M loc), Frame.yields image m → images w ⊆ images (m w).1).
  { intros m [Hp _]. apply Hp. }
  split; [intros; apply Hy, FrameFacts.yields_rotate|].
  split; [apply Hy, FrameFacts.yields_flip_horizontal|].
  split; [apply Hy, FrameFacts.yields_flip_vertical|].
  split; [intros; repeat split; apply Hy, FrameFacts.yields_enhance|].
  split; [intros; apply Hy, FrameFacts.yields_add_gaussian_noise|].
  intros size. split; [apply Hy, FrameFacts.yields_gaussian_blur|].
  split; [apply Hy, FrameFacts.yields_motion_blur|apply Hy, FrameFacts.yields_pixelate].
Qed.

End pipeline.
End PipelineFacts.

(** C4 on the ML-training preset in the example world. *)
Lemma C4_fixed_order_witness :
  dicts Example.world0 !! 1%positive = Some Settings.ml_training
  ∧ Pipeline.flags_are_booleans Settings.ml_training
  ∧ ImageProcessor.apply_transformations (RT := Example.runtime) 1%positive
      1%positive Example.world0
    = Pipeline.apply_in_fixed_order 1%positive Settings.ml_training Example.world0.
Proof.
  assert (Hflags : Pipeline.flags_are_booleans Settings.ml_training).
  { intros s v Hs Hv.
    destruct s; try discriminate Hs; vm_compute in Hv;
      first [discriminate Hv | injection Hv as <-; eexists; reflexivity]. }
  split; [reflexivity|]. split; [exact Hflags|].
  exact (PipelineFacts.C4_fixed_order (RT := Example.runtime) 1%positive 1%positive
           Settings.ml_training Example.world0 eq_refl Hflags).
Defined.

(** C10 on the creative preset, which carries the unrecognized key
    [name], and a copy of it without that key. *)
Lemma C10_recognized_keys_witness :
  let unnamed := delete "name"%string Settings.creative in
  let w := set_dicts (RT := Example.runtime) <[4%positive := unnamed]> Example.world0 in
  dicts w !! 4%positive = Some unnamed
  ∧ dicts w !! 2%positive = Some Settings.creative
  ∧ ImageProcessor.apply_transformations 1%positive 4%positive w
    = ImageProcessor.apply_transformations 1%positive 2%positive w.
Proof.
  intros unnamed w.
  split; [reflexivity|]. split; [reflexivity|].
  refine (proj2 (PipelineFacts.C10_only_recognized_keys (RT := Example.runtime)
                   1%positive 4%positive 2%positive unnamed Settings.creative w
                   eq_refl eq_refl)
            "name"%string (Py.VStr "Creative") _ _).
  - intros s. destruct s; discriminate.
  - symmetry. apply insert_delete_id. reflexivity.
Defined.

(** ** Jitter around a preset *)

Module JitterFacts.
Section jitter.
Context `{RT : Runtime}.
Import Jitter.

Lemma at_lookup w l d s : dicts (at_ w l d s) !! l = Some d.
Proof. cbn. apply lookup_insert_eq. Qed.

Lemma at_set_dict w l d d' s :
  set_dicts <[l := d']> (at_ w l d s) = at_ w l d' s.
Proof. unfold at_, set_dicts, set_py_random. cbn. rewrite insert_insert_eq. reflexivity. Qed.

Lemma dict_contains_at w l d s key :
  dict_contains l key (at_ w l d s)
  = (at_ w l d s, Py.Ok (bool_decide (is_Some (d !! key)))).
Proof.
  unfold dict_contains.
  rewrite (Run.bind_ok _ _ _ _ _ (Run.load_dict_ok _ _ _ (at_lookup w l d s))).
  reflexivity.
Qed.

Lemma dict_getitem_at w l d s key v :
  d !! key = Some v → dict_getitem l key (at_ w l d s) = (at_ w l d s, Py.Ok v).
Proof.
  intros E. unfold dict_getitem.
  rewrite (Run.bind_ok _ _ _ _ _ (Run.load_dict_ok _ _ _ (at_lookup w l d s))).
  rewrite E. reflexivity.
Qed.

Lemma dict_setitem_at w l d s key v :
  dict_setitem l key v (at_ w l d s) = (at_ w l (<[key := v]> d) s, Py.Ok tt).
Proof.
  unfold dict_setitem.
  rewrite (Run.bind_ok _ _ _ _ _ (Run.load_dict_ok _ _ _ (at_lookup w l d s))).
  unfold modify. rewrite at_set_dict. reflexivity.
Qed.

Lemma vary_rotation_follows l :
  follows (c ← dict_contains l "rotation"; when c (BatchGenerator.vary_rotation l))
    (block "rotation" draw_rotation Py.py_add clamp_rotation) l.
Proof.
  intros w d s. unfold block.
  rewrite (Run.bind_ok _ _ _ _ _ (dict_contains_at w l d s "rotation")).
  destruct (d !! "rotation") as [old|] eqn:Eold; cbn [bool_decide when].
  2:{ exists d. rewrite bool_decide_false by (intros [? [=]]). cbn. auto. }
  rewrite bool_decide_true by eauto. cbn [when].
  unfold BatchGenerator.vary_rotation.
  rewrite (Run.bind_ok _ _ _ _ _ (dict_getitem_at w l d s _ _ Eold)).
  unfold random_randint, random_randbelow, draw_rotation.
  rewrite Run.bind_assoc, Run.bind_run. cbn [py_random at_ set_py_random].
  destruct (rng_randbelow (10 - -10 + 1) s) as [k s'] eqn:Ek.
  change (set_py_random s' _) with (at_ w l d s'). cbn [fst snd].
  rewrite Run.ret_bind, Run.lift_bind.
  destruct (Py.py_add old (Py.VInt (-10 + k))) as [v|e]; cbn [Py.rbind];
    [|exists d; split; reflexivity].
  rewrite (Run.bind_ok _ _ _ _ _ (dict_setitem_at w l d s' _ v)).
  rewrite (Run.bind_ok _ _ _ _ _ (dict_getitem_at w l _ s' "rotation" v
             (lookup_insert_eq _ _ _))).
  rewrite Run.lift_bind. fold (clamp_rotation v).
  destruct (clamp_rotation v) as [v'|e]; cbn [Py.rbind];
    [|eexists; split; reflexivity].
  rewrite dict_setitem_at, insert_insert_eq. eexists. split; [reflexivity|auto].
Qed.

Lemma vary_factor_follows l key lo hi :
  follows (c ← dict_contains l key; when c (BatchGenerator.vary_factor l key lo hi))
    (block key (draw_factor lo hi) Py.py_mul clamp_factor) l.
Proof.
  intros w d s. unfold block.
  rewrite (Run.bind_ok _ _ _ _ _ (dict_contains_at w l d s key)).
  destruct (d !! key) as [old|] eqn:Eold; cbn [bool_decide when].
  2:{ exists d. rewrite bool_decide_false by (intros [? [=]]). cbn. auto. }
  rewrite bool_decide_true by eauto. cbn [when].
  unfold BatchGenerator.vary_factor.
  rewrite (Run.bind_ok _ _ _ _ _ (dict_getitem_at w l d s _ _ Eold)).
  unfold random_uniform, random_random, draw_factor.
  rewrite Run.bind_assoc, Run.bind_run. cbn [py_random at_ set_py_random].
  destruct (rng_random s) as [x s'] eqn:Ex.
  change (set_py_random s' _) with (at_ w l d s'). cbn [fst snd].
  rewrite Run.ret_bind, Run.lift_bind.
  destruct (Py.py_mul old _) as [v|e]; cbn [Py.rbind];
    [|exists d; split; reflexivity].
  rewrite (Run.bind_ok _ _ _ _ _ (dict_setitem_at w l d s' _ v)).
  rewrite (Run.bind_ok _ _ _ _ _ (dict_getitem_at w l _ s' key v
             (lookup_insert_eq _ _ _))).
  rewrite Run.lift_bind. fold (clamp_factor v).
  destruct (clamp_factor v) as [v'|e]; cbn [Py.rbind];
    [|eexists; split; reflexivity].
  rewrite dict_setitem_at, insert_insert_eq. eexists. split; [reflexivity|auto].
Qed.

Lemma realises_finish l : realises (mret l) finish l.
Proof. intros w d s. exists d. cbn. auto. Qed.

Lemma realises_block {A} (m0 : M A) (f : A → M unit) b (rest : M loc) p l :
  follows (c ← m0; f c) b l → realises rest p l →
  realises (c ← m0; f c;; rest) (and_then b p) l.
Proof.
  intros Hm Hrest w d s.
  assert (Hassoc : (c ← m0; f c;; rest) (at_ w l d s)
                   = ((c ← m0; f c);; rest) (at_ w l d s))
    by (symmetry; apply Run.bind_assoc).
  rewrite Hassoc, Run.bind_run. unfold and_then.
  destruct (Hm w d s) as (dx & Hw & Hr).
  destruct ((c ← m0; f c) (at_ w l d s)) as [w1 r]. cbn [fst snd] in *.
  destruct (b d s) as [s' [d'|e]]; cbn [fst snd] in *.
  - destruct Hr as [-> ->]. rewrite Hw. apply Hrest.
  - rewrite Hr. exists dx. cbn. auto.
Qed.

(** The run of [_vary_preset_params]: its result is the one of [jitter], in
    a world that differs from the initial one in the new dictionary and in
    the generator state only. *)
Lemma vary_run base d seed w :
  dicts w !! base = Some d →
  let l := fresh (dom (dicts w)) in
  ∃ dx,
    (BatchGenerator._vary_preset_params base seed w).1
    = at_ w l dx (jitter d seed).1
    ∧ match (jitter d seed).2 with
      | Py.Ok d' =>
          (BatchGenerator._vary_preset_params base seed w).2 = Py.Ok l ∧ dx = d'
      | Py.Raise e =>
          (BatchGenerator._vary_preset_params base seed w).2 = Py.Raise e
      end.
Proof.
  intros Hbase l. unfold BatchGenerator._vary_preset_params.
  assert (Hseed : random_seed seed w = (set_py_random (rng_seed seed) w, Py.Ok tt))
    by reflexivity.
  rewrite (Run.bind_ok _ _ _ _ _ Hseed).
  assert (Hcopy : dict_copy base (set_py_random (rng_seed seed) w)
                  = (at_ w l d (rng_seed seed), Py.Ok l)).
  { unfold dict_copy.
    rewrite (Run.bind_ok _ _ _ _ d
               (Run.load_dict_ok base d (set_py_random (rng_seed seed) w) Hbase)).
    reflexivity. }
  rewrite (Run.bind_ok _ _ _ _ _ Hcopy).
  unfold jitter.
  apply realises_block; [apply vary_rotation_follows|].
  apply realises_block; [apply vary_factor_follows|].
  apply realises_block; [apply vary_factor_follows|].
  apply realises_block; [apply vary_factor_follows|].
  apply realises_block; [apply vary_factor_follows|].
  apply realises_finish.
Qed.

Lemma outcome_run base d seed w :
  dicts w !! base = Some d →
  outcome (BatchGenerator._vary_preset_params base seed w) = (jitter d seed).2.
Proof.
  intros Hbase. destruct (vary_run base d seed w Hbase) as (dx & Hw & Hr).
  unfold outcome. rewrite Hw. destruct ((jitter d seed).2) as [d'|e].
  - destruct Hr as [-> ->]. rewrite at_lookup. reflexivity.
  - rewrite Hr. reflexivity.
Qed.

(** The dictionary passed in keeps its contents. *)
Lemma vary_keeps_base base d seed w :
  dicts w !! base = Some d →
  dicts (BatchGenerator._vary_preset_params base seed w).1 !! base = Some d.
Proof.
  intros Hbase. destruct (vary_run base d seed w Hbase) as (dx & Hw & _).
  rewrite Hw. cbn. rewrite lookup_insert_ne; [exact Hbase|].
  intros Heq. pose proof (Run.new_dict_fresh w) as F. rewrite Heq in F. congruence.
Qed.

(** *** What a block does to the contents *)

Lemma block_rebinds key draw combine clamp d s s' d' :
  block key draw combine clamp d s = (s', Py.Ok d') →
  rebinds key draw combine clamp d d'.
Proof.
  unfold block, rebinds. destruct (d !! key) as [old|].
  - destruct (draw s) as [x s1] eqn:Ex. intros H. right.
    destruct (combine old x) as [v|] eqn:Ec; cbn [Py.rbind] in H; [|discriminate H].
    destruct (clamp v) as [v'|] eqn:Ecl; cbn [Py.rbind] in H; [|discriminate H].
    cbn in H. injection H as _ <-. exists old, s, v, v'. rewrite Ex. auto.
  - intros H. injection H as _ <-. left. auto.
Qed.

Lemma and_then_ok b rest d s s' d' :
  and_then b rest d s = (s', Py.Ok d') →
  ∃ s1 d1, b d s = (s1, Py.Ok d1) ∧ rest d1 s1 = (s', Py.Ok d').
Proof.
  unfold and_then. destruct (b d s) as [s1 [d1|e]]; [eauto|discriminate].
Qed.

Lemma rebinds_dom key draw combine clamp d d' :
  rebinds key draw combine clamp d d' → dom d' = dom d.
Proof.
  intros [[_ ->]|(old & s & v & v' & Hk & _ & _ & ->)]; [reflexivity|].
  apply dom_insert_lookup_L. eauto.
Qed.

Lemma rebinds_other key draw combine clamp d d' k :
  rebinds key draw combine clamp d d' → k ≠ key → d' !! k = d !! k.
Proof.
  intros [[_ ->]|(old & s & v & v' & _ & _ & _ & ->)] Hne; [reflexivity|].
  apply lookup_insert_ne. congruence.
Qed.

(** *** The clamps *)

Lemma ltb_leb (a b : float) : PrimFloat.ltb a b = true → PrimFloat.leb a b = true.
Proof.
  rewrite ltb_spec, leb_spec. unfold SFltb, SFleb.
  destruct (SFcompare _ _) as [[]|]; congruence.
Qed.

Lemma sum_is_number old k v :
  Py.py_add old (Py.VInt k) = Py.Ok v → (∃ n, v = Py.VInt n) ∨ (∃ f, v = Py.VFloat f).
Proof.
  unfold Py.py_add. destruct old as [n|b|f|s]; cbn.
  - intros [= <-]. eauto.
  - intros [= <-]. eauto.
  - destruct (Py.int_to_double k); cbn; [|discriminate]. intros [= <-]. eauto.
  - discriminate.
Qed.

Lemma product_is_float old u v :
  Py.py_mul old (Py.VFloat u) = Py.Ok v → ∃ f, v = Py.VFloat f.
Proof.
  unfold Py.py_mul. destruct old as [n|b|f|s]; cbn.
  - destruct (Py.int_to_double n); cbn; [|discriminate]. intros [= <-]. eauto.
  - destruct (Py.int_to_double _); cbn; [|discriminate]. intros [= <-]. eauto.
  - intros [= <-]. eauto.
  - discriminate.
Qed.

Lemma clamp_rotation_int n :
  ∃ m, clamp_rotation (Py.VInt n) = Py.Ok (Py.VInt m) ∧ -180 ≤ m ≤ 180.
Proof.
  unfold clamp_rotation, Py.py_min, Py.py_max, Py.py_gt, Py.py_lt. cbn.
  destruct (Z.ltb_spec n 180); cbn.
  - destruct (Z.ltb_spec (-180) n); eexists; split; try reflexivity; lia.
  - eexists; split; [reflexivity|lia].
Qed.

Lemma clamp_rotation_float f :
  ∃ v, clamp_rotation (Py.VFloat f) = Py.Ok v ∧ within_rotation v.
Proof.
  unfold clamp_rotation, Py.py_min, Py.py_max, Py.py_gt, Py.py_lt. cbn.
  destruct (Py.Z_compare_float 180 f) as [[]|] eqn:E1; cbn;
    try (eexists; split; [reflexivity|cbn; lia]).
  destruct (Py.Z_compare_float (-180) f) as [[]|] eqn:E2; cbn;
    try (eexists; split; [reflexivity|cbn; lia]).
  eexists. split; [reflexivity|]. cbn. auto.
Qed.

Lemma clamp_factor_float g :
  ∃ f, clamp_factor (Py.VFloat g) = Py.Ok (Py.VFloat f) ∧ within_factor f.
Proof.
  unfold clamp_factor, Py.py_min, Py.py_max, Py.py_gt, Py.py_lt. cbn.
  destruct (PrimFloat.ltb g 3.0) eqn:E1; cbn.
  - destruct (PrimFloat.ltb 0.1 g) eqn:E2; cbn.
    + exists g. split; [reflexivity|]. split; apply ltb_leb; assumption.
    + eexists. split; [reflexivity|]. split; reflexivity.
  - eexists. split; [reflexivity|]. split; reflexivity.
Qed.

Lemma rebinds_rotation d d' v :
  rebinds "rotation" draw_rotation Py.py_add clamp_rotation d d' →
  d' !! "rotation" = Some v → within_rotation v.
Proof.
  intros [[Hn ->]|(old & s & x & v' & Hk & Hc & Hcl & ->)]; [congruence|].
  rewrite lookup_insert_eq. intros [= <-].
  unfold draw_rotation in Hc. destruct (rng_randbelow _ s) as [k s1]. cbn in Hc.
  destruct (sum_is_number _ _ _ Hc) as [[n ->]|[f ->]].
  - destruct (clamp_rotation_int n) as (m & Hm & Hr). rewrite Hm in Hcl.
    injection Hcl as <-. exact Hr.
  - destruct (clamp_rotation_float f) as (m & Hm & Hr). rewrite Hm in Hcl.
    injection Hcl as <-. exact Hr.
Qed.

Lemma rebinds_factor key lo hi d d' v :
  rebinds key (draw_factor lo hi) Py.py_mul clamp_factor d d' →
  d' !! key = Some v → ∃ f, v = Py.VFloat f ∧ within_factor f.
Proof.
  intros [[Hn ->]|(old & s & x & v' & Hk & Hc & Hcl & ->)]; [congruence|].
  rewrite lookup_insert_eq. intros [= <-].
  unfold draw_factor in Hc. destruct (rng_random s) as [u s1]. cbn in Hc.
  destruct (product_is_float _ _ _ Hc) as [g ->].
  destruct (clamp_factor_float g) as (f & Hf & Hr). rewrite Hf in Hcl.
  injection Hcl as <-. eauto.
Qed.

Lemma block_rotation_ok d s :
  (∀ v, d !! "rotation" = Some v → ∃ n, v = Py.VInt n) →
  ∃ s' d', block "rotation" draw_rotation Py.py_add clamp_rotation d s = (s', Py.Ok d').
Proof.
  intros Ht. unfold block. destruct (d !! "rotation") as [old|]; [|eauto].
  destruct (Ht old eq_refl) as [n ->]. unfold draw_rotation.
  destruct (rng_randbelow _ s) as [k s1]. cbn [Py.py_add Py.as_num Py.num_arith Py.rbind].
  destruct (clamp_rotation_int (n + (-10 + k))) as (m & -> & _). cbn. eauto.
Qed.

Lemma block_factor_ok key lo hi d s :
  (∀ v, d !! key = Some v → ∃ f, v = Py.VFloat f) →
  ∃ s' d', block key (draw_factor lo hi) Py.py_mul clamp_factor d s = (s', Py.Ok d').
Proof.
  intros Ht. unfold block. destruct (d !! key) as [old|]; [|eauto].
  destruct (Ht old eq_refl) as [g ->]. unfold draw_factor.
  destruct (rng_random s) as [u s1].
  cbn [Py.py_mul Py.as_num Py.num_arith Py.num_to_double Py.rbind].
  destruct (clamp_factor_float (g * (lo + (hi - lo) * u))%float) as (f & -> & _).
  cbn. eauto.
Qed.

Lemma jitter_properties d seed s d' :
  jitter d seed = (s, Py.Ok d') →
  dom d' = dom d
  ∧ (∀ k, k ∉ jittered_keys → d' !! k = d !! k)
  ∧ (∀ v, d' !! "rotation" = Some v → within_rotation v)
  ∧ (∀ key v, key ∈ factor_keys → d' !! key = Some v →
       ∃ f, v = Py.VFloat f ∧ within_factor f).
Proof.
  unfold jitter. intros H.
  apply and_then_ok in H as (s1 & d1 & H1 & H).
  apply and_then_ok in H as (s2 & d2 & H2 & H).
  apply and_then_ok in H as (s3 & d3 & H3 & H).
  apply and_then_ok in H as (s4 & d4 & H4 & H).
  apply and_then_ok in H as (s5 & d5 & H5 & H).
  unfold finish in H. injection H as _ ->.
  apply block_rebinds in H1, H2, H3, H4, H5.
  split; [|split; [|split]].
  - rewrite (rebinds_dom _ _ _ _ _ _ H5), (rebinds_dom _ _ _ _ _ _ H4),
      (rebinds_dom _ _ _ _ _ _ H3), (rebinds_dom _ _ _ _ _ _ H2).
    apply (rebinds_dom _ _ _ _ _ _ H1).
  - intros k Hk. unfold jittered_keys, factor_keys in Hk.
    rewrite !not_elem_of_cons in Hk. destruct Hk as (? & ? & ? & ? & ? & _).
    rewrite (rebinds_other _ _ _ _ _ _ k H5), (rebinds_other _ _ _ _ _ _ k H4),
      (rebinds_other _ _ _ _ _ _ k H3), (rebinds_other _ _ _ _ _ _ k H2)
      by assumption.
    apply (rebinds_other _ _ _ _ _ _ k H1). assumption.
  - intros v.
    rewrite (rebinds_other _ _ _ _ _ _ "rotation" H5), (rebinds_other _ _ _ _ _ _ "rotation" H4),
      (rebinds_other _ _ _ _ _ _ "rotation" H3), (rebinds_other _ _ _ _ _ _ "rotation" H2)
      by discriminate.
    apply (rebinds_rotation _ _ _ H1).
  - intros key v Hkey. unfold factor_keys in Hkey.
    rewrite !elem_of_cons in Hkey.
    destruct Hkey as [->|[->|[->|[->|Hkey]]]]; [| | | |inversion Hkey].
    + rewrite (rebinds_other _ _ _ _ _ _ "brightness" H5),
        (rebinds_other _ _ _ _ _ _ "brightness" H4),
        (rebinds_other _ _ _ _ _ _ "brightness" H3) by discriminate.
      apply (rebinds_factor _ _ _ _ _ _ H2).
    + rewrite (rebinds_other _ _ _ _ _ _ "contrast" H5),
        (rebinds_other _ _ _ _ _ _ "contrast" H4) by discriminate.
      apply (rebinds_factor _ _ _ _ _ _ H3).
    + rewrite (rebinds_other _ _ _ _ _ _ "saturation" H5) by discriminate.
      apply (rebinds_factor _ _ _ _ _ _ H4).
    + apply (rebinds_factor _ _ _ _ _ _ H5).
Qed.

Lemma jitter_total d seed :
  typed d → ∃ s d', jitter d seed = (s, Py.Ok d').
Proof.
  intros [Hrot Hfac]. unfold jitter, and_then.
  assert (Hf : ∀ key, key ∈ factor_keys → ∀ d0 : dict,
            d0 !! key = d !! key → ∀ v, d0 !! key = Some v → ∃ f, v = Py.VFloat f).
  { intros key Hkey d0 -> v. apply Hfac, Hkey. }
  destruct (block_rotation_ok d (rng_seed seed) Hrot) as (s1 & d1 & E1).
  rewrite E1. apply block_rebinds in E1.
  destruct (block_factor_ok "brightness" 0.9 1.1 d1 s1) as (s2 & d2 & E2).
  { apply Hf; [set_solver|]. apply (rebinds_other _ _ _ _ _ _ _ E1). discriminate. }
  rewrite E2. apply block_rebinds in E2.
  destruct (block_factor_ok "contrast" 0.95 1.05 d2 s2) as (s3 & d3 & E3).
  { apply Hf; [set_solver|].
    rewrite (rebinds_other _ _ _ _ _ _ _ E2) by discriminate.
    apply (rebinds_other _ _ _ _ _ _ _ E1). discriminate. }
  rewrite E3. apply block_rebinds in E3.
  destruct (block_factor_ok "saturation" 0.9 1.1 d3 s3) as (s4 & d4 & E4).
  { apply Hf; [set_solver|].
    rewrite (rebinds_other _ _ _ _ _ _ _ E3), (rebinds_other _ _ _ _ _ _ _ E2)
      by discriminate.
    apply (rebinds_other _ _ _ _ _ _ _ E1). discriminate. }
  rewrite E4. apply block_rebinds in E4.
  destruct (block_factor_ok "sharpness" 0.95 1.05 d4 s4) as (s5 & d5 & E5).
  { apply Hf; [set_solver|].
    rewrite (rebinds_other _ _ _ _ _ _ _ E4), (rebinds_other _ _ _ _ _ _ _ E3),
      (rebinds_other _ _ _ _ _ _ _ E2) by discriminate.
    apply (rebinds_other _ _ _ _ _ _ _ E1). discriminate. }
  rewrite E5. unfold finish. eauto.
Qed.

(** C7: the result of [_vary_preset_params] is a function of the contents
    of the base dictionary and of the seed, so two calls with the same base
    and seed, from any worlds and in particular one after the other, leave
    equal dictionaries (or raise the same exception); the base dictionary is
    not modified.  A returned dictionary has exactly the keys of the base,
    agrees with it outside rotation, brightness, contrast, saturation and
    sharpness, holds a rotation within [-180, 180] and factors within
    [0.1, 3.0]; and on a base typed as the data model says (integer
    rotation, float factors) a dictionary is returned. *)
Theorem C7_vary_preset_is_reproducible base d seed w :
  dicts w !! base = Some d →
  (∀ base' w', dicts w' !! base' = Some d →
     outcome (BatchGenerator._vary_preset_params base' seed w')
     = outcome (BatchGenerator._vary_preset_params base seed w))
  ∧ dicts (BatchGenerator._vary_preset_params base seed w).1 !! base = Some d
  ∧ outcome (BatchGenerator._vary_preset_params base seed
               (BatchGenerator._vary_preset_params base seed w).1)
    = outcome (BatchGenerator._vary_preset_params base seed w)
  ∧ (∀ d', outcome (BatchGenerator._vary_preset_params base seed w) = Py.Ok d' →
       dom d' = dom d
       ∧ (∀ k, k ∉ jittered_keys → d' !! k = d !! k)
       ∧ (∀ v, d' !! "rotation" = Some v → within_rotation v)
       ∧ (∀ key v, key ∈ factor_keys → d' !! key = Some v →
            ∃ f, v = Py.VFloat f ∧ within_factor f))
  ∧ (typed d →
     ∃ d', outcome (BatchGenerator._vary_preset_params base seed w) = Py.Ok d').
Proof.
  intros Hbase.
  pose proof (vary_keeps_base base d seed w Hbase) as Hkeep.
  split; [|split; [exact Hkeep|split; [|split]]].
  - intros base' w' Hbase'. rewrite !outcome_run with (d := d) by assumption.
    reflexivity.
  - rewrite !outcome_run with (d := d) by assumption. reflexivity.
  - intros d'. rewrite (outcome_run base d seed w Hbase).
    destruct (jitter d seed) as [s r] eqn:Ej. cbn. intros ->.
    apply (jitter_properties d seed s d' Ej).
  - intros Ht. rewrite (outcome_run base d seed w Hbase).
    destruct (jitter_total d seed Ht) as (s & d' & ->). eauto.
Qed.

End jitter.
End JitterFacts.

(** C7 with seed 5, twice in a row, on the ML-training preset of the
    example world. *)
Lemma C7_vary_preset_witness :
  dicts Example.world0 !! 1%positive = Some Settings.ml_training
  ∧ Jitter.outcome
      (BatchGenerator._vary_preset_params (RT := Example.runtime) 1%positive 5
         (BatchGenerator._vary_preset_params 1%positive 5 Example.world0).1)
    = Jitter.outcome
        (BatchGenerator._vary_preset_params 1%positive 5 Example.world0).
Proof.
  split; [reflexivity|].
  exact (proj1 (proj2 (proj2 (JitterFacts.C7_vary_preset_is_reproducible
                                (RT := Example.runtime) 1%positive
                                Settings.ml_training 5 Example.world0 eq_refl)))).
Defined.

(** ** The batch loop *)

Module BatchFacts.
Section batch.
Context `{RT : Runtime}.
Import Batch.

Lemma attempt_all_indices item on_failure indices w :
  (attempt_all item on_failure indices w).2.*1 = indices.
Proof.
  revert w. induction indices as [|i rest IH]; intros w; [reflexivity|].
  cbn [attempt_all]. destruct (item i w) as [w1 r].
  set (w2 := match r with Py.Ok _ => w1 | Py.Raise e => _ end).
  specialize (IH w2). destruct (attempt_all item on_failure rest w2) as [w' outs].
  cbn in *. f_equal. exact IH.
Qed.

Lemma tally_length (base_name : string) outs :
  Z.of_nat (length (succeeded outs)) + Z.of_nat (length (failures base_name outs))
  = Z.of_nat (length outs).
Proof.
  induction outs as [|[i [u|e]] outs IH]; [reflexivity|..];
    cbn [succeeded failures List.filter omap list_omap Py.is_ok snd length] in *;
    unfold succeeded, failures in IH; lia.
Qed.

Lemma turn_ok item base_name st i w w1 u :
  item i w = (w1, Py.Ok u) →
  turn item base_name st i w
  = (w1, Py.Ok (BatchGenerator.mkCounters (BatchGenerator.generated_count st + 1)
                  (BatchGenerator.failed_count st) (BatchGenerator.failed_list st))).
Proof.
  intros E. unfold turn, try_except. rewrite (Run.bind_ok _ _ _ _ _ E). reflexivity.
Qed.

Lemma turn_failed item base_name st i w w1 e :
  item i w = (w1, Py.Raise e) →
  turn item base_name st i w
  = ((report base_name i e w1).1,
     Py.Ok (BatchGenerator.mkCounters (BatchGenerator.generated_count st)
              (BatchGenerator.failed_count st + 1)
              (BatchGenerator.failed_list st
                 ++ [(BatchGenerator.item_filename base_name i, Py.exn_str e)]))).
Proof.
  intros E. unfold turn, try_except. rewrite (Run.bind_raise _ _ _ _ _ E). reflexivity.
Qed.

(** The loop attempts every index and tallies the outcomes. *)
Lemma loop_run (item : Z → M unit) base_name indices st w :
  for_each (turn item base_name) indices st w
  = let '(w', outs) := attempt_all item (report base_name) indices w in
    (w', Py.Ok (BatchGenerator.mkCounters
                  (BatchGenerator.generated_count st + Z.of_nat (length (succeeded outs)))
                  (BatchGenerator.failed_count st
                   + Z.of_nat (length (failures base_name outs)))
                  (BatchGenerator.failed_list st ++ failures base_name outs))).
Proof.
  revert st w. induction indices as [|i rest IH]; intros st w.
  - cbn. rewrite !Z.add_0_r, app_nil_r. destruct st; reflexivity.
  - cbn [for_each attempt_all]. destruct (item i w) as [w1 [u|e]] eqn:E.
    + rewrite (Run.bind_ok _ _ _ _ _ (turn_ok item base_name st i w w1 u E)), IH.
      cbn [BatchGenerator.generated_count BatchGenerator.failed_count
           BatchGenerator.failed_list].
      destruct (attempt_all item (report base_name) rest w1) as [w' outs].
      cbn [succeeded failures List.filter omap list_omap Py.is_ok snd length].
      fold (succeeded outs). f_equal. f_equal. f_equal. lia.
    + rewrite (Run.bind_ok _ _ _ _ _ (turn_failed item base_name st i w w1 e E)), IH.
      cbn [BatchGenerator.generated_count BatchGenerator.failed_count
           BatchGenerator.failed_list].
      destruct (attempt_all item (report base_name) rest _) as [w' outs].
      cbn [succeeded failures List.filter omap list_omap Py.is_ok snd fst length].
      fold (failures base_name outs). fold (succeeded outs).
      rewrite <- app_assoc. cbn [app]. f_equal. f_equal. f_equal. lia.
Qed.

Lemma length_range count : 0 ≤ count → Z.of_nat (length (Py.range count)) = count.
Proof. intros H. unfold Py.range. rewrite length_fmap, length_seq. lia. Qed.

Lemma attempt_all_length item on_failure indices w :
  length (attempt_all item on_failure indices w).2 = length indices.
Proof.
  rewrite <- (attempt_all_indices item on_failure indices w) at 2.
  rewrite length_fmap. reflexivity.
Qed.

(** C3: once the output folder exists, [generate_batch] with a count of
    at least 0 returns, after attempting every index 0 .. count-1 in order
    whatever the outcome of the earlier items, a result with requested =
    count, generated + failed = count, generated the number of items that
    succeeded, and failed_files holding one (file name, message) pair for
    each failed item, in item order. *)
Theorem C3_batch_completes original_image count output_folder base_name cb w w0 :
  0 ≤ count →
  mkdir output_folder w = (w0, Py.Ok tt) →
  let item := BatchGenerator.generate_item original_image count output_folder
                base_name cb in
  let run := attempt_all item (report base_name) (Py.range count) w0 in
  ∃ r,
    BatchGenerator.generate_batch original_image count output_folder base_name cb w
    = (run.1, Py.Ok r)
    ∧ run.2.*1 = Py.range count
    ∧ BatchGenerator.requested r = count
    ∧ BatchGenerator.generated r + BatchGenerator.failed r = count
    ∧ BatchGenerator.generated r = Z.of_nat (length (succeeded run.2))
    ∧ BatchGenerator.failed r = Z.of_nat (length (BatchGenerator.failed_files r))
    ∧ BatchGenerator.failed_files r = failures base_name run.2.
Proof.
  intros Hcount Hmk item run.
  unfold BatchGenerator.generate_batch.
  rewrite (Run.bind_ok _ _ _ _ _ Hmk).
  change (for_each _ (Py.range count) (BatchGenerator.mkCounters 0 0 []))
    with (for_each (turn item base_name) (Py.range count)
            (BatchGenerator.mkCounters 0 0 [])).
  rewrite Run.bind_run, loop_run. fold run.
  pose proof (attempt_all_indices item (report base_name) (Py.range count) w0) as Hidx.
  pose proof (attempt_all_length item (report base_name) (Py.range count) w0) as Hlen.
  fold run in Hidx, Hlen. destruct run as [w' outs]. cbn [fst snd] in *.
  eexists. split; [reflexivity|].
  cbn [BatchGenerator.requested BatchGenerator.generated BatchGenerator.failed
       BatchGenerator.failed_files BatchGenerator.generated_count
       BatchGenerator.failed_count BatchGenerator.failed_list app].
  pose proof (tally_length base_name outs) as Htally.
  pose proof (length_range count Hcount) as Hrange.
  repeat split; try reflexivity; try assumption; lia.
Qed.

End batch.
End BatchFacts.

(** C3 on a batch of three items whose second item fails in the progress
    callback. *)
Lemma C3_batch_witness :
  0 ≤ 3
  ∧ mkdir (RT := Example.runtime) "out" Example.world0 = (Example.world0, Py.Ok tt)
  ∧ ∃ w' r,
      BatchGenerator.generate_batch 1%positive 3 "out" "x" Example.failing_callback
        Example.world0
      = (w', Py.Ok r)
      ∧ BatchGenerator.requested r = 3
      ∧ BatchGenerator.generated r + BatchGenerator.failed r = 3.
Proof.
  assert (Hmk : mkdir (RT := Example.runtime) "out" Example.world0
                = (Example.world0, Py.Ok tt)) by reflexivity.
  split; [lia|]. split; [exact Hmk|].
  destruct (BatchFacts.C3_batch_completes (RT := Example.runtime) 1%positive 3 "out" "x"
              Example.failing_callback Example.world0 Example.world0 ltac:(lia) Hmk)
    as (r & Hrun & _ & Hreq & Hsum & _).
  eexists _, r. split; [exact Hrun|]. split; assumption.
Defined.

(** The batch of the witness, evaluated: items 1 and 3 are written, item 2
    is recorded as failed. *)
Lemma batch_example_result :
  (BatchGenerator.generate_batch (RT := Example.runtime) 1%positive 3 "out" "x"
     Example.failing_callback Example.world0).2
  = Py.Ok (BatchGenerator.mkResult 3 2 1 [("x_0002.png", "disk full")]%string).
Proof. vm_compute. reflexivity. Qed.

(** ** Checks on an uploaded file *)

Module UploadFacts.
Section upload.
Context `{RT : Runtime}.

Lemma lower_ascii_idempotent c :
  Py.lower_ascii (Py.lower_ascii c) = Py.lower_ascii c.
Proof. destruct c as [[] [] [] [] [] [] [] []]; reflexivity. Qed.

Lemma lower_idempotent s : Py.lower (Py.lower s) = Py.lower s.
Proof.
  induction s as [|c s IH]; [reflexivity|].
  cbn [Py.lower]. rewrite lower_ascii_idempotent, IH. reflexivity.
Qed.

Lemma lower_empty s : Py.lower s = EmptyString ↔ s = EmptyString.
Proof. destruct s; cbn [Py.lower]; split; intros H; congruence. Qed.

Lemma eqb_empty_lower s :
  String.eqb (Py.lower s) EmptyString = String.eqb s EmptyString.
Proof. destruct s; reflexivity. Qed.

(** X1: the format check ignores the case of the file name: two names
    with the same lower-case form get the same verdict, so a name and its
    lower-case form do; and the empty name is rejected whatever the list of
    formats. *)
Theorem X1_format_check_ignores_case (formats : list string) :
  Helpers.validate_file_format EmptyString formats = false
  ∧ (∀ a b, Py.lower a = Py.lower b →
       Helpers.validate_file_format a formats
       = Helpers.validate_file_format b formats)
  ∧ (∀ a, Helpers.validate_file_format (Py.lower a) formats
          = Helpers.validate_file_format a formats).
Proof.
  assert (H : ∀ a b, Py.lower a = Py.lower b →
                Helpers.validate_file_format a formats
                = Helpers.validate_file_format b formats).
  { intros a b E. unfold Helpers.validate_file_format.
    rewrite <- (eqb_empty_lower a), <- (eqb_empty_lower b), E. reflexivity. }
  split; [reflexivity|]. split; [exact H|].
  intros a. apply H, lower_idempotent.
Qed.

(** X2: the failures of [load_and_validate_image].  A name without a
    supported extension is refused first, a file above 10 MB next, both
    without touching the store; a file that does not decode is refused with
    the decoder's message; every exception the method raises is a
    ValueError; and it returns only for a file that passes both checks and
    decodes. *)
Theorem X2_load_failures f w :
  let accepted_name :=
    Helpers.validate_file_format (Helpers.file_name f) Settings.SUPPORTED_FORMATS in
  let accepted_size := Helpers.validate_file_size f Settings.MAX_FILE_SIZE in
  let run := ImageProcessor.load_and_validate_image f w in
  (accepted_name = false →
     run = (w, Py.Raise (Py.Exn Py.ValueError
       "Unsupported file format. Supported: ['jpg', 'jpeg', 'png', 'bmp', 'tiff']")))
  ∧ (accepted_name = true → accepted_size = false →
     run = (w, Py.Raise (Py.Exn Py.ValueError "File too large. Maximum size: 10MB")))
  ∧ (accepted_name = true → accepted_size = true →
     ∀ e, pil_open (Helpers.file_bytes f) = Py.Raise e →
       run = (w, Py.Raise (Py.Exn Py.ValueError
                ("Invalid image file: " ++ Py.exn_str e))))
  ∧ (∀ e, run.2 = Py.Raise e → Py.exn_cls e = Py.ValueError)
  ∧ (∀ l, run.2 = Py.Ok l →
       accepted_name = true ∧ accepted_size = true
       ∧ ∃ im, pil_open (Helpers.file_bytes f) = Py.Ok im).
Proof.
  cbv zeta. unfold ImageProcessor.load_and_validate_image.
  destruct (Helpers.validate_file_format _ _) eqn:En; cbn [negb];
    [destruct (Helpers.validate_file_size _ _) eqn:Es; cbn [negb]|].
  - unfold try_except. rewrite Run.lift_bind.
    destruct (pil_open (Helpers.file_bytes f)) as [im|e0] eqn:Eo.
    + match goal with |- context [(?m ≫= ?k) w] =>
        destruct ((m ≫= k) w) as [w1 [l|e1]] end; cbn.
      * split; [discriminate|]. split; [discriminate|].
        split; [intros _ _ e; discriminate|].
        split; [discriminate|]. eauto.
      * split; [discriminate|]. split; [discriminate|].
        split; [intros _ _ e; discriminate|].
        split; [|discriminate]. intros e He. injection He as <-. reflexivity.
    + cbn. split; [discriminate|]. split; [discriminate|].
      split; [intros _ _ e He; injection He as <-; reflexivity|].
      split; [|discriminate]. intros e He. injection He as <-. reflexivity.
  - cbn. split; [discriminate|]. split; [reflexivity|].
    split; [discriminate|].
    split; [|discriminate]. intros e He. injection He as <-. reflexivity.
  - cbn. split; [reflexivity|]. split; [discriminate|].
    split; [discriminate|].
    split; [|discriminate]. intros e He. injection He as <-. reflexivity.
Qed.

(** X3: a file that passes both checks and decodes to an image within
    the limit of 2000 pixels in each dimension is returned as decoded: the
    result is a new object holding the decoded image, and nothing else
    changes. *)
Theorem X3_load_within_limit f im w :
  Helpers.validate_file_format (Helpers.file_name f) Settings.SUPPORTED_FORMATS = true →
  Helpers.validate_file_size f Settings.MAX_FILE_SIZE = true →
  pil_open (Helpers.file_bytes f) = Py.Ok im →
  Z.of_nat (Pil.width im) ≤ Settings.MAX_IMAGE_SIZE →
  Z.of_nat (Pil.height im) ≤ Settings.MAX_IMAGE_SIZE →
  ∃ l,
    ImageProcessor.load_and_validate_image f w
    = (set_images <[l := im]> w, Py.Ok l)
    ∧ images w !! l = None.
Proof.
  intros Hf Hs Ho Hw Hh. exists (fresh (dom (images w))).
  split; [|apply Run.new_image_fresh].
  rewrite (Resize.load_and_validate_decoded f im w Hf Hs Ho). unfold try_except.
  rewrite (Resize.resize_if_needed_within _ im); [reflexivity| |exact Hw|exact Hh].
  apply lookup_insert_eq.
Qed.

(** X4: [resize_if_needed] returns the object it was given, and changes
    nothing, when neither dimension exceeds the limit; otherwise what it
    returns is a new object and the only change to the store; in both cases
    the object passed in keeps its contents. *)
Theorem X4_resize_if_needed_cases image im max_size w :
  images w !! image = Some im →
  (Z.of_nat (Pil.width im) ≤ max_size ∧ Z.of_nat (Pil.height im) ≤ max_size →
     Helpers.resize_if_needed image max_size w = (w, Py.Ok image))
  ∧ (max_size < Z.of_nat (Pil.width im) ∨ max_size < Z.of_nat (Pil.height im) →
     ∀ l, (Helpers.resize_if_needed image max_size w).2 = Py.Ok l →
       images w !! l = None
       ∧ ∃ out, (Helpers.resize_if_needed image max_size w).1
                = set_images <[l := out]> w)
  ∧ images (Helpers.resize_if_needed image max_size w).1 !! image = Some im.
Proof.
  intros E.
  assert (Hwithin : Z.of_nat (Pil.width im) ≤ max_size
                    ∧ Z.of_nat (Pil.height im) ≤ max_size →
                    Helpers.resize_if_needed image max_size w = (w, Py.Ok image)).
  { intros [Hw Hh]. apply (Resize.resize_if_needed_within image im); assumption. }
  assert (Hrun : (max_size <? Z.of_nat (Pil.width im))
                 || (max_size <? Z.of_nat (Pil.height im)) = true →
                 Helpers.resize_if_needed image max_size w
                 = match Py.rbind (Helpers.scaled_size (Z.of_nat (Pil.width im))
                                     (Z.of_nat (Pil.height im)) max_size)
                           (Helpers.resize_lanczos im) with
                   | Py.Ok out =>
                       (set_images <[fresh (dom (images w)) := out]> w,
                        Py.Ok (fresh (dom (images w))))
                   | Py.Raise e => (w, Py.Raise e)
                   end).
  { intros Hb. unfold Helpers.resize_if_needed.
    rewrite (Run.bind_ok _ _ _ _ _ (Resize.image_size_ok _ _ _ E)).
    unfold Pil.size. rewrite Hb. rewrite Run.lift_bind.
    destruct (Helpers.scaled_size _ _ _) as [sz|e]; [|reflexivity].
    rewrite (Run.bind_ok _ _ _ _ _ (Run.load_image_ok _ _ _ E)).
    rewrite Run.lift_bind. cbn [Py.rbind].
    destruct (Helpers.resize_lanczos im sz) as [out|e]; reflexivity. }
  split; [exact Hwithin|]. split.
  - intros Hbeyond l.
    rewrite Hrun by (apply orb_true_iff; rewrite !Z.ltb_lt; exact Hbeyond).
    destruct (Py.rbind _ _) as [out|e]; [|discriminate].
    cbn. intros [= <-]. split; [apply Run.new_image_fresh|]. eauto.
  - destruct ((max_size <? Z.of_nat (Pil.width im))
              || (max_size <? Z.of_nat (Pil.height im))) eqn:Hb.
    + rewrite (Hrun eq_refl). destruct (Py.rbind _ _) as [out|e]; [|exact E].
      cbn. rewrite lookup_insert_ne; [exact E|].
      intros Heq. pose proof (Run.new_image_fresh w) as F. rewrite Heq in F.
      congruence.
    + apply orb_false_iff in Hb. rewrite !Z.ltb_ge in Hb.
      rewrite (Hwithin Hb). exact E.
Qed.

End upload.
End UploadFacts.

(** X3 on a 6 by 4 image in a file whose name has an upper-case
    extension. *)
Lemma X3_load_within_limit_witness :
  let f := Helpers.mkFile "cat.PNG" [6; 4; 9] in
  let im := Pil.mkImage 6 4 (replicate 4 (replicate 6 (9, 9, 9))) in
  Helpers.validate_file_format (RT := Example.runtime) (Helpers.file_name f)
    Settings.SUPPORTED_FORMATS = true
  ∧ Helpers.validate_file_size f Settings.MAX_FILE_SIZE = true
  ∧ pil_open (Runtime := Example.runtime) (Helpers.file_bytes f) = Py.Ok im
  ∧ Z.of_nat (Pil.width im) ≤ Settings.MAX_IMAGE_SIZE
  ∧ Z.of_nat (Pil.height im) ≤ Settings.MAX_IMAGE_SIZE
  ∧ ∃ l,
      ImageProcessor.load_and_validate_image (RT := Example.runtime) f Example.world0
      = (set_images <[l := im]> Example.world0, Py.Ok l)
      ∧ images Example.world0 !! l = None.
Proof.
  intros f im.
  assert (Hf : Helpers.validate_file_format (RT := Example.runtime)
                 (Helpers.file_name f) Settings.SUPPORTED_FORMATS = true)
    by (vm_compute; reflexivity).
  assert (Hs : Helpers.validate_file_size f Settings.MAX_FILE_SIZE = true)
    by (vm_compute; reflexivity).
  assert (Ho : pil_open (Runtime := Example.runtime) (Helpers.file_bytes f) = Py.Ok im)
    by reflexivity.
  assert (Hw : Z.of_nat (Pil.width im) ≤ Settings.MAX_IMAGE_SIZE)
    by (vm_compute; discriminate).
  assert (Hh : Z.of_nat (Pil.height im) ≤ Settings.MAX_IMAGE_SIZE)
    by (vm_compute; discriminate).
  repeat (split; [assumption|]).
  exact (UploadFacts.X3_load_within_limit (RT := Example.runtime) f im
           Example.world0 Hf Hs Ho Hw Hh).
Defined.

(** X4 on the test image, which is within a limit of 2000. *)
Lemma X4_resize_if_needed_witness :
  images Example.world0 !! 1%positive = Some (Example.gradient 6 4)
  ∧ Helpers.resize_if_needed (RT := Example.runtime) 1%positive 2000 Example.world0
    = (Example.world0, Py.Ok 1%positive).
Proof.
  split; [reflexivity|].
  apply (proj1 (UploadFacts.X4_resize_if_needed_cases (RT := Example.runtime)
                  1%positive (Example.gradient 6 4) 2000 Example.world0 eq_refl)).
  split; vm_compute; discriminate.
Defined.

(** ** Conversions and geometric operations *)

Module GeometryFacts.
Section geometry.
Context `{RT : Runtime}.

Lemma swap_rb_involutive p : Helpers.swap_rb (Helpers.swap_rb p) = p.
Proof. destruct p as [[a b] c]. reflexivity. Qed.

Lemma swap_rows_involutive (a : ndarray) :
  map (map Helpers.swap_rb) (map (map Helpers.swap_rb) a) = a.
Proof.
  rewrite map_map. rewrite <- (map_id a) at 2. apply map_ext. intros r.
  rewrite map_map. rewrite <- (map_id r) at 2. apply map_ext.
  intros p. apply swap_rb_involutive.
Qed.

(** The array of a well-formed image with pixels has its shape. *)
Lemma shape2_rows im :
  Pil.well_formed im → Pil.nonempty im →
  Helpers.shape2 (map (map Helpers.swap_rb) (Pil.rows im))
  = (Z.of_nat (Pil.height im), Z.of_nat (Pil.width im)).
Proof.
  intros [Hlen Hrows] [Hw Hh]. unfold Helpers.shape2.
  rewrite length_map, Hlen.
  destruct (Pil.rows im) as [|r rs]; [cbn in Hlen; lia|].
  apply Forall_inv in Hrows. cbn. rewrite length_map, Hrows.
  reflexivity.
Qed.

(** X5: on a well-formed image with pixels, [pil_to_cv2] returns the rows
    with the first and third channel of every pixel exchanged and leaves
    the store alone, and [cv2_to_pil] on that array creates an image object
    with the contents of the original: the two conversions are inverse to
    each other. *)
Theorem X5_cv2_round_trip image im w :
  images w !! image = Some im → Pil.well_formed im → Pil.nonempty im →
  ∃ l,
    Helpers.pil_to_cv2 image w
    = (w, Py.Ok (map (map Helpers.swap_rb) (Pil.rows im)))
    ∧ (Helpers.pil_to_cv2 image ≫= Helpers.cv2_to_pil) w
      = (set_images <[l := im]> w, Py.Ok l)
    ∧ images w !! l = None.
Proof.
  intros E Hwf Hne. exists (fresh (dom (images w))).
  pose proof (EngineFailures.pil_to_cv2_ok image im w E Hwf Hne) as Hto.
  split; [exact Hto|]. split; [|apply Run.new_image_fresh].
  rewrite (Run.bind_ok _ _ _ _ _ Hto). unfold Helpers.cv2_to_pil.
  rewrite Run.lift_bind. unfold Helpers.cv2_cvtColor_swap.
  rewrite (shape2_rows im Hwf Hne). cbn [fst snd].
  destruct Hne as [Hw Hh].
  assert (E1 : (Z.of_nat (Pil.height im) =? 0) = false) by (apply Z.eqb_neq; lia).
  assert (E2 : (Z.of_nat (Pil.width im) =? 0) = false) by (apply Z.eqb_neq; lia).
  rewrite E1, E2. cbn [orb]. rewrite swap_rows_involutive.
  unfold Helpers.fromarray, Helpers.shape2.
  destruct Hwf as [Hlen Hrows]. rewrite Hlen.
  assert (Hhead : length (default [] (head (Pil.rows im))) = Pil.width im).
  { destruct (Pil.rows im) as [|r rs]; [cbn in Hlen; lia|].
    apply Forall_inv in Hrows. exact Hrows. }
  rewrite Hhead. cbn [fst snd]. rewrite !Nat2Z.id.
  destruct im as [wd ht rs]. reflexivity.
Qed.

Lemma mjoin_reverse {A} (ls : list (list A)) :
  mjoin (reverse (reverse <$> ls)) = reverse (mjoin ls).
Proof.
  induction ls as [|l ls IH]; [reflexivity|].
  rewrite fmap_cons, reverse_cons. cbn [mjoin list_join].
  rewrite join_app, reverse_app, IH. cbn [mjoin list_join].
  rewrite app_nil_r. reflexivity.
Qed.

Lemma transpose_commute im :
  Pil.transpose (Pil.transpose im Pil.FLIP_LEFT_RIGHT) Pil.FLIP_TOP_BOTTOM
  = Pil.transpose (Pil.transpose im Pil.FLIP_TOP_BOTTOM) Pil.FLIP_LEFT_RIGHT.
Proof. unfold Pil.transpose. cbn. rewrite fmap_reverse. reflexivity. Qed.

(** Two mirrorings in a row, on the object level. *)
Lemma transpose_then image im m1 m2 w :
  images w !! image = Some im →
  ∃ w' l,
    (image_transpose image m1 ≫= λ r, image_transpose r m2) w = (w', Py.Ok l)
    ∧ images w' !! l = Some (Pil.transpose (Pil.transpose im m1) m2)
    ∧ images w' !! image = Some im.
Proof.
  intros E.
  destruct (Run.image_transpose_ok image m1 im w E) as (l1 & F1 & R1).
  set (w1 := set_images <[l1 := Pil.transpose im m1]> w) in *.
  assert (E1 : images w1 !! l1 = Some (Pil.transpose im m1))
    by apply lookup_insert_eq.
  destruct (Run.image_transpose_ok l1 m2 _ w1 E1) as (l2 & F2 & R2).
  eexists _, l2. rewrite (Run.bind_ok _ _ _ _ _ R1). split; [exact R2|].
  cbn [images set_images]. split; [apply lookup_insert_eq|].
  assert (N1 : l1 ≠ image) by congruence.
  assert (N2 : l2 ≠ image).
  { intros ->. subst w1. cbn [images set_images] in F2.
    rewrite lookup_insert_ne in F2 by exact N1. congruence. }
  rewrite lookup_insert_ne by assumption. subst w1. cbn [images set_images].
  rewrite lookup_insert_ne by assumption. exact E.
Qed.

(** X6: the two flips commute: mirroring left-right then top-bottom and
    mirroring top-bottom then left-right give images with equal contents.
    That image has the size of the original and its pixels in reverse order
    (the original turned by half a turn), and the original object keeps its
    contents. *)
Theorem X6_flips_commute image im w :
  images w !! image = Some im →
  ∃ w1 l1 w2 l2 out,
    (AugmentationEngine.flip_horizontal image
       ≫= AugmentationEngine.flip_vertical) w = (w1, Py.Ok l1)
    ∧ (AugmentationEngine.flip_vertical image
         ≫= AugmentationEngine.flip_horizontal) w = (w2, Py.Ok l2)
    ∧ images w1 !! l1 = Some out ∧ images w2 !! l2 = Some out
    ∧ images w1 !! image = Some im ∧ images w2 !! image = Some im
    ∧ Pil.size out = Pil.size im
    ∧ Pil.pixels out = reverse (Pil.pixels im).
Proof.
  intros E.
  destruct (transpose_then image im Pil.FLIP_LEFT_RIGHT Pil.FLIP_TOP_BOTTOM w E)
    as (w1 & l1 & R1 & O1 & I1).
  destruct (transpose_then image im Pil.FLIP_TOP_BOTTOM Pil.FLIP_LEFT_RIGHT w E)
    as (w2 & l2 & R2 & O2 & I2).
  exists w1, l1, w2, l2, (Pil.transpose (Pil.transpose im Pil.FLIP_LEFT_RIGHT)
                            Pil.FLIP_TOP_BOTTOM).
  split; [exact R1|]. split; [exact R2|]. split; [exact O1|].
  split; [rewrite transpose_commute; exact O2|].
  split; [exact I1|]. split; [exact I2|]. split; [reflexivity|].
  unfold Pil.pixels. cbn. apply mjoin_reverse.
Qed.

(** X7: with a block size of 1 [pixelate] changes nothing: both resizes
    ask for the size the image already has, so the result is a new object
    with the contents of the input, whatever the image. *)
Theorem X7_pixelate_by_one image im w :
  images w !! image = Some im →
  ∃ w' l,
    AugmentationEngine.pixelate image 1 w = (w', Py.Ok l)
    ∧ images w !! l = None
    ∧ images w' !! l = Some im
    ∧ images w' !! image = Some im.
Proof.
  intros E.
  assert (F : fresh (dom (images w)) ≠ image).
  { intros Hl. pose proof (Run.new_image_fresh w) as F. rewrite Hl in F. congruence. }
  rewrite (PixelateFacts.pixelate_run image im 1 w E) by discriminate.
  unfold Pixelate.pixelate_outcome, Pil.resize_nearest.
  rewrite !Z.div_1_r.
  assert (Es : Pil.size_eqb (Pil.size im) ((Pil.size im).1, (Pil.size im).2) = true).
  { unfold Pil.size_eqb. cbn [fst snd]. rewrite !Z.eqb_refl. reflexivity. }
  rewrite Es.
  assert (Es' : Pil.size_eqb (Pil.size im) (Pil.size im) = true).
  { unfold Pil.size_eqb. rewrite !Z.eqb_refl. reflexivity. }
  rewrite Es'.
  set (l1 := fresh (dom (images w))) in *.
  set (w1 := set_images <[l1 := im]> w).
  eexists _, (fresh (dom (images w1))). split; [reflexivity|].
  pose proof (Run.new_image_fresh w1) as F1.
  split.
  { subst w1. cbn [images set_images] in F1.
    apply lookup_insert_None in F1. apply F1. }
  cbn [images set_images]. split; [apply lookup_insert_eq|].
  assert (N2 : fresh (dom (images w1)) ≠ image).
  { intros Hl. rewrite Hl in F1. subst w1. cbn [images set_images] in F1.
    rewrite lookup_insert_ne in F1 by exact F. congruence. }
  rewrite lookup_insert_ne by assumption. subst w1. cbn [images set_images].
  rewrite lookup_insert_ne by assumption. exact E.
Qed.

(** X8: [rotate] with an angle equal to 0 (the integer 0, the floats 0.0
    and -0.0, or False) returns the image object it was given, not a copy,
    and does nothing else; with any other angle, what it returns is an
    object that did not exist before. *)
Theorem X8_rotate_by_zero image w :
  (∀ angle,
     angle ∈ [Py.VInt 0; Py.VFloat 0; Py.VFloat (-0); Py.VBool false] →
     AugmentationEngine.rotate image angle w = (w, Py.Ok image))
  ∧ (∀ angle l,
       Py.py_eqb angle (Py.VInt 0) = false →
       (AugmentationEngine.rotate image angle w).2 = Py.Ok l →
       images w !! l = None).
Proof.
  split.
  - intros angle H.
    repeat (apply elem_of_cons in H; destruct H as [->|H]); [reflexivity..|].
    apply elem_of_nil in H. destruct H.
  - intros angle l Hne. unfold AugmentationEngine.rotate. rewrite Hne.
    unfold Helpers.pil_to_cv2, Helpers.cv2_to_pil, load_image, lift, new_image,
      mbind, M_bind.
    destruct (images w !! image) as [im|]; [|discriminate].
    destruct (Helpers.cv2_cvtColor_swap (Pil.rows im)) as [a|e]; [|discriminate].
    destruct (Helpers.shape2 a) as [h wd].
    destruct (Helpers.cv2_double angle) as [x|e]; [|discriminate].
    destruct (cv2_warpAffine _ _ _) as [r|e]; [|discriminate].
    destruct (Helpers.cv2_cvtColor_swap r) as [rgb|e]; [|discriminate].
    cbn. intros [= <-]. apply Run.new_image_fresh.
Qed.

End geometry.
End GeometryFacts.

(** X5 on the test image. *)
Lemma X5_cv2_round_trip_witness :
  images Example.world0 !! 1%positive = Some (Example.gradient 6 4)
  ∧ Pil.well_formed (Example.gradient 6 4)
  ∧ Pil.nonempty (Example.gradient 6 4)
  ∧ ∃ l,
      (Helpers.pil_to_cv2 (RT := Example.runtime) 1%positive
         ≫= Helpers.cv2_to_pil) Example.world0
      = (set_images <[l := Example.gradient 6 4]> Example.world0, Py.Ok l).
Proof.
  assert (Hwf : Pil.well_formed (Example.gradient 6 4)).
  { split; [reflexivity|]. repeat constructor. }
  assert (Hne : Pil.nonempty (Example.gradient 6 4)) by (split; cbn; lia).
  split; [reflexivity|]. split; [exact Hwf|]. split; [exact Hne|].
  destruct (GeometryFacts.X5_cv2_round_trip (RT := Example.runtime) 1%positive
              (Example.gradient 6 4) Example.world0 eq_refl Hwf Hne)
    as (l & _ & Hrun & _).
  exists l. exact Hrun.
Defined.

(** X6 on the test image. *)
Lemma X6_flips_commute_witness :
  images Example.world0 !! 1%positive = Some (Example.gradient 6 4)
  ∧ ∃ w1 l1 w2 l2 out,
      (AugmentationEngine.flip_horizontal (RT := Example.runtime) 1%positive
         ≫= AugmentationEngine.flip_vertical) Example.world0 = (w1, Py.Ok l1)
      ∧ (AugmentationEngine.flip_vertical 1%positive
           ≫= AugmentationEngine.flip_horizontal) Example.world0 = (w2, Py.Ok l2)
      ∧ images w1 !! l1 = Some out ∧ images w2 !! l2 = Some out
      ∧ Pil.pixels out = reverse (Pil.pixels (Example.gradient 6 4)).
Proof.
  split; [reflexivity|].
  destruct (GeometryFacts.X6_flips_commute (RT := Example.runtime) 1%positive
              (Example.gradient 6 4) Example.world0 eq_refl)
    as (w1 & l1 & w2 & l2 & out & R1 & R2 & O1 & O2 & _ & _ & _ & Hpx).
  exists w1, l1, w2, l2, out. auto.
Defined.

(** X7 on the test image. *)
Lemma X7_pixelate_by_one_witness :
  images Example.world0 !! 1%positive = Some (Example.gradient 6 4)
  ∧ ∃ w' l,
      AugmentationEngine.pixelate (RT := Example.runtime) 1%positive 1 Example.world0
      = (w', Py.Ok l)
      ∧ images w' !! l = Some (Example.gradient 6 4).
Proof.
  split; [reflexivity|].
  destruct (GeometryFacts.X7_pixelate_by_one (RT := Example.runtime) 1%positive
              (Example.gradient 6 4) Example.world0 eq_refl)
    as (w' & l & Hrun & _ & Hout & _).
  exists w', l. auto.
Defined.

(** ** Gaussian noise *)

Module NoiseFacts.
Section noise.
Context `{RT : Runtime}.
Import Pixels.

Lemma digits2_pos_bound m : Z.pos m < 2 ^ Z.pos (SpecFloat.digits2_pos m).
Proof.
  induction m as [m IH|m IH|]; cbn [SpecFloat.digits2_pos].
  - rewrite Pos2Z.inj_succ, Z.pow_succ_r by lia. lia.
  - rewrite Pos2Z.inj_succ, Z.pow_succ_r by lia. lia.
  - reflexivity.
Qed.

(** The mantissa of a float has at most 53 bits. *)
Lemma mantissa_bound x s m e :
  Prim2SF x = S754_finite s m e → Z.pos m < 2 ^ 53.
Proof.
  intros E. pose proof (Prim2SF_valid x) as V. rewrite E in V.
  unfold SpecFloat.valid_binary, SpecFloat.bounded in V.
  apply andb_prop in V as [V _].
  unfold SpecFloat.canonical_mantissa, SpecFloat.fexp in V.
  apply Z.eqb_eq in V. unfold SpecFloat.emin, prec, emax in V.
  pose proof (digits2_pos_bound m) as B.
  assert (D : Z.pos (SpecFloat.digits2_pos m) ≤ 53) by lia.
  eapply Z.lt_le_trans; [exact B|]. apply Z.pow_le_mono_r; lia.
Qed.

Lemma clip_uint8_range x : 0 ≤ AugmentationEngine.clip_uint8 x ≤ 255.
Proof.
  unfold AugmentationEngine.clip_uint8.
  destruct (PrimFloat.ltb x 0) eqn:L0; [lia|].
  destruct (PrimFloat.ltb 255 x) eqn:L255; [lia|].
  rewrite ltb_spec in L0, L255. unfold Py.int_of_float.
  destruct (Prim2SF x) as [s|s| |s m e] eqn:E; try lia.
  assert (Hs : s = false).
  { destruct s; [|reflexivity]. vm_compute in L0. discriminate. }
  subst s.
  pose proof (mantissa_bound x false m e E) as Hm.
  assert (H255 : Prim2SF 255 = S754_finite false 8972014882652160 (-45))
    by (vm_compute; reflexivity).
  rewrite H255 in L255. unfold SFltb, SFcompare in L255.
  destruct (0 <=? e) eqn:He.
  - apply Z.leb_le in He. destruct (Z.compare_spec (-45) e); try lia; discriminate.
  - apply Z.leb_gt in He.
    assert (Hpow : 0 < 2 ^ (- e)) by (apply Z.pow_pos_nonneg; lia).
    split; [apply Z.div_pos; lia|].
    destruct (Z.compare_spec (-45) e) as [Heq|Hlt|Hgt]; [|discriminate|].
    + subst e. change (- -45) with 45.
      change (PosDef.Pos.compare_cont Eq 8972014882652160 m)
        with (Pos.compare 8972014882652160 m) in L255.
      destruct (Pos.compare_spec 8972014882652160 m) as [Hm'|Hm'|Hm'];
        try discriminate.
      * subst m. vm_compute. discriminate.
      * apply Z.div_le_upper_bound; [reflexivity|].
        change (2 ^ 45) with 35184372088832.
        apply Pos2Z.pos_lt_pos in Hm'. clear -Hm'. lia.
    + apply Z.div_le_upper_bound; [lia|].
      assert (2 ^ 46 ≤ 2 ^ (- e)) by (apply Z.pow_le_mono_r; lia).
      change (2 ^ 53) with (128 * 2 ^ 46) in Hm. nia.
Qed.

Lemma add_noise_length a col gauss :
  length (AugmentationEngine.add_noise a col gauss) = length a.
Proof. unfold AugmentationEngine.add_noise. apply length_imap. Qed.

Lemma add_noise_rows a col gauss n :
  Forall (λ r, length r = n) a →
  Forall (λ r, length r = n) (AugmentationEngine.add_noise a col gauss).
Proof.
  intros H. unfold AugmentationEngine.add_noise.
  apply Forall_lookup_2. intros i r Hr.
  apply list_lookup_imap_Some in Hr as (r0 & Hr0 & ->).
  rewrite length_imap. exact (Forall_lookup_1 _ _ _ _ H Hr0).
Qed.

Lemma add_noise_bytes a col gauss :
  Forall (Forall byte_pixel) (AugmentationEngine.add_noise a col gauss).
Proof.
  unfold AugmentationEngine.add_noise.
  apply Forall_lookup_2. intros i r Hr.
  apply list_lookup_imap_Some in Hr as (r0 & Hr0 & ->).
  apply Forall_lookup_2. intros j p Hp.
  apply list_lookup_imap_Some in Hp as (p0 & Hp0 & ->).
  repeat split; apply clip_uint8_range.
Qed.

Lemma swap_rb_byte p : byte_pixel p → byte_pixel (Helpers.swap_rb p).
Proof. destruct p as [[a b] c]. unfold byte_pixel. cbn. tauto. Qed.

(** The shape of an array whose rows all have the same length. *)
Lemma shape2_uniform (a : ndarray) h wd :
  (0 < h)%nat → length a = h → Forall (λ r, length r = wd) a →
  Helpers.shape2 a = (Z.of_nat h, Z.of_nat wd).
Proof.
  intros Hh Hlen Hrows. unfold Helpers.shape2. rewrite Hlen.
  destruct a as [|r rs]; [cbn in Hlen; lia|].
  apply Forall_inv in Hrows. cbn [head default]. cbn. rewrite Hrows. reflexivity.
Qed.

(** X9: on a well-formed image with pixels, [add_gaussian_noise] fails
    only when the draw of the samples fails; what it returns is a new
    object, a well-formed image of the size of the input whose channels are
    all bytes; and the state of module [random] is not touched. *)
Theorem X9_noise_keeps_the_size image im sigma w :
  images w !! image = Some im → Pil.well_formed im → Pil.nonempty im →
  let run := AugmentationEngine.add_gaussian_noise image sigma w in
  let samples := Z.to_nat (Z.of_nat (Pil.height im) * Z.of_nat (Pil.width im) * 3) in
  Py.is_ok run.2 = Py.is_ok (np_random_normal 0 sigma samples (np_random w)).2
  ∧ py_random run.1 = py_random w
  ∧ ∀ l, run.2 = Py.Ok l →
      images w !! l = None
      ∧ ∃ out, images run.1 !! l = Some out
          ∧ Pil.size out = Pil.size im
          ∧ Pil.well_formed out
          ∧ Forall byte_pixel (Pil.pixels out).
Proof.
  intros E Hwf Hne. cbv zeta.
  unfold AugmentationEngine.add_gaussian_noise.
  rewrite (Run.bind_ok _ _ _ _ _ (EngineFailures.pil_to_cv2_ok image im w E Hwf Hne)).
  set (a := map (map Helpers.swap_rb) (Pil.rows im)).
  destruct Hwf as [Hlen Hrows]. destruct Hne as [Hw Hh].
  assert (Ha_len : length a = Pil.height im) by (subst a; rewrite length_map; exact Hlen).
  assert (Ha_rows : Forall (λ r, length r = Pil.width im) a).
  { subst a. apply Forall_fmap. eapply Forall_impl; [exact Hrows|].
    intros r Hr. cbn. rewrite length_map. exact Hr. }
  rewrite (shape2_uniform a _ _ Hh Ha_len Ha_rows).
  rewrite Run.bind_run. unfold np_normal.
  destruct (np_random_normal _ _ _ _) as [s [gauss|e]]; cbn [fst snd Py.is_ok];
    [|split; [reflexivity|]; split; [reflexivity|discriminate]].
  set (noisy := AugmentationEngine.add_noise a _ gauss).
  assert (Hn_len : length noisy = Pil.height im)
    by (subst noisy; rewrite add_noise_length; exact Ha_len).
  assert (Hn_rows : Forall (λ r, length r = Pil.width im) noisy)
    by (subst noisy; apply add_noise_rows, Ha_rows).
  unfold Helpers.cv2_to_pil. rewrite Run.lift_bind.
  unfold Helpers.cv2_cvtColor_swap.
  rewrite (shape2_uniform noisy _ _ Hh Hn_len Hn_rows). cbn [fst snd].
  assert (E1 : (Z.of_nat (Pil.height im) =? 0) = false) by (apply Z.eqb_neq; lia).
  assert (E2 : (Z.of_nat (Pil.width im) =? 0) = false) by (apply Z.eqb_neq; lia).
  rewrite E1, E2. cbn [orb].
  set (rgb := map (map Helpers.swap_rb) noisy).
  assert (Hr_len : length rgb = Pil.height im)
    by (subst rgb; rewrite length_map; exact Hn_len).
  assert (Hr_rows : Forall (λ r, length r = Pil.width im) rgb).
  { subst rgb. apply Forall_fmap. eapply Forall_impl; [exact Hn_rows|].
    intros r Hr. cbn. rewrite length_map. exact Hr. }
  unfold new_image. cbn [fst snd Py.is_ok py_random set_images set_np_random images].
  split; [reflexivity|]. split; [reflexivity|].
  intros l [= <-]. split; [apply Run.new_image_fresh|].
  eexists. split; [apply lookup_insert_eq|].
  unfold Helpers.fromarray. rewrite (shape2_uniform rgb _ _ Hh Hr_len Hr_rows).
  cbn [fst snd]. rewrite !Nat2Z.id.
  split; [reflexivity|]. split; [split; assumption|].
  unfold Pil.pixels. cbn [Pil.rows]. apply Forall_join.
  subst rgb. apply Forall_fmap.
  eapply Forall_impl; [apply add_noise_bytes|].
  intros r Hr. cbn. apply Forall_fmap. eapply Forall_impl; [exact Hr|].
  intros p Hp. apply swap_rb_byte, Hp.
Qed.

End noise.
End NoiseFacts.

(** X9 on the test image: the noisy image has the size of the input. *)
Lemma X9_noise_witness :
  images Example.world0 !! 1%positive = Some (Example.gradient 6 4)
  ∧ Pil.well_formed (Example.gradient 6 4)
  ∧ Pil.nonempty (Example.gradient 6 4)
  ∧ ∀ l,
      (AugmentationEngine.add_gaussian_noise (RT := Example.runtime) 1%positive 15
         Example.world0).2 = Py.Ok l →
      ∃ out,
        images (AugmentationEngine.add_gaussian_noise 1%positive 15
                  Example.world0).1 !! l = Some out
        ∧ Pil.size out = (6, 4).
Proof.
  assert (Hwf : Pil.well_formed (Example.gradient 6 4)).
  { split; [reflexivity|]. repeat constructor. }
  assert (Hne : Pil.nonempty (Example.gradient 6 4)) by (split; cbn; lia).
  split; [reflexivity|]. split; [exact Hwf|]. split; [exact Hne|].
  intros l Hl.
  destruct (NoiseFacts.X9_noise_keeps_the_size (RT := Example.runtime) 1%positive
              (Example.gradient 6 4) 15 Example.world0 eq_refl Hwf Hne)
    as (_ & _ & Hnew).
  destruct (Hnew l Hl) as (_ & out & Hout & Hsize & _).
  exists out. split; [exact Hout|exact Hsize].
Defined.

(** ** What the pipeline touches *)

Module FootprintFacts.
Section footprint.
Context `{RT : Runtime}.
Import Footprint Pipeline.

Section any_view.
Context {B : Type} (view : World → B).

Lemma keeps_ret {A} (a : A) : keeps view (mret a).
Proof. intros w. reflexivity. Qed.

Lemma keeps_raise {A} e : keeps view (raise (A := A) e).
Proof. intros w. reflexivity. Qed.

Lemma keeps_lift {A} (r : Py.result A) : keeps view (lift r).
Proof. intros w. reflexivity. Qed.

Lemma keeps_bind {A C} (m : M A) (k : A → M C) :
  keeps view m → (∀ a, keeps view (k a)) → keeps view (m ≫= k).
Proof.
  intros Hm Hk w. rewrite Run.bind_run. specialize (Hm w).
  destruct (m w) as [w1 [a|e]]; cbn in *; [|exact Hm].
  rewrite (Hk a w1). exact Hm.
Qed.

Lemma keeps_load_image l : keeps view (load_image l).
Proof. intros w. unfold load_image. destruct (images w !! l); reflexivity. Qed.

Lemma keeps_load_dict l : keeps view (load_dict l).
Proof. intros w. unfold load_dict. destruct (dicts w !! l); reflexivity. Qed.

Lemma keeps_for_each {A C} (body : C → A → M C) (xs : list A) :
  (∀ acc x, x ∈ xs → keeps view (body acc x)) →
  ∀ acc, keeps view (for_each body xs acc).
Proof.
  induction xs as [|x xs IH]; intros Hbody acc; cbn [for_each].
  - apply keeps_ret.
  - apply keeps_bind.
    + apply Hbody. left.
    + intros acc'. apply IH. intros a y Hy. apply Hbody. right. exact Hy.
Qed.

(** Views that do not look at the image objects. *)
Hypothesis view_images : ∀ f w, view (set_images f w) = view w.

Lemma keeps_new_image im : keeps view (new_image im).
Proof. intros w. apply view_images. Qed.

Create HintDb footprint.

#[local] Hint Resolve keeps_ret keeps_raise keeps_lift keeps_load_image
  keeps_load_dict keeps_new_image : footprint.

Ltac footprint_step :=
  first
    [ solve [auto with footprint]
    | apply keeps_bind; [|intros ?]
    | match goal with
      | |- context [let '(_, _) := ?p in _] => destruct p
      | |- context [match ?p with Py.Ok _ => _ | Py.Raise _ => _ end] => destruct p
      | |- context [if ?c then _ else _] => destruct c
      end ].

Ltac footprint := repeat footprint_step.

Lemma keeps_image_copy image : keeps view (image_copy image).
Proof. unfold image_copy. footprint. Qed.

Lemma keeps_image_size image : keeps view (image_size image).
Proof. unfold image_size. footprint. Qed.

Lemma keeps_image_transpose image method :
  keeps view (image_transpose image method).
Proof. unfold image_transpose. footprint. Qed.

Lemma keeps_image_resize_nearest image sz :
  keeps view (image_resize_nearest image sz).
Proof. unfold image_resize_nearest. footprint. Qed.

Lemma keeps_pil_to_cv2 image : keeps view (Helpers.pil_to_cv2 image).
Proof. unfold Helpers.pil_to_cv2. footprint. Qed.

Lemma keeps_cv2_to_pil a : keeps view (Helpers.cv2_to_pil a).
Proof. unfold Helpers.cv2_to_pil. footprint. Qed.

Lemma keeps_dict_get l k : keeps view (dict_get l k).
Proof. unfold dict_get. footprint. Qed.

Lemma keeps_dict_get_default l k v : keeps view (dict_get_default l k v).
Proof. unfold dict_get_default. footprint. Qed.

Lemma keeps_dict_getitem l k : keeps view (dict_getitem l k).
Proof.
  unfold dict_getitem. apply keeps_bind; [apply keeps_load_dict|].
  intros d. destruct (d !! k); auto with footprint.
Qed.

#[local] Hint Resolve keeps_image_copy keeps_image_size keeps_image_transpose
  keeps_image_resize_nearest keeps_pil_to_cv2 keeps_cv2_to_pil
  keeps_dict_get keeps_dict_get_default keeps_dict_getitem : footprint.

Lemma keeps_rotate image angle : keeps view (AugmentationEngine.rotate image angle).
Proof. unfold AugmentationEngine.rotate. footprint. Qed.

Lemma keeps_enhance kind image factor :
  keeps view (AugmentationEngine.enhance kind image factor).
Proof. unfold AugmentationEngine.enhance. footprint. Qed.

Lemma keeps_gaussian_blur image kernel_size :
  keeps view (AugmentationEngine.gaussian_blur image kernel_size).
Proof. unfold AugmentationEngine.gaussian_blur. footprint. Qed.

Lemma keeps_motion_blur image size :
  keeps view (AugmentationEngine.motion_blur image size).
Proof. unfold AugmentationEngine.motion_blur. footprint. Qed.

Lemma keeps_pixelate image pixel_size :
  keeps view (AugmentationEngine.pixelate image pixel_size).
Proof. unfold AugmentationEngine.pixelate. footprint. Qed.

(** Every step but the noise. *)
Lemma keeps_run_step d r s :
  s ≠ GaussianNoise → keeps view (run_step d r s).
Proof.
  intros Hs. destruct s; cbn [run_step]; try congruence;
    first [ apply keeps_rotate | apply keeps_image_transpose | apply keeps_enhance
          | apply keeps_gaussian_blur | apply keeps_motion_blur | apply keeps_pixelate ].
Qed.

(** The noise draws from [np.random]; a view that does not look at that
    state is kept by it as well. *)
Hypothesis view_numpy : ∀ s w, view (set_np_random s w) = view w.

Lemma keeps_np_normal mean sigma n : keeps view (np_normal mean sigma n).
Proof.
  intros w. unfold np_normal.
  destruct (np_random_normal _ _ _ _) as [s r]. apply view_numpy.
Qed.

Lemma keeps_add_gaussian_noise image sigma :
  keeps view (AugmentationEngine.add_gaussian_noise image sigma).
Proof.
  pose proof keeps_np_normal.
  unfold AugmentationEngine.add_gaussian_noise. footprint.
Qed.

Lemma keeps_any_step d r s : keeps view (run_step d r s).
Proof.
  assert (Hs : s = GaussianNoise ∨ s ≠ GaussianNoise)
    by (destruct s; first [left; reflexivity | right; discriminate]).
  destruct Hs as [->|Hs].
  - apply keeps_add_gaussian_noise.
  - apply keeps_run_step, Hs.
Qed.

End any_view.

Lemma beside_images_and_numpy_images f w :
  beside_images_and_numpy (set_images f w) = beside_images_and_numpy w.
Proof. reflexivity. Qed.

Lemma beside_images_and_numpy_numpy s w :
  beside_images_and_numpy (set_np_random s w) = beside_images_and_numpy w.
Proof. reflexivity. Qed.

Lemma beside_images_images f w :
  beside_images (set_images f w) = beside_images w.
Proof. reflexivity. Qed.

(** The pipeline as a whole, for a view that looks neither at the image
    objects nor at [np.random]. *)
Lemma keeps_pipeline {B} (view : World → B) image d :
  (∀ f w, view (set_images f w) = view w) →
  (∀ s w, view (set_np_random s w) = view w) →
  keeps view (result ← image_copy image;
              for_each (run_step d) (List.filter (step_enabled d) pipeline_order)
                result).
Proof.
  intros Hi Hn. apply keeps_bind; [apply keeps_image_copy, Hi|].
  intros r. apply keeps_for_each. intros acc s _. apply keeps_any_step; assumption.
Qed.

(** Without the noise, [np.random] is left alone as well. *)
Lemma keeps_pipeline_without_noise {B} (view : World → B) image d :
  (∀ f w, view (set_images f w) = view w) →
  step_enabled d GaussianNoise = false →
  keeps view (result ← image_copy image;
              for_each (run_step d) (List.filter (step_enabled d) pipeline_order)
                result).
Proof.
  intros Hi Hoff. apply keeps_bind; [apply keeps_image_copy, Hi|].
  intros r. apply keeps_for_each. intros acc s Hs.
  apply keeps_run_step; [exact Hi|]. intros ->.
  apply list_elem_of_In, filter_In in Hs. destruct Hs as [_ Hs]. congruence.
Qed.

Lemma apply_transformations_beside image params d w :
  dicts w !! params = Some d →
  beside_images_and_numpy (ImageProcessor.apply_transformations image params w).1
  = beside_images_and_numpy w.
Proof.
  intros Hd.
  rewrite (PipelineFacts.apply_transformations_steps image params d w Hd).
  apply (keeps_pipeline beside_images_and_numpy image d
           beside_images_and_numpy_images beside_images_and_numpy_numpy w).
Qed.

(** X10: apart from the image objects it creates, [apply_transformations]
    changes nothing but the state of [np.random]: the parameter dictionary
    and every other dictionary, the state of module [random], the files and
    the console are as before the call; and when the gaussian_noise flag is
    missing or falsy the state of [np.random] is unchanged too. *)
Theorem X10_pipeline_footprint image params d w :
  dicts w !! params = Some d →
  let w' := (ImageProcessor.apply_transformations image params w).1 in
  dicts w' = dicts w
  ∧ py_random w' = py_random w
  ∧ filesystem w' = filesystem w
  ∧ stdout w' = stdout w
  ∧ (Py.truthy_opt (d !! "gaussian_noise") = false → np_random w' = np_random w).
Proof.
  intros Hd. cbv zeta.
  rewrite (PipelineFacts.apply_transformations_steps image params d w Hd).
  pose proof (keeps_pipeline beside_images_and_numpy image d
                beside_images_and_numpy_images beside_images_and_numpy_numpy w) as H.
  unfold beside_images_and_numpy in H. injection H as H1 H2 H3 H4.
  split; [exact H1|]. split; [exact H2|]. split; [exact H3|]. split; [exact H4|].
  intros Hoff.
  pose proof (keeps_pipeline_without_noise beside_images image d
                beside_images_images Hoff w) as H.
  unfold beside_images in H. injection H as _ _ H5 _ _. exact H5.
Qed.

End footprint.
End FootprintFacts.

(** X10 on the test image with the ML-training preset, whose noise flag
    is set. *)
Lemma X10_pipeline_footprint_witness :
  dicts Example.world0 !! 1%positive = Some Settings.ml_training
  ∧ dicts (ImageProcessor.apply_transformations (RT := Example.runtime) 1%positive
             1%positive Example.world0).1
    = dicts Example.world0.
Proof.
  split; [reflexivity|].
  exact (proj1 (FootprintFacts.X10_pipeline_footprint (RT := Example.runtime)
                  1%positive 1%positive Settings.ml_training Example.world0 eq_refl)).
Defined.

(** ** Parameters that select nothing, and random parameters *)

Module ParameterFacts.
Section parameters.
Context `{RT : Runtime}.
Import Pipeline Keys.

(** When no step is enabled the pipeline is the initial copy. *)
Lemma apply_transformations_identity image params d im w :
  dicts w !! params = Some d → images w !! image = Some im →
  (∀ s, step_enabled d s = false) →
  ImageProcessor.apply_transformations image params w
  = (set_images <[fresh (dom (images w)) := im]> w, Py.Ok (fresh (dom (images w)))).
Proof.
  intros Hd Hi Hoff.
  rewrite (PipelineFacts.apply_transformations_steps image params d w Hd).
  assert (E : List.filter (step_enabled d) pipeline_order = []).
  { unfold pipeline_order. cbn [List.filter]. rewrite !Hoff. reflexivity. }
  rewrite E. cbn [for_each]. unfold image_copy.
  rewrite Run.bind_assoc.
  rewrite (Run.bind_ok _ _ _ _ _ (Run.load_image_ok _ _ _ Hi)).
  reflexivity.
Qed.

(** X11: when every recognized key is missing or holds its identity value
    (a rotation equal to 0, factors equal to 1.0, falsy flags),
    [apply_transformations] returns a new object with the contents of the
    input and changes nothing else; the empty dictionary and
    [Settings.DEFAULT_VALUES] are such parameters. *)
Theorem X11_identity_parameters image params d im w :
  dicts w !! params = Some d → images w !! image = Some im →
  (∀ s, step_enabled d s = false) →
  ∃ l,
    ImageProcessor.apply_transformations image params w
    = (set_images <[l := im]> w, Py.Ok l)
    ∧ images w !! l = None.
Proof.
  intros Hd Hi Hoff. exists (fresh (dom (images w))).
  split; [|apply Run.new_image_fresh].
  apply (apply_transformations_identity image params d im w Hd Hi Hoff).
Qed.

Lemma empty_selects_nothing s : step_enabled ∅ s = false.
Proof. destruct s; reflexivity. Qed.

Lemma defaults_select_nothing s : step_enabled Settings.DEFAULT_VALUES s = false.
Proof. destruct s; vm_compute; reflexivity. Qed.

(** X12: [_generate_random_params] returns a new dictionary and touches
    nothing else but the state of module [random]: no image, no other
    dictionary, not [np.random], no file, no output.  The dictionary holds
    exactly the eleven keys [apply_transformations] reads, with booleans
    under the flags, floats under the four factors and an integer rotation,
    which lies in [-30, 30] when the draws of [randbelow] lie below their
    bound, as its documentation says. *)
Theorem X12_random_parameters w :
  ∃ d l w',
    BatchGenerator._generate_random_params w = (w', Py.Ok l)
    ∧ dicts w !! l = None
    ∧ dicts w' = <[l := d]> (dicts w)
    ∧ images w' = images w ∧ np_random w' = np_random w
    ∧ filesystem w' = filesystem w ∧ stdout w' = stdout w
    ∧ dom d = recognized_keys
    ∧ flags_are_booleans d
    ∧ (∃ n, d !! "rotation" = Some (Py.VInt n)
            ∧ (randbelow_in_range → -30 ≤ n ≤ 30))
    ∧ (∀ key, key ∈ Jitter.factor_keys → ∃ f, d !! key = Some (Py.VFloat f)).
Proof.
  unfold BatchGenerator._generate_random_params, BatchGenerator.random_below,
    random_randint, random_choice_bool, random_uniform, random_randbelow,
    random_random, new_dict, mbind, M_bind, mret, M_ret.
  assert (Hk : randbelow_in_range →
               0 ≤ (rng_randbelow (30 - -30 + 1) (py_random w)).1 < 30 - -30 + 1)
    by (intros Hrange; apply Hrange; reflexivity).
  repeat match goal with
         | |- context [rng_randbelow ?n ?s] =>
             destruct (rng_randbelow n s) as [? ?]; cbn [py_random set_py_random fst snd]
         | |- context [rng_random ?s] =>
             destruct (rng_random s) as [? ?]; cbn [py_random set_py_random fst snd]
         end.
  eexists _, _, _. split; [reflexivity|]. cbn [dicts set_dicts set_py_random images
    np_random filesystem stdout].
  split; [apply Run.new_dict_fresh|].
  split; [reflexivity|]. split; [reflexivity|]. split; [reflexivity|].
  split; [reflexivity|]. split; [reflexivity|].
  split; [reflexivity|].
  split.
  { intros s v Hs. destruct s; try discriminate; vm_compute; intros [= <-]; eauto. }
  split.
  { eexists. split; [reflexivity|]. intros Hrange. specialize (Hk Hrange).
    cbn [fst] in Hk. lia. }
  intros key Hkey. unfold Jitter.factor_keys in Hkey.
  repeat (apply elem_of_cons in Hkey; destruct Hkey as [->|Hkey]);
    [eexists; reflexivity..|].
  apply elem_of_nil in Hkey. destruct Hkey.
Qed.

End parameters.
End ParameterFacts.

(** X11 with [Settings.DEFAULT_VALUES] as parameters. *)
Lemma X11_identity_parameters_witness :
  let w := set_dicts <[4%positive := Settings.DEFAULT_VALUES]> Example.world0 in
  dicts w !! 4%positive = Some Settings.DEFAULT_VALUES
  ∧ images w !! 1%positive = Some (Example.gradient 6 4)
  ∧ (∀ s, Pipeline.step_enabled Settings.DEFAULT_VALUES s = false)
  ∧ ∃ l,
      ImageProcessor.apply_transformations (RT := Example.runtime) 1%positive
        4%positive w
      = (set_images <[l := Example.gradient 6 4]> w, Py.Ok l).
Proof.
  intros w.
  assert (Hoff : ∀ s, Pipeline.step_enabled Settings.DEFAULT_VALUES s = false).
  { intros s. destruct s; vm_compute; reflexivity. }
  split; [reflexivity|]. split; [reflexivity|]. split; [exact Hoff|].
  destruct (ParameterFacts.X11_identity_parameters (RT := Example.runtime) 1%positive
              4%positive Settings.DEFAULT_VALUES (Example.gradient 6 4) w
              eq_refl eq_refl Hoff) as (l & Hrun & _).
  exists l. exact Hrun.
Defined.

(** X12 on the generator of the examples, whose draws are remainders. *)
Lemma X12_random_parameters_witness :
  Keys.randbelow_in_range (RT := Example.runtime)
  ∧ ∃ (d : dict) l w',
      BatchGenerator._generate_random_params (RT := Example.runtime) Example.world0
      = (w', Py.Ok l)
      ∧ dom d = Keys.recognized_keys
      ∧ ∃ n, d !! "rotation" = Some (Py.VInt n) ∧ -30 ≤ n ≤ 30.
Proof.
  assert (Hrange : Keys.randbelow_in_range (RT := Example.runtime)).
  { intros n s Hn. cbn. apply Z.mod_pos_bound. lia. }
  split; [exact Hrange|].
  destruct (ParameterFacts.X12_random_parameters (RT := Example.runtime)
              Example.world0)
    as (d & l & w' & Hrun & _ & _ & _ & _ & _ & _ & Hdom & _ & Hrot & _).
  destruct Hrot as (n & Hn & Hbound).
  exists d, l, w'. split; [exact Hrun|]. split; [exact Hdom|].
  exists n. split; [exact Hn|exact (Hbound Hrange)].
Defined.

(** ** The shipped presets *)

Module ShippedPresetFacts.
Section shipped.
Context `{RT : Runtime}.
Import Pipeline Jitter.

Lemma shipped_contents p d :
  Settings.preset_objects !! p = Some d →
  d = Settings.ml_training ∨ d = Settings.creative ∨ d = Settings.enhancement.
Proof.
  unfold Settings.preset_objects. cbn [list_to_map foldr fst snd].
  intros H.
  apply lookup_insert_Some in H as [[_ <-]|[_ H]]; [auto|].
  apply lookup_insert_Some in H as [[_ <-]|[_ H]]; [auto|].
  apply lookup_insert_Some in H as [[_ <-]|[_ H]]; [auto|].
  rewrite lookup_empty in H. discriminate.
Qed.

Lemma shipped_typed p d : Settings.preset_objects !! p = Some d → typed d.
Proof.
  intros H. apply shipped_contents in H as [->|[->| ->]]; split.
  all: try (intros v Hv; vm_compute in Hv; first [discriminate | injection Hv as <-; eauto]).
  all: intros key v Hkey Hv; unfold factor_keys in Hkey;
    repeat (apply elem_of_cons in Hkey; destruct Hkey as [->|Hkey]);
    try (apply elem_of_nil in Hkey; destruct Hkey);
    vm_compute in Hv; first [discriminate | injection Hv as <-; eauto].
Qed.

Lemma shipped_flags p d :
  Settings.preset_objects !! p = Some d → flags_are_booleans d.
Proof.
  intros H. apply shipped_contents in H as [->|[->| ->]].
  all: intros s v Hs Hv; destruct s; try discriminate Hs;
    vm_compute in Hv; first [discriminate | injection Hv as <-; eauto].
Qed.

Lemma flag_not_jittered s : is_flag s = true → step_key s ∉ jittered_keys.
Proof.
  intros Hs Hin. unfold jittered_keys, factor_keys in Hin.
  repeat (apply elem_of_cons in Hin; destruct Hin as [Hin|Hin];
          [destruct s; discriminate|]).
  apply elem_of_nil in Hin. exact Hin.
Qed.

(** X13: the shipped presets never make the jitter fail.  On a dictionary
    with the contents of ml_training, creative or enhancement,
    [_vary_preset_params] returns a dictionary for every seed; it has the
    keys of the preset, booleans under the flags, an integer or float
    rotation within [-180, 180] and float factors within [0.1, 3.0]. *)
Theorem X13_shipped_presets_vary p d base seed w :
  Settings.preset_objects !! p = Some d →
  dicts w !! base = Some d →
  ∃ d',
    outcome (BatchGenerator._vary_preset_params base seed w) = Py.Ok d'
    ∧ dom d' = dom d
    ∧ flags_are_booleans d'
    ∧ (∀ v, d' !! "rotation" = Some v → within_rotation v)
    ∧ (∀ key v, key ∈ factor_keys → d' !! key = Some v →
         ∃ f, v = Py.VFloat f ∧ within_factor f).
Proof.
  intros Hp Hbase.
  destruct (JitterFacts.jitter_total d seed (shipped_typed p d Hp)) as (s & d' & Hj).
  destruct (JitterFacts.jitter_properties d seed s d' Hj) as (Hdom & Hother & Hrot & Hfac).
  exists d'. rewrite (JitterFacts.outcome_run base d seed w Hbase), Hj.
  split; [reflexivity|]. split; [exact Hdom|]. split; [|split; assumption].
  intros st v Hst Hv. rewrite (Hother _ (flag_not_jittered st Hst)) in Hv.
  exact (shipped_flags p d Hp st v Hst Hv).
Qed.

End shipped.
End ShippedPresetFacts.

(** X13 on the ML-training preset with seed 5. *)
Lemma X13_shipped_presets_witness :
  Settings.preset_objects !! 1%positive = Some Settings.ml_training
  ∧ dicts Example.world0 !! 1%positive = Some Settings.ml_training
  ∧ ∃ d',
      Jitter.outcome
        (BatchGenerator._vary_preset_params (RT := Example.runtime) 1%positive 5
           Example.world0)
      = Py.Ok d'
      ∧ dom d' = dom Settings.ml_training.
Proof.
  split; [reflexivity|]. split; [reflexivity|].
  destruct (ShippedPresetFacts.X13_shipped_presets_vary (RT := Example.runtime)
              1%positive Settings.ml_training 1%positive 5 Example.world0
              eq_refl eq_refl) as (d' & Hout & Hdom & _).
  exists d'. auto.
Defined.

(** ** The generator state after the jitter *)

Module ReseedFacts.
Section reseed.
Context `{RT : Runtime}.
Import Jitter.

(** The dictionary [_generate_random_params] returns depends on the state
    of module [random] only. *)
Lemma random_params_outcome w1 w2 :
  py_random w1 = py_random w2 →
  outcome (BatchGenerator._generate_random_params w1)
  = outcome (BatchGenerator._generate_random_params w2).
Proof.
  intros Hs.
  unfold BatchGenerator._generate_random_params, BatchGenerator.random_below,
    random_randint, random_choice_bool, random_uniform, random_randbelow,
    random_random, new_dict, mbind, M_bind, mret, M_ret.
  rewrite Hs.
  repeat match goal with
         | |- context [rng_randbelow ?n ?s] =>
             destruct (rng_randbelow n s) as [? ?]; cbn [py_random set_py_random fst snd]
         | |- context [rng_random ?s] =>
             destruct (rng_random s) as [? ?]; cbn [py_random set_py_random fst snd]
         end.
  unfold outcome. cbn [fst snd dicts set_dicts set_py_random].
  rewrite !lookup_insert_eq. reflexivity.
Qed.

(** X14: [_vary_preset_params] resets the generator of module [random],
    which is global: after the call its state is determined by the seed and
    the contents of the preset, whatever it was before.  Hence the random
    parameters drawn next are the same after any two calls with the same
    seed on dictionaries with equal contents. *)
Theorem X14_jitter_resets_the_generator b1 b2 d seed w1 w2 :
  dicts w1 !! b1 = Some d → dicts w2 !! b2 = Some d →
  let after1 := (BatchGenerator._vary_preset_params b1 seed w1).1 in
  let after2 := (BatchGenerator._vary_preset_params b2 seed w2).1 in
  py_random after1 = (jitter d seed).1
  ∧ py_random after1 = py_random after2
  ∧ outcome (BatchGenerator._generate_random_params after1)
    = outcome (BatchGenerator._generate_random_params after2).
Proof.
  intros H1 H2 after1 after2.
  destruct (JitterFacts.vary_run b1 d seed w1 H1) as (d1 & E1 & _).
  destruct (JitterFacts.vary_run b2 d seed w2 H2) as (d2 & E2 & _).
  assert (S1 : py_random after1 = (jitter d seed).1).
  { subst after1. rewrite E1. reflexivity. }
  assert (S2 : py_random after2 = (jitter d seed).1).
  { subst after2. rewrite E2. reflexivity. }
  split; [exact S1|]. split; [congruence|].
  apply random_params_outcome. congruence.
Qed.

End reseed.
End ReseedFacts.

(** X14 from two worlds whose generators are in different states. *)
Lemma X14_jitter_resets_witness :
  let w2 := set_py_random (RT := Example.runtime) 99 Example.world0 in
  dicts Example.world0 !! 1%positive = Some Settings.ml_training
  ∧ dicts w2 !! 1%positive = Some Settings.ml_training
  ∧ py_random (BatchGenerator._vary_preset_params (RT := Example.runtime)
                 1%positive 5 Example.world0).1
    = py_random (BatchGenerator._vary_preset_params 1%positive 5 w2).1.
Proof.
  intros w2. split; [reflexivity|]. split; [reflexivity|].
  exact (proj1 (proj2 (ReseedFacts.X14_jitter_resets_the_generator
                         (RT := Example.runtime) 1%positive 1%positive
                         Settings.ml_training 5 Example.world0 w2 eq_refl eq_refl))).
Defined.

(** ** File names of a batch *)

Module FilenameFacts.
Section filenames.
Context `{RT : Runtime}.
Import Filenames.

Lemma string_app_cons c (s t : string) :
  (String c s ++ t = String c (s ++ t))%string.
Proof. reflexivity. Qed.

Lemma string_app_length (s t : string) :
  String.length (s ++ t) = (String.length s + String.length t)%nat.
Proof.
  induction s as [|c s IH]; [reflexivity|].
  rewrite string_app_cons. cbn [String.length]. rewrite IH. reflexivity.
Qed.

Lemma string_app_inv_head (s t1 t2 : string) :
  (s ++ t1 = s ++ t2 → t1 = t2)%string.
Proof.
  induction s as [|c s IH]; [auto|].
  rewrite !string_app_cons. intros [= H]. auto.
Qed.

Lemma string_app_inv_tail (s1 s2 t : string) :
  (s1 ++ t = s2 ++ t → s1 = s2)%string.
Proof.
  intros H.
  assert (Hlen : String.length s1 = String.length s2).
  { apply (f_equal String.length) in H. rewrite !string_app_length in H. lia. }
  revert s2 H Hlen. induction s1 as [|c s1 IH]; intros [|c2 s2] H Hlen;
    cbn [String.length] in Hlen; try discriminate; [reflexivity|].
  rewrite !string_app_cons in H.
  injection H as -> H. f_equal. apply IH; [exact H|lia].
Qed.

Lemma pretty_N_char_nonzero x : (0 < x < 10)%N → pretty_N_char x ≠ "0"%char.
Proof.
  intros [Hpos Hdigit] E.
  assert (Hx : x = 0%N).
  { apply pretty_N_char_inj; [exact Hdigit|reflexivity|exact E]. }
  subst x. exact (N.lt_irrefl 0 Hpos).
Qed.

Lemma pretty_N_go_leads x s : (0 < x)%N → leads (pretty_N_go x s).
Proof.
  revert s. induction (N.lt_wf_0 x) as [x _ IH]; intros s Hx.
  rewrite pretty_N_go_step by exact Hx.
  destruct (decide (x `div` 10 = 0)%N) as [E|E].
  - rewrite E, pretty_N_go_0. eexists _, _. split; [reflexivity|].
    apply N.div_small_iff in E; [|discriminate].
    rewrite N.mod_small by exact E. apply pretty_N_char_nonzero. lia.
  - apply IH.
    + apply N.div_lt; [exact Hx|reflexivity].
    + apply N.neq_0_lt_0. exact E.
Qed.

Lemma pretty_leads (n : N) : (0 < n)%N → leads (pretty n).
Proof.
  intros Hn. unfold pretty, pretty_N.
  destruct (decide (n = 0%N)); [lia|]. apply pretty_N_go_leads, Hn.
Qed.

(** Padding with zeros can be undone when the padded strings do not
    start with a zero. *)
Lemma zero_padding_inj a b (s t : string) :
  leads s → leads t →
  (Py.str_repeat a "0" ++ s = Py.str_repeat b "0" ++ t)%string →
  s = t.
Proof.
  intros (c & s' & -> & Hc) (c' & t' & -> & Hc').
  revert b. induction a as [|a IH]; intros [|b] H; simpl in H.
  - exact H.
  - injection H as -> _. congruence.
  - injection H as <- _. congruence.
  - injection H as H. exact (IH b H).
Qed.



Lemma format_04d_inj i j : 0 < i → 0 < j → Py.format_04d i = Py.format_04d j → i = j.
Proof.
  intros Hi Hj H. unfold Py.format_04d in H.
  apply zero_padding_inj in H; [|apply pretty_leads; lia..].
  apply (inj pretty) in H. lia.
Qed.

(** X15: the items of a batch have pairwise distinct file names: for
    indices of at least 0, the file names of two items are equal only when
    the indices are. *)
Theorem X15_item_filenames_are_distinct base_name i j :
  0 ≤ i → 0 ≤ j → i ≠ j →
  BatchGenerator.item_filename base_name i ≠ BatchGenerator.item_filename base_name j.
Proof.
  intros Hi Hj Hne H. apply Hne. unfold BatchGenerator.item_filename in H.
  apply string_app_inv_head in H. apply (string_app_inv_head "_") in H.
  apply string_app_inv_tail in H. apply format_04d_inj in H; lia.
Qed.

End filenames.
End FilenameFacts.

(** X15 on the first two items of a batch. *)
Lemma X15_item_filenames_witness :
  0 ≤ 0 ∧ 0 ≤ 1 ∧ 0 ≠ 1
  ∧ BatchGenerator.item_filename "augmented" 0
    ≠ BatchGenerator.item_filename "augmented" 1.
Proof.
  assert (H0 : 0 ≤ 0) by lia. assert (H1 : 0 ≤ 1) by lia.
  assert (Hne : 0 ≠ 1) by lia.
  split; [exact H0|]. split; [exact H1|]. split; [exact Hne|].
  exact (FilenameFacts.X15_item_filenames_are_distinct "augmented" 0 1 H0 H1 Hne).
Defined.

(** ** Batches from a preset *)

Module PresetBatchFacts.
Section preset_batch.
Context `{RT : Runtime}.
Import Batch PresetBatch.

Lemma for_each_pointwise {A B} (f g : B → A → M B) xs :
  (∀ b a w, f b a w = g b a w) → ∀ b w, for_each f xs b w = for_each g xs b w.
Proof.
  intros Hfg. induction xs as [|x xs IH]; intros b w; [reflexivity|].
  cbn [for_each]. rewrite !Run.bind_run, Hfg.
  destruct (g b x w) as [w1 [b'|e]]; [apply IH|reflexivity].
Qed.

(** The loop of [generate_with_preset] is the loop of [turn] on
    [preset_item]. *)
Lemma preset_loop original_image count output_folder base_name cb preset_params
    indices st w :
  for_each
    (λ st i,
       try_except
         (BatchGenerator.call_progress cb (i + 1) count
            (BatchGenerator.item_filename base_name i);;
          augmentation_params ← BatchGenerator._vary_preset_params preset_params i;
          augmented_image ←
            ImageProcessor.apply_transformations original_image augmentation_params;
          let filename := BatchGenerator.item_filename base_name i in
          let output_path := path_join output_folder filename in
          image_save augmented_image output_path;;
          mret (BatchGenerator.mkCounters (BatchGenerator.generated_count st + 1)
                  (BatchGenerator.failed_count st) (BatchGenerator.failed_list st)))
         (BatchGenerator.record_failure base_name i st))
    indices st w
  = for_each
      (turn (preset_item original_image count output_folder base_name cb preset_params)
         base_name)
      indices st w.
Proof.
  apply for_each_pointwise. clear st w. intros st i w.
  unfold turn, preset_item, try_except. cbv zeta.
  rewrite !Run.bind_run.
  destruct (BatchGenerator.call_progress _ _ _ _ w) as [w1 [[]|e]]; [|reflexivity].
  rewrite !Run.bind_run.
  destruct (BatchGenerator._vary_preset_params _ _ w1) as [w2 [p|e]]; [|reflexivity].
  rewrite !Run.bind_run.
  destruct (ImageProcessor.apply_transformations _ _ w2) as [w3 [a|e]]; [|reflexivity].
  rewrite !Run.bind_run.
  destruct (image_save _ _ w3) as [w4 [[]|e]]; reflexivity.
Qed.

(** X16: once the output folder exists and the presets are stored,
    [generate_with_preset] with a count of at least 0 looks the preset up
    once, then attempts every index 0 .. count-1 in order whatever the
    outcome of the earlier items, and returns a result with requested =
    count, generated + failed = count, generated the number of items that
    succeeded and failed_files holding one (file name, message) pair for
    each failed item, in item order. *)
Theorem X16_preset_batch_completes original_image count output_folder preset_type
    base_name cb w w0 :
  0 ≤ count →
  mkdir output_folder w = (w0, Py.Ok tt) →
  Presets.presets_stored w0 →
  let preset_params := fresh (dom (dicts w0)) in
  let w1 := set_dicts
              <[preset_params := default ∅ (Presets.stored_preset w0 preset_type)]> w0 in
  let item := preset_item original_image count output_folder base_name cb
                preset_params in
  let run := attempt_all item (report base_name) (Py.range count) w1 in
  ∃ r,
    BatchGenerator.generate_with_preset original_image count output_folder
      preset_type base_name cb w
    = (run.1, Py.Ok r)
    ∧ run.2.*1 = Py.range count
    ∧ BatchGenerator.requested r = count
    ∧ BatchGenerator.generated r + BatchGenerator.failed r = count
    ∧ BatchGenerator.generated r = Z.of_nat (length (succeeded run.2))
    ∧ BatchGenerator.failed r = Z.of_nat (length (BatchGenerator.failed_files r))
    ∧ BatchGenerator.failed_files r = failures base_name run.2.
Proof.
  intros Hcount Hmk Hst preset_params w1 item run.
  unfold BatchGenerator.generate_with_preset.
  rewrite (Run.bind_ok _ _ _ _ _ Hmk).
  rewrite (Run.bind_ok _ _ _ _ _ (PresetFacts.get_preset_params_run preset_type w0 Hst)).
  fold preset_params. fold w1.
  rewrite Run.bind_run, preset_loop. fold item. rewrite BatchFacts.loop_run. fold run.
  pose proof (BatchFacts.attempt_all_indices item (report base_name)
                (Py.range count) w1) as Hidx.
  pose proof (BatchFacts.attempt_all_length item (report base_name)
                (Py.range count) w1) as Hlen.
  fold run in Hidx, Hlen. destruct run as [w' outs]. cbn [fst snd] in *.
  eexists. split; [reflexivity|].
  cbn [BatchGenerator.requested BatchGenerator.generated BatchGenerator.failed
       BatchGenerator.failed_files BatchGenerator.generated_count
       BatchGenerator.failed_count BatchGenerator.failed_list app].
  pose proof (BatchFacts.tally_length base_name outs) as Htally.
  pose proof (BatchFacts.length_range count Hcount) as Hrange.
  repeat split; try reflexivity; try assumption; lia.
Qed.

(** *** A name that matches no preset *)

Lemma jitter_empty seed : Jitter.jitter ∅ seed = (rng_seed seed, Py.Ok ∅).
Proof. reflexivity. Qed.

(** On the empty dictionary the jitter returns a new empty dictionary. *)
Lemma vary_empty base seed w :
  dicts w !! base = Some ∅ →
  BatchGenerator._vary_preset_params base seed w
  = (Jitter.at_ w (fresh (dom (dicts w))) ∅ (rng_seed seed),
     Py.Ok (fresh (dom (dicts w)))).
Proof.
  intros Hb. destruct (JitterFacts.vary_run base ∅ seed w Hb) as (dx & Hw & Hr).
  rewrite jitter_empty in Hw, Hr. cbn [fst snd] in Hw, Hr. destruct Hr as [Hr ->].
  destruct (BatchGenerator._vary_preset_params base seed w) as [w' r].
  cbn [fst snd] in Hw, Hr. congruence.
Qed.

(** An item of the batch saves a copy of the original. *)
Lemma item_saves_copy original_image im count output_folder base_name preset_params
    i w :
  ready original_image im preset_params w →
  let saved :=
    fs_save_png (path_join output_folder (BatchGenerator.item_filename base_name i))
      im (filesystem w) in
  ∃ w',
    preset_item original_image count output_folder base_name None preset_params i w
    = (w', saved.2)
    ∧ filesystem w' = saved.1
    ∧ ready original_image im preset_params w'.
Proof.
  intros [Hi Hp] saved. unfold preset_item, BatchGenerator.call_progress.
  rewrite Run.ret_bind.
  rewrite (Run.bind_ok _ _ _ _ _ (vary_empty preset_params i w Hp)).
  set (l := fresh (dom (dicts w))).
  set (w1 := Jitter.at_ w l ∅ (rng_seed i)).
  assert (Hl : dicts w1 !! l = Some ∅) by apply JitterFacts.at_lookup.
  assert (Hi1 : images w1 !! original_image = Some im) by exact Hi.
  rewrite (Run.bind_ok _ _ _ _ _
             (ParameterFacts.apply_transformations_identity original_image l ∅ im w1
                Hl Hi1 ParameterFacts.empty_selects_nothing)).
  set (l2 := fresh (dom (images w1))).
  set (w2 := set_images <[l2 := im]> w1).
  assert (Hl2 : images w2 !! l2 = Some im) by apply lookup_insert_eq.
  unfold image_save. rewrite (Run.bind_ok _ _ _ _ _ (Run.load_image_ok _ _ _ Hl2)).
  unfold save_png. change (filesystem w2) with (filesystem w). fold saved.
  destruct saved as [fs r]. eexists. split; [reflexivity|].
  split; [reflexivity|]. split.
  - cbn [images set_filesystem set_images w2]. rewrite lookup_insert_ne; [exact Hi|].
    intros E. pose proof (Run.new_image_fresh w1) as F. fold l2 in F.
    rewrite E in F. congruence.
  - cbn. rewrite lookup_insert_ne; [exact Hp|].
    intros E. pose proof (Run.new_dict_fresh w) as F. fold l in F.
    rewrite E in F. congruence.
Qed.

Lemma report_ready original_image im preset_params base_name i e w :
  ready original_image im preset_params w →
  ready original_image im preset_params (report base_name i e w).1
  ∧ filesystem (report base_name i e w).1 = filesystem w.
Proof. intros H. split; [exact H|reflexivity]. Qed.

(** The batch of such items saves one copy per index. *)
Lemma attempts_save_copies original_image im count output_folder base_name
    preset_params indices w :
  ready original_image im preset_params w →
  let run := attempt_all
               (preset_item original_image count output_folder base_name None
                  preset_params)
               (report base_name) indices w in
  let saves := save_copies im output_folder base_name indices (filesystem w) in
  filesystem run.1 = saves.1 ∧ run.2 = saves.2
  ∧ ready original_image im preset_params run.1.
Proof.
  revert w. induction indices as [|i rest IH]; intros w Hr; cbv zeta.
  - cbn. auto.
  - cbn [attempt_all save_copies].
    destruct (item_saves_copy original_image im count output_folder base_name
                preset_params i w Hr) as (w1 & Hitem & Hfs & Hr1).
    rewrite Hitem.
    destruct (fs_save_png _ im (filesystem w)) as [fs1 r]. cbn [fst snd] in *.
    set (w2 := match r with Py.Ok _ => w1 | Py.Raise e => _ end).
    assert (H2 : ready original_image im preset_params w2 ∧ filesystem w2 = fs1).
    { subst w2. destruct r as [u|e]; [auto|].
      destruct (report_ready original_image im preset_params base_name i e w1 Hr1).
      split; [assumption|congruence]. }
    destruct H2 as [Hr2 Hfs2]. specialize (IH w2 Hr2). cbv zeta in IH.
    rewrite Hfs2 in IH.
    destruct (attempt_all _ _ rest w2) as [w' outs].
    destruct (save_copies im output_folder base_name rest fs1) as [fs' outs'].
    cbn [fst snd] in *. destruct IH as (H1 & H2 & H3).
    split; [exact H1|]. split; [congruence|exact H3].
Qed.

(** X17: a preset name that matches no stored preset is not an error.
    Without a progress callback, [generate_with_preset] then saves, for each
    index in order, an image with the contents of the original under the
    file name of the item: the files after the call are those that saving
    one copy per index leaves, [generated] counts the saves that succeeded,
    [failed_files] lists those that failed, and the original keeps its
    contents. *)
Theorem X17_unknown_preset_saves_copies original_image im count output_folder
    preset_type base_name w w0 :
  Settings.PRESETS !! Py.lower preset_type = None →
  images w !! original_image = Some im →
  mkdir output_folder w = (w0, Py.Ok tt) →
  let saves := save_copies im output_folder base_name (Py.range count)
                 (filesystem w0) in
  ∃ w' r,
    BatchGenerator.generate_with_preset original_image count output_folder
      preset_type base_name None w
    = (w', Py.Ok r)
    ∧ filesystem w' = saves.1
    ∧ images w' !! original_image = Some im
    ∧ BatchGenerator.requested r = count
    ∧ BatchGenerator.generated r = Z.of_nat (length (succeeded saves.2))
    ∧ BatchGenerator.failed r = Z.of_nat (length (failures base_name saves.2))
    ∧ BatchGenerator.failed_files r = failures base_name saves.2.
Proof.
  intros Hname Hi Hmk saves.
  assert (Hi0 : images w0 !! original_image = Some im).
  { unfold mkdir in Hmk. destruct (fs_mkdir _ _) as [s r].
    injection Hmk as <- _. exact Hi. }
  unfold BatchGenerator.generate_with_preset.
  rewrite (Run.bind_ok _ _ _ _ _ Hmk).
  unfold ImageProcessor.get_preset_params. rewrite Hname.
  rewrite Run.bind_run. unfold new_dict at 1.
  set (p := fresh (dom (dicts w0))).
  set (w1 := set_dicts <[p := ∅]> w0).
  assert (Hr : ready original_image im p w1).
  { split; [exact Hi0|]. apply lookup_insert_eq. }
  rewrite Run.bind_run, preset_loop, BatchFacts.loop_run.
  destruct (attempts_save_copies original_image im count output_folder base_name p
              (Py.range count) w1 Hr) as (Hfs & Houts & [Hi' _]).
  change (filesystem w1) with (filesystem w0) in Hfs, Houts. fold saves in Hfs, Houts.
  destruct (attempt_all _ _ (Py.range count) w1) as [w' outs].
  cbn [fst snd] in *. subst outs.
  eexists _, _. split; [reflexivity|].
  cbn [BatchGenerator.requested BatchGenerator.generated BatchGenerator.failed
       BatchGenerator.failed_files BatchGenerator.generated_count
       BatchGenerator.failed_count BatchGenerator.failed_list app].
  repeat split; try reflexivity; try assumption; lia.
Qed.

End preset_batch.
End PresetBatchFacts.

(** X16 on a batch of three items from the creative preset, whose second
    item fails in the progress callback. *)
Lemma X16_preset_batch_witness :
  0 ≤ 3
  ∧ mkdir (RT := Example.runtime) "out" Example.world0 = (Example.world0, Py.Ok tt)
  ∧ Presets.presets_stored Example.world0
  ∧ ∃ w' r,
      BatchGenerator.generate_with_preset 1%positive 3 "out" "Creative" "x"
        Example.failing_callback Example.world0
      = (w', Py.Ok r)
      ∧ BatchGenerator.requested r = 3
      ∧ BatchGenerator.generated r + BatchGenerator.failed r = 3.
Proof.
  assert (Hmk : mkdir (RT := Example.runtime) "out" Example.world0
                = (Example.world0, Py.Ok tt)) by reflexivity.
  assert (Hst : Presets.presets_stored Example.world0).
  { unfold Presets.presets_stored, Settings.PRESETS. cbn [list_to_map foldr].
    repeat (apply map_Forall_insert_2; [eexists; reflexivity|]).
    apply map_Forall_empty. }
  split; [lia|]. split; [exact Hmk|]. split; [exact Hst|].
  destruct (PresetBatchFacts.X16_preset_batch_completes (RT := Example.runtime)
              1%positive 3 "out" "Creative" "x" Example.failing_callback
              Example.world0 Example.world0 ltac:(lia) Hmk Hst)
    as (r & Hrun & _ & Hreq & Hsum & _).
  eexists _, r. split; [exact Hrun|]. split; assumption.
Defined.

(** X17 on a batch of two items with a name that matches no preset. *)
Lemma X17_unknown_preset_witness :
  Settings.PRESETS !! Py.lower "Vintage" = None
  ∧ images Example.world0 !! 1%positive = Some (Example.gradient 6 4)
  ∧ mkdir (RT := Example.runtime) "out" Example.world0 = (Example.world0, Py.Ok tt)
  ∧ ∃ w' r,
      BatchGenerator.generate_with_preset 1%positive 2 "out" "Vintage" "x" None
        Example.world0
      = (w', Py.Ok r)
      ∧ filesystem w'
        = (PresetBatch.save_copies (Example.gradient 6 4) "out" "x" (Py.range 2)
             (filesystem Example.world0)).1
      ∧ BatchGenerator.requested r = 2.
Proof.
  assert (Hmk : mkdir (RT := Example.runtime) "out" Example.world0
                = (Example.world0, Py.Ok tt)) by reflexivity.
  split; [reflexivity|]. split; [reflexivity|]. split; [exact Hmk|].
  destruct (PresetBatchFacts.X17_unknown_preset_saves_copies (RT := Example.runtime)
              1%positive (Example.gradient 6 4) 2 "out" "Vintage" "x"
              Example.world0 Example.world0 eq_refl eq_refl Hmk)
    as (w' & r & Hrun & Hfs & _ & Hreq & _).
  exists w', r. auto.
Defined.

(** The batch of the witness, evaluated: both items are written. *)
Lemma unknown_preset_example_result :
  (BatchGenerator.generate_with_preset (RT := Example.runtime) 1%positive 2 "out"
     "Vintage" "x" None Example.world0).2
  = Py.Ok (BatchGenerator.mkResult 2 2 0 []).
Proof. vm_compute. reflexivity. Qed.

(** ** What a batch leaves behind *)

Module BatchFootprintFacts.
Section batch_footprint.
Context `{RT : Runtime}.
Import Batch BatchFootprint Footprint.

(** The shape of a run of [_generate_random_params]: a new dictionary and
    a new generator state. *)
Lemma random_params_run w :
  ∃ d s,
    BatchGenerator._generate_random_params w
    = (set_py_random s (set_dicts <[fresh (dom (dicts w)) := d]> w),
       Py.Ok (fresh (dom (dicts w)))).
Proof.
  unfold BatchGenerator._generate_random_params, BatchGenerator.random_below,
    random_randint, random_choice_bool, random_uniform, random_randbelow,
    random_random, new_dict, mbind, M_bind, mret, M_ret.
  repeat match goal with
         | |- context [rng_randbelow ?n ?s] =>
             destruct (rng_randbelow n s) as [? ?]; cbn [py_random set_py_random fst snd]
         | |- context [rng_random ?s] =>
             destruct (rng_random s) as [? ?]; cbn [py_random set_py_random fst snd]
         end.
  eexists _, _. reflexivity.
Qed.

(** An item without a progress callback prints nothing, keeps the
    existing objects, and saves at most once, under its own file name. *)
Lemma item_footprint original_image count output_folder base_name i w :
  let run := BatchGenerator.generate_item original_image count output_folder
               base_name None i w in
  stdout run.1 = stdout w
  ∧ images w ⊆ images run.1
  ∧ dicts w ⊆ dicts run.1
  ∧ (filesystem run.1 = filesystem w
     ∨ ∃ im, filesystem run.1 = save_items output_folder base_name [(i, im)]
                                   (filesystem w)).
Proof.
  cbv zeta. unfold BatchGenerator.generate_item, BatchGenerator.call_progress.
  rewrite Run.ret_bind.
  destruct (random_params_run w) as (d & s & Hgen).
  rewrite (Run.bind_ok _ _ _ _ _ Hgen).
  set (l := fresh (dom (dicts w))).
  set (w1 := set_py_random s (set_dicts <[l := d]> w)).
  assert (Hl : dicts w1 !! l = Some d) by apply lookup_insert_eq.
  assert (Hd1 : dicts w ⊆ dicts w1).
  { apply insert_subseteq, Run.new_dict_fresh. }
  pose proof (FootprintFacts.apply_transformations_beside original_image l d w1 Hl)
    as Hbeside.
  destruct (PipelineFacts.apply_transformations_new original_image l w1)
    as (Himg & Hdict & Hnew).
  rewrite Run.bind_run.
  destruct (ImageProcessor.apply_transformations original_image l w1)
    as [w2 [a|e]]; cbn [fst snd] in *.
  - unfold beside_images_and_numpy in Hbeside. injection Hbeside as _ _ Hfs Hout.
    destruct (Hnew a eq_refl) as [_ [im Him]].
    unfold image_save. rewrite (Run.bind_ok _ _ _ _ _ (Run.load_image_ok _ _ _ Him)).
    unfold save_png. rewrite Hfs. change (filesystem w1) with (filesystem w).
    destruct (fs_save_png _ im (filesystem w)) as [fs r] eqn:Hsave.
    cbn [fst snd stdout images dicts filesystem set_filesystem].
    split; [exact Hout|]. split; [exact Himg|]. split; [rewrite Hdict; exact Hd1|].
    right. exists im. cbn [save_items]. rewrite Hsave. reflexivity.
  - unfold beside_images_and_numpy in Hbeside. injection Hbeside as _ _ Hfs Hout.
    split; [exact Hout|]. split; [exact Himg|]. split; [rewrite Hdict; exact Hd1|].
    left. exact Hfs.
Qed.

(** The footprint of the loop. *)
Lemma attempts_footprint original_image count output_folder base_name indices w :
  let run := attempt_all
               (BatchGenerator.generate_item original_image count output_folder
                  base_name None)
               (report base_name) indices w in
  ∃ saves,
    filesystem run.1 = save_items output_folder base_name saves (filesystem w)
    ∧ saves.*1 `sublist_of` indices
    ∧ stdout run.1 = stdout w ++ (failure_line <$> failures base_name run.2)
    ∧ images w ⊆ images run.1
    ∧ dicts w ⊆ dicts run.1.
Proof.
  revert w. induction indices as [|i rest IH]; intros w; cbv zeta.
  - exists []. cbn. rewrite app_nil_r. auto.
  - cbn [attempt_all].
    pose proof (item_footprint original_image count output_folder base_name i w)
      as Hitem. cbv zeta in Hitem.
    destruct (BatchGenerator.generate_item _ _ _ _ _ i w) as [w1 r].
    cbn [fst snd] in Hitem. destruct Hitem as (Hout & Himg & Hdict & Hfs).
    set (w2 := match r with Py.Ok _ => w1 | Py.Raise e => _ end).
    assert (H2 : filesystem w2 = filesystem w1 ∧ images w2 = images w1
                 ∧ dicts w2 = dicts w1
                 ∧ stdout w2
                   = stdout w ++ (failure_line <$> failures base_name [(i, r)])).
    { subst w2. destruct r as [u|e]; cbn.
      - rewrite app_nil_r. auto.
      - rewrite Hout. auto. }
    destruct H2 as (Hfs2 & Himg2 & Hdict2 & Hout2).
    specialize (IH w2). cbv zeta in IH.
    destruct (attempt_all _ _ rest w2) as [w' outs]. cbn [fst snd] in *.
    destruct IH as (saves & Hsaves & Hsub & Hlines & Himg' & Hdict').
    assert (Hlines' : stdout w'
                      = stdout w ++ (failure_line <$> failures base_name ((i, r) :: outs))).
    { rewrite Hlines, Hout2, <- app_assoc. f_equal.
      rewrite <- fmap_app. f_equal. destruct r; reflexivity. }
    destruct Hfs as [Hfs|[im Hfs]].
    + exists saves. split; [congruence|]. split; [apply sublist_cons, Hsub|].
      split; [exact Hlines'|]. split.
      * etrans; [exact Himg|]. rewrite <- Himg2. exact Himg'.
      * etrans; [exact Hdict|]. rewrite <- Hdict2. exact Hdict'.
    + exists ((i, im) :: saves). split.
      { rewrite Hsaves, Hfs2, Hfs. reflexivity. }
      split; [cbn; apply sublist_skip, Hsub|].
      split; [exact Hlines'|]. split.
      * etrans; [exact Himg|]. rewrite <- Himg2. exact Himg'.
      * etrans; [exact Hdict|]. rewrite <- Hdict2. exact Hdict'.
Qed.

(** X18: what a call of [generate_batch] without a progress callback
    leaves behind, once the output folder exists.  The files are those left
    by a sequence of saves, at most one per item, in item order, each under
    the file name of its item; the console gains one line per entry of
    [failed_files] and nothing else; and every image object and dictionary
    that existed before the call is as it was. *)
Theorem X18_batch_footprint original_image count output_folder base_name w w0 :
  mkdir output_folder w = (w0, Py.Ok tt) →
  ∃ w' r saves,
    BatchGenerator.generate_batch original_image count output_folder base_name
      None w
    = (w', Py.Ok r)
    ∧ filesystem w' = save_items output_folder base_name saves (filesystem w0)
    ∧ saves.*1 `sublist_of` Py.range count
    ∧ stdout w' = stdout w0 ++ (failure_line <$> BatchGenerator.failed_files r)
    ∧ images w0 ⊆ images w'
    ∧ dicts w0 ⊆ dicts w'.
Proof.
  intros Hmk. unfold BatchGenerator.generate_batch.
  rewrite (Run.bind_ok _ _ _ _ _ Hmk).
  change (for_each _ (Py.range count) (BatchGenerator.mkCounters 0 0 []))
    with (for_each
            (turn (BatchGenerator.generate_item original_image count output_folder
                     base_name None) base_name)
            (Py.range count) (BatchGenerator.mkCounters 0 0 [])).
  rewrite Run.bind_run, BatchFacts.loop_run.
  destruct (attempts_footprint original_image count output_folder base_name
              (Py.range count) w0) as (saves & Hfs & Hsub & Hout & Himg & Hdict).
  destruct (attempt_all _ _ (Py.range count) w0) as [w' outs]. cbn [fst snd] in *.
  eexists _, _, saves. split; [reflexivity|].
  cbn [BatchGenerator.failed_files BatchGenerator.failed_list app].
  auto.
Qed.

(** X19: a failure to create the output folder is not caught by the
    handler of the items: [generate_batch] and [generate_with_preset] raise
    it and attempt nothing.  With the folder created and a count of 0 or
    less, [generate_batch] attempts nothing either and reports the count
    as requested, with 0 generated and 0 failed. *)
Theorem X19_batch_edges original_image count output_folder preset_type base_name
    cb w :
  match mkdir output_folder w with
  | (w0, Py.Raise e) =>
      BatchGenerator.generate_batch original_image count output_folder base_name
        cb w
      = (w0, Py.Raise e)
      ∧ BatchGenerator.generate_with_preset original_image count output_folder
          preset_type base_name cb w
        = (w0, Py.Raise e)
  | (w0, Py.Ok _) =>
      count ≤ 0 →
      BatchGenerator.generate_batch original_image count output_folder base_name
        cb w
      = (w0, Py.Ok (BatchGenerator.mkResult count 0 0 []))
  end.
Proof.
  destruct (mkdir output_folder w) as [w0 [[]|e]] eqn:Hmk.
  - intros Hcount. unfold BatchGenerator.generate_batch.
    rewrite (Run.bind_ok _ _ _ _ _ Hmk).
    assert (E : Py.range count = []).
    { unfold Py.range. replace (Z.to_nat count) with 0%nat by lia. reflexivity. }
    rewrite E. reflexivity.
  - split.
    + unfold BatchGenerator.generate_batch.
      rewrite (Run.bind_raise _ _ _ _ _ Hmk). reflexivity.
    + unfold BatchGenerator.generate_with_preset.
      rewrite (Run.bind_raise _ _ _ _ _ Hmk). reflexivity.
Qed.

End batch_footprint.
End BatchFootprintFacts.

(** X18 on a batch of two items. *)
Lemma X18_batch_footprint_witness :
  mkdir (RT := Example.runtime) "out" Example.world0 = (Example.world0, Py.Ok tt)
  ∧ ∃ w' r saves,
      BatchGenerator.generate_batch 1%positive 2 "out" "x" None Example.world0
      = (w', Py.Ok r)
      ∧ filesystem w'
        = BatchFootprint.save_items "out" "x" saves (filesystem Example.world0)
      ∧ saves.*1 `sublist_of` Py.range 2
      ∧ images Example.world0 ⊆ images w'.
Proof.
  assert (Hmk : mkdir (RT := Example.runtime) "out" Example.world0
                = (Example.world0, Py.Ok tt)) by reflexivity.
  split; [exact Hmk|].
  destruct (BatchFootprintFacts.X18_batch_footprint (RT := Example.runtime)
              1%positive 2 "out" "x" Example.world0 Example.world0 Hmk)
    as (w' & r & saves & Hrun & Hfs & Hsub & _ & Himg & _).
  exists w', r, saves. auto.
Defined.

(** ** Motion blur *)

Module MotionBlurFacts.
Section motion_blur.
Context `{RT : Runtime}.
Import MotionKernel.

(** Checked for every size up to the largest dimension of an image the
    processor accepts. *)
Lemma middle_row_small size :
  1 ≤ size ≤ Settings.MAX_IMAGE_SIZE → middle_row size = Py.Ok ((size - 1) / 2).
Proof.
  intros Hsize.
  assert (Hall : forallb middle_row_is_half (map Z.of_nat (seq 1 2000)) = true)
    by (vm_compute; reflexivity).
  rewrite forallb_forall in Hall.
  assert (Hin : In size (map Z.of_nat (seq 1 2000))).
  { unfold Settings.MAX_IMAGE_SIZE in Hsize.
    apply in_map_iff. exists (Z.to_nat size). split; [lia|]. apply in_seq. lia. }
  specialize (Hall size Hin). unfold middle_row_is_half in Hall.
  destruct (middle_row size) as [m|e]; [|discriminate].
  apply Z.eqb_eq in Hall. congruence.
Qed.

Lemma zero_quotient_small size :
  1 ≤ size ≤ Settings.MAX_IMAGE_SIZE → (0 / Py.float_of_Z size)%float = 0%float.
Proof.
  intros Hsize.
  assert (Hall : forallb zero_quotient_is_zero (map Z.of_nat (seq 1 2000)) = true)
    by (vm_compute; reflexivity).
  rewrite forallb_forall in Hall.
  assert (Hin : In size (map Z.of_nat (seq 1 2000))).
  { unfold Settings.MAX_IMAGE_SIZE in Hsize.
    apply in_map_iff. exists (Z.to_nat size). split; [lia|]. apply in_seq. lia. }
  specialize (Hall size Hin). unfold zero_quotient_is_zero in Hall.
  apply Prim2SF_inj.
  destruct (Prim2SF (0 / Py.float_of_Z size)) as [[]| | |]; try discriminate.
  reflexivity.
Qed.

(** X20: for a size from 1 to 2000 (the largest dimension of an image
    the processor accepts), [motion_blur] filters the image with
    a [size] by [size] kernel that is a horizontal line: row
    [(size - 1) // 2] (the middle row; the upper of the two middle rows for
    an even size) holds [1 / size] and every other entry is zero.  The
    kernel is built without failure, so the call fails only where the
    conversions or the filter do. *)
Theorem X20_motion_blur_kernel image size w :
  1 ≤ size ≤ Settings.MAX_IMAGE_SIZE →
  AugmentationEngine.motion_blur image size w
  = (image_cv ← Helpers.pil_to_cv2 image;
     blurred ← lift (cv2_filter2D image_cv (line_kernel size));
     Helpers.cv2_to_pil blurred) w.
Proof.
  intros Hsize. unfold AugmentationEngine.motion_blur.
  pose proof Hsize as Hbound. unfold Settings.MAX_IMAGE_SIZE in Hbound.
  rewrite !Run.bind_run.
  destruct (Helpers.pil_to_cv2 image w) as [w1 [image_cv|e]]; [|reflexivity].
  unfold AugmentationEngine.np_zeros2.
  assert (Hneg : (size <? 0) = false) by (apply Z.ltb_ge; lia).
  rewrite Hneg, Run.lift_bind.
  fold (middle_row size). rewrite (middle_row_small size Hsize), Run.lift_bind.
  unfold AugmentationEngine.set_row_ones.
  assert (Hmid : 0 ≤ (size - 1) / 2 < size).
  { split; [apply Z.div_pos; lia|]. apply Z.div_lt_upper_bound; lia. }
  assert (H1 : ((size - 1) / 2 <? 0) = false) by (apply Z.ltb_ge; lia).
  assert (H2 : (0 <=? (size - 1) / 2) = true) by (apply Z.leb_le; lia).
  assert (H3 : ((size - 1) / 2 <? size) = true) by (apply Z.ltb_lt; lia).
  rewrite H1, H2, H3. cbn [andb]. rewrite Run.lift_bind.
  assert (Hk : map (map (λ x, x / Py.float_of_Z size)%float)
                 (<[Z.to_nat ((size - 1) / 2) := replicate (Z.to_nat size) 1%float]>
                    (replicate (Z.to_nat size) (replicate (Z.to_nat size) 0%float)))
               = line_kernel size).
  { unfold line_kernel.
    change (map ?f ?l) with (f <$> l).
    rewrite list_fmap_insert, fmap_replicate.
    change (map ?f ?l) with (f <$> l). rewrite !fmap_replicate.
    rewrite (zero_quotient_small size Hsize). reflexivity. }
  rewrite Hk. reflexivity.
Qed.

End motion_blur.
End MotionBlurFacts.

(** X20 for the size the pipeline uses. *)
Lemma X20_motion_blur_witness :
  1 ≤ AugmentationEngine.default_motion_size ≤ Settings.MAX_IMAGE_SIZE
  ∧ AugmentationEngine.motion_blur (RT := Example.runtime) 1%positive
      AugmentationEngine.default_motion_size Example.world0
    = (image_cv ← Helpers.pil_to_cv2 1%positive;
       blurred ← lift (cv2_filter2D (Runtime := Example.runtime) image_cv
                         (MotionKernel.line_kernel
                            AugmentationEngine.default_motion_size));
       Helpers.cv2_to_pil blurred) Example.world0.
Proof.
  assert (H : 1 ≤ AugmentationEngine.default_motion_size ≤ Settings.MAX_IMAGE_SIZE)
    by (split; vm_compute; discriminate).
  split; [exact H|].
  exact (MotionBlurFacts.X20_motion_blur_kernel (RT := Example.runtime) 1%positive
           AugmentationEngine.default_motion_size Example.world0 H).
Defined.

(** ** The engine and its parameters *)

Module EngineContract.
Section contract.
Context `{RT : Runtime}.
Import Delegation MotionKernel.

(** The enhancers pass the factor to the blend unchecked. *)
Lemma enhance_run kind image im f w :
  images w !! image = Some im →
  AugmentationEngine.enhance kind image (Py.VFloat f) w
  = returned (enhanced kind im f) w.
Proof.
  intros E. unfold AugmentationEngine.enhance, returned, enhanced.
  rewrite (Run.bind_ok _ _ _ _ _ (Run.load_image_ok _ _ _ E)).
  rewrite Run.lift_bind.
  destruct (pil_degenerate kind im) as [d|e]; [|reflexivity].
  cbn [Py.rbind]. rewrite Run.lift_bind. cbn [Py.as_double Py.as_num Py.num_to_double].
  rewrite Run.lift_bind. destruct (pil_blend d im f) as [out|e]; reflexivity.
Qed.

(** The blur passes the halved kernel size to the filter unchecked. *)
Lemma gaussian_blur_run image im kernel_size w :
  images w !! image = Some im →
  AugmentationEngine.gaussian_blur image kernel_size w
  = returned (pil_gaussian_blur im (kernel_size / 2)) w.
Proof.
  intros E. unfold AugmentationEngine.gaussian_blur, returned.
  rewrite (Run.bind_ok _ _ _ _ _ (Run.load_image_ok _ _ _ E)).
  rewrite Run.lift_bind.
  destruct (pil_gaussian_blur im (kernel_size / 2)) as [out|e]; reflexivity.
Qed.

(** A rotation by a float angle other than zero is the OpenCV call. *)
Lemma rotate_run image im f w :
  images w !! image = Some im → Pil.well_formed im → Pil.nonempty im →
  Py.py_eqb (Py.VFloat f) (Py.VInt 0) = false →
  AugmentationEngine.rotate image (Py.VFloat f) w = warped im f w.
Proof.
  intros E Hwf Hne Hf. unfold AugmentationEngine.rotate, warped. rewrite Hf.
  rewrite (Run.bind_ok _ _ _ _ _ (EngineFailures.pil_to_cv2_ok image im w E Hwf Hne)).
  fold (bgr im). unfold bgr at 1.
  rewrite (GeometryFacts.shape2_rows im Hwf Hne).
  rewrite Run.lift_bind. reflexivity.
Qed.

(** The motion blur builds its kernel without failure for the sizes from
    1 to the largest dimension of an image. *)
Lemma motion_blur_run image im size w :
  images w !! image = Some im → Pil.well_formed im → Pil.nonempty im →
  1 ≤ size ≤ Settings.MAX_IMAGE_SIZE →
  AugmentationEngine.motion_blur image size w = filtered im (line_kernel size) w.
Proof.
  intros E Hwf Hne Hsize. unfold AugmentationEngine.motion_blur, filtered.
  pose proof Hsize as Hbound. unfold Settings.MAX_IMAGE_SIZE in Hbound.
  rewrite (Run.bind_ok _ _ _ _ _ (EngineFailures.pil_to_cv2_ok image im w E Hwf Hne)).
  fold (bgr im). unfold AugmentationEngine.np_zeros2.
  assert (Hneg : (size <? 0) = false) by (apply Z.ltb_ge; lia).
  rewrite Hneg, Run.lift_bind.
  fold (middle_row size).
  rewrite (MotionBlurFacts.middle_row_small size Hsize), Run.lift_bind.
  unfold AugmentationEngine.set_row_ones.
  assert (Hmid : 0 ≤ (size - 1) / 2 < size).
  { split; [apply Z.div_pos; lia|]. apply Z.div_lt_upper_bound; lia. }
  assert (H1 : ((size - 1) / 2 <? 0) = false) by (apply Z.ltb_ge; lia).
  assert (H2 : (0 <=? (size - 1) / 2) = true) by (apply Z.leb_le; lia).
  assert (H3 : ((size - 1) / 2 <? size) = true) by (apply Z.ltb_lt; lia).
  rewrite H1, H2, H3. cbn [andb]. rewrite Run.lift_bind.
  assert (Hk : map (map (λ x, x / Py.float_of_Z size)%float)
                 (<[Z.to_nat ((size - 1) / 2) := replicate (Z.to_nat size) 1%float]>
                    (replicate (Z.to_nat size) (replicate (Z.to_nat size) 0%float)))
               = line_kernel size).
  { unfold line_kernel.
    change (map ?f ?l) with (f <$> l).
    rewrite list_fmap_insert, fmap_replicate.
    change (map ?f ?l) with (f <$> l). rewrite !fmap_replicate.
    rewrite (MotionBlurFacts.zero_quotient_small size Hsize). reflexivity. }
  rewrite Hk. reflexivity.
Qed.

(** The noise fails only with the draw of its samples. *)
Lemma noise_succeeds_with_draw image im sigma w :
  images w !! image = Some im → Pil.well_formed im → Pil.nonempty im →
  Py.is_ok (AugmentationEngine.add_gaussian_noise image sigma w).2
  = Py.is_ok (np_random_normal 0 sigma
                (Z.to_nat (Z.of_nat (Pil.height im) * Z.of_nat (Pil.width im) * 3))
                (np_random w)).2.
Proof.
  intros E Hwf Hne.
  unfold AugmentationEngine.add_gaussian_noise.
  rewrite (Run.bind_ok _ _ _ _ _ (EngineFailures.pil_to_cv2_ok image im w E Hwf Hne)).
  set (a := map (map Helpers.swap_rb) (Pil.rows im)).
  destruct Hwf as [Hlen Hrows]. destruct Hne as [Hw Hh].
  assert (Ha_len : length a = Pil.height im) by (subst a; rewrite length_map; exact Hlen).
  assert (Ha_rows : Forall (λ r, length r = Pil.width im) a).
  { subst a. apply Forall_fmap. eapply Forall_impl; [exact Hrows|].
    intros r Hr. cbn. rewrite length_map. exact Hr. }
  rewrite (NoiseFacts.shape2_uniform a _ _ Hh Ha_len Ha_rows).
  rewrite Run.bind_run. unfold np_normal.
  destruct (np_random_normal _ _ _ _) as [s [gauss|e]]; cbn [fst snd Py.is_ok];
    [|reflexivity].
  set (noisy := AugmentationEngine.add_noise a _ gauss).
  assert (Hn_len : length noisy = Pil.height im)
    by (subst noisy; rewrite NoiseFacts.add_noise_length; exact Ha_len).
  assert (Hn_rows : Forall (λ r, length r = Pil.width im) noisy)
    by (subst noisy; apply NoiseFacts.add_noise_rows, Ha_rows).
  unfold Helpers.cv2_to_pil. rewrite Run.lift_bind.
  unfold Helpers.cv2_cvtColor_swap.
  rewrite (NoiseFacts.shape2_uniform noisy _ _ Hh Hn_len Hn_rows). cbn [fst snd].
  assert (E1 : (Z.of_nat (Pil.height im) =? 0) = false) by (apply Z.eqb_neq; lia).
  assert (E2 : (Z.of_nat (Pil.width im) =? 0) = false) by (apply Z.eqb_neq; lia).
  rewrite E1, E2. reflexivity.
Qed.

Lemma flip_ok image im method w :
  images w !! image = Some im →
  Py.is_ok (image_transpose image method w).2 = true.
Proof.
  intros E. destruct (Run.image_transpose_ok image method im w E) as (l & _ & ->).
  reflexivity.
Qed.

(** An array with pixels converts back to an image. *)
Lemma cv2_to_pil_ok (a : ndarray) w :
  has_pixels a → Py.is_ok (Helpers.cv2_to_pil a w).2 = true.
Proof.
  intros [H1 H2]. unfold Helpers.cv2_to_pil, Helpers.cv2_cvtColor_swap.
  apply Z.eqb_neq in H1, H2. rewrite H1, H2. reflexivity.
Qed.

Lemma bgr_has_pixels im :
  Pil.well_formed im → Pil.nonempty im →
  Helpers.shape2 (bgr im) = (Z.of_nat (Pil.height im), Z.of_nat (Pil.width im))
  ∧ has_pixels (bgr im).
Proof.
  intros Hwf Hne. pose proof (GeometryFacts.shape2_rows im Hwf Hne) as Hs.
  fold (bgr im) in Hs. split; [exact Hs|].
  unfold has_pixels. rewrite Hs. destruct Hne as [Hw Hh]. cbn. lia.
Qed.

(** The angles of the data model convert to floats. *)
Lemma int_to_double_small n :
  -180 ≤ n ≤ 180 → Py.int_to_double n = Py.Ok (Py.float_of_Z n).
Proof.
  intros Hn.
  assert (Hall : forallb converts (map (λ k, Z.of_nat k - 180) (seq 0 361)) = true)
    by (vm_compute; reflexivity).
  rewrite forallb_forall in Hall.
  assert (Hin : In n (map (λ k, Z.of_nat k - 180) (seq 0 361))).
  { apply in_map_iff. exists (Z.to_nat (n + 180)). split; [lia|]. apply in_seq. lia. }
  specialize (Hall n Hin). unfold converts, Py.int_to_double in *.
  destruct (Prim2SF (Py.float_of_Z n)); first [reflexivity | discriminate].
Qed.

(** A rotation by an integer angle of the data model. *)
Lemma rotate_degrees image im n w :
  images w !! image = Some im → Pil.well_formed im → Pil.nonempty im →
  -180 ≤ n ≤ 180 →
  AugmentationEngine.rotate image (Py.VInt n) w
  = if n =? 0 then (w, Py.Ok image) else warped im (Py.float_of_Z n) w.
Proof.
  intros E Hwf Hne Hn. unfold AugmentationEngine.rotate, warped.
  change (Py.py_eqb (Py.VInt n) (Py.VInt 0)) with (n =? 0).
  destruct (n =? 0); [reflexivity|].
  rewrite (Run.bind_ok _ _ _ _ _ (EngineFailures.pil_to_cv2_ok image im w E Hwf Hne)).
  fold (bgr im). rewrite (proj1 (bgr_has_pixels im Hwf Hne)).
  rewrite Run.lift_bind. cbn [Helpers.cv2_double].
  rewrite (int_to_double_small n Hn). reflexivity.
Qed.

(** In-domain calls return an image when the libraries accept them. *)
Lemma in_domain_success image im w :
  images w !! image = Some im → Pil.well_formed im → Pil.nonempty im →
  libraries_accept →
  (∀ kind f,
     Py.is_ok (AugmentationEngine.enhance kind image (Py.VFloat f) w).2 = true)
  ∧ (∀ n, -180 ≤ n ≤ 180 →
       Py.is_ok (AugmentationEngine.rotate image (Py.VInt n) w).2 = true)
  ∧ (∀ b, 1 ≤ b ≤ Settings.MAX_IMAGE_SIZE →
       Py.is_ok (AugmentationEngine.motion_blur image b w).2 = true)
  ∧ (∀ k, 0 ≤ k →
       Py.is_ok (AugmentationEngine.gaussian_blur image k w).2 = true)
  ∧ (∀ sigma, PrimFloat.leb 0 sigma = true →
       Py.is_ok (AugmentationEngine.add_gaussian_noise image sigma w).2 = true).
Proof.
  intros E Hwf Hne (Henh & Hwarp & Hfilter & Hblur & Hdraw).
  destruct (bgr_has_pixels im Hwf Hne) as [Hshape Hpix].
  split; [|split; [|split; [|split]]].
  - intros kind f. rewrite (enhance_run kind image im f w E).
    specialize (Henh kind im f Hwf Hne). unfold returned.
    destruct (enhanced kind im f); [reflexivity|discriminate].
  - intros n Hn. rewrite (rotate_degrees image im n w E Hwf Hne Hn).
    destruct (n =? 0); [reflexivity|].
    destruct (Hwarp (bgr im) (Z.of_nat (Pil.width im) / 2, Z.of_nat (Pil.height im) / 2)
                n Hpix Hn) as (r & Hr & Hrs).
    rewrite Hshape in Hr. cbn [fst snd] in Hr.
    unfold warped. rewrite Hr, Run.lift_bind.
    apply cv2_to_pil_ok. unfold has_pixels. rewrite Hrs. exact Hpix.
  - intros b Hb. rewrite (motion_blur_run image im b w E Hwf Hne Hb).
    destruct (Hfilter (bgr im) b Hpix ltac:(lia)) as (r & Hr & Hrs).
    unfold filtered. rewrite Hr, Run.lift_bind.
    apply cv2_to_pil_ok. unfold has_pixels. rewrite Hrs. exact Hpix.
  - intros k Hk. rewrite (gaussian_blur_run image im k w E).
    assert (Hradius : 0 ≤ k / 2) by (apply Z.div_pos; lia).
    specialize (Hblur im (k / 2) Hwf Hne Hradius).
    unfold returned. destruct (pil_gaussian_blur im (k / 2)); [reflexivity|discriminate].
  - intros sigma Hs. rewrite (noise_succeeds_with_draw image im sigma w E Hwf Hne).
    apply Hdraw, Hs.
Qed.

(** C1: what each operation of the engine does with its parameter, on
    an image with pixels:
    - the four factor operations pass every float factor, whatever its
      sign, to Pillow's blend unchecked, and what they return or raise is
      what the blend does;
    - [pixelate] raises ZeroDivisionError for size 0, ValueError for a
      negative size, and for a size of at least 1 it succeeds exactly when
      the size exceeds neither dimension;
    - [motion_blur] raises IndexError for size 0 and ValueError for a
      negative size, and for a size from 1 to 2000 it builds its kernel
      without failure and is the OpenCV filter followed by the conversion
      back;
    - [gaussian_blur] passes the radius [kernel_size // 2] to Pillow's
      filter for every kernel size, so that size 0 does what size 1 does;
    - the two flips return an image;
    - [rotate] returns its input for a float angle equal to 0 and is
      otherwise the OpenCV call followed by the conversion back;
    - [add_gaussian_noise] returns an image exactly when numpy's draw of the
      samples succeeds;
    - and where the libraries accept the arguments of their domain, the
      four factor operations with every float factor, [rotate] with an
      integer angle within [-180, 180], [motion_blur] with a size from 1 to
      2000, [gaussian_blur] with a size of at least 0 and
      [add_gaussian_noise] with a sigma of at least 0 return an image. *)
Theorem C1_engine_has_no_parameter_check image im w :
  images w !! image = Some im → Pil.well_formed im → Pil.nonempty im →
  (∀ f,
     AugmentationEngine.adjust_brightness image (Py.VFloat f) w
     = returned (enhanced Pil.Brightness im f) w
     ∧ AugmentationEngine.adjust_contrast image (Py.VFloat f) w
       = returned (enhanced Pil.Contrast im f) w
     ∧ AugmentationEngine.adjust_saturation image (Py.VFloat f) w
       = returned (enhanced Pil.Color im f) w
     ∧ AugmentationEngine.adjust_sharpness image (Py.VFloat f) w
       = returned (enhanced Pil.Sharpness im f) w)
  ∧ (Py.raised_class (AugmentationEngine.pixelate image 0 w).2
     = Some Py.ZeroDivisionError
     ∧ (∀ b, b < 0 →
          Py.raised_class (AugmentationEngine.pixelate image b w).2
          = Some Py.ValueError)
     ∧ (∀ b, 1 ≤ b →
          (Py.is_ok (AugmentationEngine.pixelate image b w).2 = true
           ↔ b ≤ Z.of_nat (Pil.width im) ∧ b ≤ Z.of_nat (Pil.height im))))
  ∧ (Py.raised_class (AugmentationEngine.motion_blur image 0 w).2
     = Some Py.IndexError
     ∧ (∀ b, b < 0 →
          Py.raised_class (AugmentationEngine.motion_blur image b w).2
          = Some Py.ValueError)
     ∧ (∀ b, 1 ≤ b ≤ Settings.MAX_IMAGE_SIZE →
          AugmentationEngine.motion_blur image b w = filtered im (line_kernel b) w))
  ∧ ((∀ k, AugmentationEngine.gaussian_blur image k w
           = returned (pil_gaussian_blur im (k / 2)) w)
     ∧ AugmentationEngine.gaussian_blur image 0 w
       = AugmentationEngine.gaussian_blur image 1 w)
  ∧ (Py.is_ok (AugmentationEngine.flip_horizontal image w).2 = true
     ∧ Py.is_ok (AugmentationEngine.flip_vertical image w).2 = true)
  ∧ (∀ f,
       if Py.py_eqb (Py.VFloat f) (Py.VInt 0)
       then AugmentationEngine.rotate image (Py.VFloat f) w = (w, Py.Ok image)
       else AugmentationEngine.rotate image (Py.VFloat f) w = warped im f w)
  ∧ (∀ sigma,
       Py.is_ok (AugmentationEngine.add_gaussian_noise image sigma w).2
       = Py.is_ok (np_random_normal 0 sigma
                     (Z.to_nat (Z.of_nat (Pil.height im) * Z.of_nat (Pil.width im) * 3))
                     (np_random w)).2)
  ∧ (libraries_accept →
       (∀ f,
          Py.is_ok (AugmentationEngine.adjust_brightness image (Py.VFloat f) w).2
          = true
          ∧ Py.is_ok (AugmentationEngine.adjust_contrast image (Py.VFloat f) w).2
            = true
          ∧ Py.is_ok (AugmentationEngine.adjust_saturation image (Py.VFloat f) w).2
            = true
          ∧ Py.is_ok (AugmentationEngine.adjust_sharpness image (Py.VFloat f) w).2
            = true)
       ∧ (∀ n, -180 ≤ n ≤ 180 →
          Py.is_ok (AugmentationEngine.rotate image (Py.VInt n) w).2 = true)
       ∧ (∀ b, 1 ≤ b ≤ Settings.MAX_IMAGE_SIZE →
            Py.is_ok (AugmentationEngine.motion_blur image b w).2 = true)
       ∧ (∀ k, 0 ≤ k →
            Py.is_ok (AugmentationEngine.gaussian_blur image k w).2 = true)
       ∧ (∀ sigma, PrimFloat.leb 0 sigma = true →
            Py.is_ok (AugmentationEngine.add_gaussian_noise image sigma w).2 = true)).
Proof.
  intros E Hwf Hne.
  split; [|split; [|split; [|split; [|split; [|split; [|split]]]]]].
  - intros f. repeat split; apply (enhance_run _ image im f w E).
  - split; [|split].
    + rewrite (PixelateFacts.pixelate_zero image im w E). reflexivity.
    + intros b Hb.
      rewrite (EngineFailures.pixelate_negative image im b w E Hne Hb). reflexivity.
    + intros b Hb. split.
      * intros Hok.
        destruct (Z_le_gt_dec b (Z.of_nat (Pil.width im))) as [Hw|Hw];
          [destruct (Z_le_gt_dec b (Z.of_nat (Pil.height im))) as [Hh|Hh]|];
          [split; assumption|exfalso..];
          rewrite (PixelateFacts.pixelate_refused image im b w E Hne) in Hok;
          try discriminate; try lia;
          [right|left]; rewrite Z.div_small; lia.
      * intros Hle.
        destruct (PixelateFacts.pixelate_ok image im b w E Hwf Hb Hle)
          as (? & ? & ? & ? & -> & _). reflexivity.
  - split; [|split].
    + rewrite (EngineFailures.motion_blur_zero image im w E Hwf Hne). reflexivity.
    + intros b Hb.
      rewrite (EngineFailures.motion_blur_negative image im b w E Hwf Hne Hb).
      reflexivity.
    + intros b Hb. apply (motion_blur_run image im b w E Hwf Hne Hb).
  - split.
    + intros k. apply (gaussian_blur_run image im k w E).
    + rewrite !(gaussian_blur_run image im _ w E). reflexivity.
  - split; apply (flip_ok image im _ w E).
  - intros f. destruct (Py.py_eqb (Py.VFloat f) (Py.VInt 0)) eqn:Hf.
    + unfold AugmentationEngine.rotate. rewrite Hf. reflexivity.
    + apply (rotate_run image im f w E Hwf Hne Hf).
  - intros sigma. apply (noise_succeeds_with_draw image im sigma w E Hwf Hne).
  - intros Hlib.
    destruct (in_domain_success image im w E Hwf Hne Hlib)
      as (Henh & Hrotate & Hmotion & Hblur & Hnoise).
    split; [|split; [|split; [|split]]]; try assumption.
    intros f. repeat split; apply Henh.
Qed.

End contract.
End EngineContract.

(** C1 read literally fails twice on the 6 by 4 example image: brightness
    with factor 0 returns an image, and pixelation with the in-domain block
    size 5 raises. *)
Lemma C1_engine_counterexample :
  Pil.well_formed (Example.gradient 6 4)
  ∧ images Example.world0 !! 1%positive = Some (Example.gradient 6 4)
  ∧ (AugmentationEngine.adjust_brightness (RT := Example.runtime) 1%positive
       (Py.VFloat 0) Example.world0).2 = Py.Ok 2%positive
  ∧ (AugmentationEngine.pixelate (RT := Example.runtime) 1%positive 5
       Example.world0).2
    = Py.Raise (Py.Exn Py.ValueError "height and width must be > 0").
Proof.
  split; [|split; [|split]]; [|reflexivity|vm_compute; reflexivity..].
  split; [reflexivity|]. repeat constructor.
Qed.

(** C1 on the example image, with the libraries of the examples, which
    accept every argument. *)
Lemma C1_engine_witness :
  images Example.world0 !! 1%positive = Some (Example.gradient 6 4)
  ∧ Pil.well_formed (Example.gradient 6 4)
  ∧ Pil.nonempty (Example.gradient 6 4)
  ∧ Delegation.libraries_accept (RT := Example.runtime)
  ∧ Py.raised_class
      (AugmentationEngine.pixelate (RT := Example.runtime) 1%positive 0
         Example.world0).2
    = Some Py.ZeroDivisionError
  ∧ AugmentationEngine.gaussian_blur (RT := Example.runtime) 1%positive 0
      Example.world0
    = AugmentationEngine.gaussian_blur 1%positive 1 Example.world0
  ∧ Py.is_ok
      (AugmentationEngine.rotate (RT := Example.runtime) 1%positive (Py.VInt 30)
         Example.world0).2
    = true
  ∧ Py.is_ok
      (AugmentationEngine.motion_blur (RT := Example.runtime) 1%positive
         AugmentationEngine.default_motion_size Example.world0).2
    = true.
Proof.
  assert (Hwf : Pil.well_formed (Example.gradient 6 4)).
  { split; [reflexivity|]. repeat constructor. }
  assert (Hne : Pil.nonempty (Example.gradient 6 4)) by (split; cbn; lia).
  assert (Hlib : Delegation.libraries_accept (RT := Example.runtime)).
  { split; [|split; [|split; [|split]]].
    - intros kind im factor _ _. reflexivity.
    - intros a centre n _ _. exists a. split; reflexivity.
    - intros a size _ _. exists a. split; reflexivity.
    - intros im radius _ _ _. reflexivity.
    - intros sigma n s _. reflexivity. }
  split; [reflexivity|]. split; [exact Hwf|]. split; [exact Hne|].
  split; [exact Hlib|].
  destruct (EngineContract.C1_engine_has_no_parameter_check (RT := Example.runtime)
              1%positive (Example.gradient 6 4) Example.world0 eq_refl Hwf Hne)
    as (_ & (Hzero & _) & _ & (_ & Hblur) & _ & _ & _ & Hdomain).
  destruct (Hdomain Hlib) as (_ & Hrotate & Hmotion & _).
  split; [exact Hzero|]. split; [exact Hblur|]. split.
  - apply Hrotate. lia.
  - apply Hmotion. split; vm_compute; discriminate.
Defined.
